(** * Creative-studio backend: relay to text providers and per-user records

    A shallow embedding of the two server variants of the repository:

    - [Simple]  : [simple-backend-server.js], the dependency-free server whose
                  whole logic sits in [handleRequest];
    - [Express] : the Express application (route handlers behind the
                  [authenticateUser] middleware).

    Both keep two in-memory stores ([programmes], [scripts]), objects keyed by
    user id whose values are arrays with the newest record first, and both
    forward prompts to one of three upstream providers.

    Conventions of the embedding.
    - A JS object used as a map is a [gmap string _]; user ids are ordinary
      keys (not names inherited from [Object.prototype]).
    - A JS array is a [list]; [unshift] is cons, [splice(i, 1)] is stdpp's
      [delete i], [list[i] = x] is [<[i:=x]>], [findIndex] returns
      [option nat] with [None] for [-1].
    - Everything a handler reads from outside the program while it serves one
      request (the environment variables, the answer of [fetch], the clock and
      [Math.random]) is collected in a [World]; the upstream calls a handler
      issues are returned as a list, in order.
    - A thrown [Error] is [Throw message]; where the message is composed by
      the JavaScript engine (a [TypeError]) it is the text V8 composes.
    - Strings are sequences of bytes, text outside ASCII in UTF-8.
    - [handleRequestAs], [serve] and the Express callbacks serve a request to
      completion before the next one starts.  The one place where a handler
      reads the store before a wait and writes it after the wait, the PUT
      branch of [simple-backend-server.js], is also given in two parts
      ([Simple.arrived], [Simple.resumed]) with the requests served in
      between ([Simple.putInterleaved]). *)

From stdpp Require Import gmap strings list pretty.
From Stdlib Require Import ZArith QArith Ascii.

Set Warnings "-register-all,-clear-no-such-hyp".
Local Open Scope string_scope.
Local Open Scope Z_scope.

(** ** JavaScript values *)

(** Values that [JSON.parse] produces, plus [undefined] (the value of a
    missing property).  Numbers are restricted to integers.  An object is the
    list of its properties; a property's value is its first binding. *)
Inductive JsVal :=
| JUndefined
| JNull
| JBool (b : bool)
| JNum (n : Z)
| JStr (s : string)
| JArr (items : list JsVal)
| JObj (fields : list (string * JsVal)).

(** Result of an operation that may throw. *)
Inductive Outcome (A : Type) :=
| Return (a : A)
| Throw (message : string).
Arguments Return {A} a.
Arguments Throw {A} message.

(** [!!v] of JavaScript. *)
Definition truthy (v : JsVal) : bool :=
  match v with
  | JUndefined | JNull => false
  | JBool b => b
  | JNum n => negb (n =? 0)
  | JStr s => negb (bool_decide (s = ""))
  | JArr _ | JObj _ => true
  end.

(** [a || b]. *)
Definition js_or (a b : JsVal) : JsVal := if truthy a then a else b.

Fixpoint assoc (k : string) (fields : list (string * JsVal)) : JsVal :=
  match fields with
  | [] => JUndefined
  | (k', v) :: rest => if decide (k = k') then v else assoc k rest
  end.

(** [v[k]] for the property names the handlers destructure: defined on
    objects, [undefined] on every other non-null value. *)
Definition prop (k : string) (v : JsVal) : JsVal :=
  match v with
  | JObj fields => assoc k fields
  | _ => JUndefined
  end.

Fixpoint join (sep : string) (l : list string) : string :=
  match l with
  | [] => ""
  | [s] => s
  | s :: rest => s ++ sep ++ join sep rest
  end.

(** [String(v)]. *)
Fixpoint ToString (v : JsVal) : string :=
  match v with
  | JUndefined => "undefined"
  | JNull => "null"
  | JBool true => "true"
  | JBool false => "false"
  | JNum n => pretty n
  | JStr s => s
  | JArr items =>
      join "," (List.map (fun e => match e with
                                   | JUndefined | JNull => ""
                                   | _ => ToString e
                                   end) items)
  | JObj _ => "[object Object]"
  end.

(** Whether [String(v)] returns.  Converting an object that has a property
    of its own named [toString] throws a [TypeError]: a value out of
    [JSON.parse] is never callable, and the inherited [valueOf] returns the
    object itself.  An array converts its elements in turn. *)
Fixpoint stringifiable (v : JsVal) : bool :=
  match v with
  | JArr items => forallb stringifiable items
  | JObj fields => negb (existsb (λ kv, bool_decide (kv.1 = "toString")) fields)
  | _ => true
  end.

(** ** Strings *)

Definition lower_ascii (c : ascii) : ascii :=
  let n := nat_of_ascii c in
  if (65 <=? n)%nat && (n <=? 90)%nat then ascii_of_nat (n + 32) else c.

(** [s.toLowerCase()] on the letters A-Z; other characters are kept (none of
    them lowercases to a letter that occurs in a model name). *)
Fixpoint toLowerCase (s : string) : string :=
  match s with
  | EmptyString => EmptyString
  | String c rest => String (lower_ascii c) (toLowerCase rest)
  end.

(** [s.startsWith(p)]. *)
Definition startsWith (s p : string) : bool := String.prefix p s.

(** [s.slice(n)] for [0 <= n]. *)
Fixpoint slice (n : nat) (s : string) : string :=
  match n, s with
  | O, _ => s
  | S n', EmptyString => EmptyString
  | S n', String _ rest => slice n' rest
  end.

(** [s.substr(start, len)]. *)
Definition substr (s : string) (start len : nat) : string :=
  String.substring start len s.

Fixpoint afterLastSlash (cur s : string) : string :=
  match s with
  | EmptyString => cur
  | String c rest =>
      if Ascii.eqb c "/" then afterLastSlash rest rest
      else afterLastSlash cur rest
  end.

(** [s.split('/').pop()]: what follows the last slash, or all of [s]. *)
Definition split_pop (s : string) : string := afterLastSlash s s.

(** ** Records *)

Module Programme.
Record t := mk {
  id : string;
  name : JsVal;
  genre : JsVal;
  targetAudience : JsVal;
  episodeLength : JsVal;
  styleReferences : JsVal;
  createdAt : string;
  updatedAt : option string;
}.
End Programme.

Module Script.
Record t := mk {
  id : string;
  programmeId : JsVal;
  topic : JsVal;
  content : JsVal;
  sources : JsVal;
  createdAt : string;
  updatedAt : option string;
}.
End Script.

(** The two module-level objects [programmes] and [scripts]. *)
Record Store := mkStore {
  programmes : gmap string (list Programme.t);
  scripts : gmap string (list Script.t);
}.

(** State at process start: [const programmes = {}; const scripts = {};]. *)
Definition initial : Store := mkStore ∅ ∅.

(** [index = list.findIndex(x => x.id === id)], returned together with
    [list[index]]; [None] stands for [-1]. *)
Definition findIndex {A} (getId : A → string) (id : string) (l : list A)
  : option (nat * A) :=
  list_find (λ x, getId x = id) l.

(** [store[userId] || []]. *)
Definition listOf {A} (m : gmap string (list A)) (userId : string) : list A :=
  default [] (m !! userId).

(** [if (!store[userId]) store[userId] = []; store[userId].unshift(x)]. *)
Definition unshift {A} (m : gmap string (list A)) (userId : string) (x : A)
  : gmap string (list A) :=
  <[userId := x :: listOf m userId]> m.

(** ** The outside world *)

(** Body of an upstream request, before [JSON.stringify]. *)
Inductive ProviderBody :=
| GeminiBody (text : JsVal) (maxOutputTokens : Z) (temperature : Q)
| ClaudeBody (model : string) (max_tokens : Z) (content : JsVal)
| OpenAIBody (model : string) (content : JsVal) (max_tokens : Z).

Record FetchRequest := mkFetch {
  url : string;
  fetch_headers : list (string * string);
  fetch_body : ProviderBody;
}.

(** What the handlers read of a [fetch] response. *)
Record FetchResponse := mkFetchResponse {
  ok : bool;
  status : Z;
  text : Outcome string;
  json : Outcome JsVal;
}.

Record World := mkWorld {
  env : gmap string string;                      (* process.env *)
  fetch : FetchRequest → Outcome FetchResponse;  (* the network *)
  now : Z;                                       (* Date.now() *)
  random36 : string;            (* Math.random().toString(36) *)
  isoNow : string;              (* new Date().toISOString() *)
}.

(** ** Provider helpers (the same three functions in both variants) *)

Inductive Provider := Gemini | Claude | OpenAI.

(** What a run of a handler does towards the providers, in order: entering a
    helper with its argument, and each [fetch] a helper issues. *)
Inductive Event :=
| Invoked (p : Provider) (prompt : JsVal)
| Fetched (req : FetchRequest).

Definition Called (A : Type) : Type := (list Event * Outcome A)%type.

(** The part shared by the three helpers after the credential check: one
    [fetch]; on a non-ok answer read the text and throw, else parse JSON. *)
Definition request (w : World) (label : string) (req : FetchRequest)
  : Called JsVal :=
  ([Fetched req],
   match fetch w req with
   | Throw e => Throw e
   | Return response =>
       if ok response then json response
       else match text response with
            | Throw e => Throw e
            | Return t =>
                Throw (label ++ " API error: " ++ pretty (status response)
                             ++ " – " ++ t)
            end
   end).

(** [process.env[name]] when it is set and non-empty, that is when
    [!apiKey] is false. *)
Definition credential (w : World) (name : string) : option string :=
  match env w !! name with
  | Some key => if decide (key = "") then None else Some key
  | None => None
  end.

(** Entering helper [p] with [prompt], then running its body. *)
Definition entered (p : Provider) (prompt : JsVal) (c : Called JsVal)
  : Called JsVal :=
  (Invoked p prompt :: c.1, c.2).

Definition callGemini (w : World) (prompt : JsVal) : Called JsVal :=
  entered Gemini prompt
    match credential w "GEMINI_API_KEY" with
    | None => ([], Throw "GEMINI_API_KEY not configured")
    | Some apiKey =>
        request w "Gemini"
          (mkFetch
             ("https://generativelanguage.googleapis.com/v1/models/gemini-2.5-flash:generateContent?key="
                ++ apiKey)
             [("Content-Type", "application/json")]
             (GeminiBody prompt 2048 (7 # 10)))
    end.

Definition callClaude (w : World) (prompt : JsVal) : Called JsVal :=
  entered Claude prompt
    match credential w "CLAUDE_API_KEY" with
    | None => ([], Throw "CLAUDE_API_KEY not configured")
    | Some apiKey =>
        request w "Claude"
          (mkFetch "https://api.anthropic.com/v1/messages"
             [("x-api-key", apiKey);
              ("anthropic-version", "2023-06-01");
              ("Content-Type", "application/json")]
             (ClaudeBody "claude-3-opus-20240229" 2048 prompt))
    end.

Definition callOpenAI (w : World) (prompt : JsVal) : Called JsVal :=
  entered OpenAI prompt
    match credential w "OPENAI_API_KEY" with
    | None => ([], Throw "OPENAI_API_KEY not configured")
    | Some apiKey =>
        request w "OpenAI"
          (mkFetch "https://api.openai.com/v1/chat/completions"
             [("Authorization", "Bearer " ++ apiKey);
              ("Content-Type", "application/json")]
             (OpenAIBody "gpt-4-turbo" prompt 2048))
    end.

(** The [case] labels of the [switch] in the generate handlers: which helper
    a lowercased model name selects; [None] is the [default] branch. *)
Definition selected (selector : string) : option Provider :=
  if decide (selector = "gemini") then Some Gemini
  else if decide (selector = "claude") then Some Claude
  else if decide (selector = "openai") then Some OpenAI
  else if decide (selector = "chatgpt") then Some OpenAI
  else None.

(** [result = await callX(prompt)] for the selected helper. *)
Definition call (p : Provider) : World → JsVal → Called JsVal :=
  match p with
  | Gemini => callGemini
  | Claude => callClaude
  | OpenAI => callOpenAI
  end.

(** The model names the generate handlers know. *)
Definition knownModels : list string :=
  ["gemini"; "claude"; "openai"; "chatgpt"].

(** The environment variable each helper reads its credential from. *)
Definition keyName (p : Provider) : string :=
  match p with
  | Gemini => "GEMINI_API_KEY"
  | Claude => "CLAUDE_API_KEY"
  | OpenAI => "OPENAI_API_KEY"
  end.

(** The prompt carried by an upstream request. *)
Definition promptOf (req : FetchRequest) : JsVal :=
  match fetch_body req with
  | GeminiBody prompt _ _ => prompt
  | ClaudeBody _ _ prompt => prompt
  | OpenAIBody _ prompt _ => prompt
  end.

(** ** Records built by the handlers *)

(** [`${prefix}-${Date.now()}-${Math.random().toString(36).substr(2, 9)}`]. *)
Definition generateId (w : World) (prefix : string) : string :=
  prefix ++ "-" ++ pretty (now w) ++ "-" ++ substr (random36 w) 2 9.

(** ** Responses *)

(** The object handed to [JSON.stringify] for the response body;
    [OfErrorPage message] is the page Express writes for an error that left
    a callback. *)
Inductive Payload :=
| OfValue (v : JsVal)
| OfProgramme (p : Programme.t)
| OfProgrammes (l : list Programme.t)
| OfScript (s : Script.t)
| OfScripts (l : list Script.t)
| OfErrorPage (message : string).

(** [statusCode] and [headers] as given to [res.writeHead]/[res.status];
    [body] is the chunk given to [res.end]/[res.json], [None] when the
    response is ended without one. *)
Record Response := mkResponse {
  statusCode : Z;
  headers : list (string * string);
  body : option Payload;
}.

(** Whether Node's [ServerResponse] writes the chunk it is given: not for
    the statuses 204 and 304 nor for the informational ones, where
    [res.end(chunk)] drops the chunk. *)
Definition hasBody (statusCode : Z) : bool :=
  negb ((statusCode =? 204) || (statusCode =? 304)
        || ((100 <=? statusCode) && (statusCode <? 200))).

(** The body bytes that reach the client, as the payload they encode;
    [None] when none are written. *)
Definition wireBody (r : Response) : option Payload :=
  if hasBody (statusCode r) then body r else None.

(** What serving one request amounts to. *)
Record Reply := mkReply {
  response : Response;
  store : Store;
  trace : list Event;
}.

(** [{ error: message }]. *)
Definition errorObj (message : string) : Payload :=
  OfValue (JObj [("error", JStr message)]).

(** ** simple-backend-server.js *)

Module Simple.

Record Request := mkRequest {
  method : string;
  pathname : string;              (* parseUrl(req.url, true).pathname *)
  authorization : option string;  (* req.headers['authorization'] *)
  parsed : Outcome JsVal;         (* what parseRequestBody(req) settles to *)
}.

Definition corsHeaders : list (string * string) :=
  [("Access-Control-Allow-Origin", "*");
   ("Access-Control-Allow-Methods", "GET,POST,PUT,DELETE,OPTIONS");
   ("Access-Control-Allow-Headers", "Content-Type, Authorization")].

(** [sendJson(res, statusCode, obj)]: the payload [JSON.stringify(obj)] is
    always passed to [res.end]. *)
Definition sendJson (statusCode : Z) (obj : Payload) : Response :=
  mkResponse statusCode (("Content-Type", "application/json") :: corsHeaders)
             (Some obj).

(** [getUserId(req)]; [None] is [null]. *)
Definition getUserId (req : Request) : option string :=
  let authHeader := default "" (authorization req) in
  if negb (startsWith authHeader "Bearer ") then None
  else
    let token := slice 7 authHeader in
    if decide (token = "") then None else Some "demo-user".

(** [const body = await parseRequestBody(req); const { first, ... } = body]:
    a rejected promise and the destructuring of [null] both throw, the
    second with a message that names the first property asked for. *)
Definition destructured (first : string) (b : Outcome JsVal)
  : Outcome JsVal :=
  match b with
  | Return JNull =>
      Throw ("Cannot destructure property '" ++ first
               ++ "' of 'body' as it is null.")
  | Return JUndefined =>
      Throw ("Cannot destructure property '" ++ first
               ++ "' of 'body' as it is undefined.")
  | other => other
  end.

(** How the [try] block ends: the upstream events so far, and either a
    response with the store it leaves or a thrown message. *)
Definition Routed : Type := (list Event * Outcome (Response * Store))%type.

Definition done (r : Response) (s : Store) : Routed := ([], Return (r, s)).
Definition thrown (e : string) : Routed := ([], Throw e).

Definition unauthorized : Response :=
  sendJson 401 (errorObj "Missing or invalid authorization token").

Definition newProgramme (w : World) (b : JsVal) : Programme.t :=
  Programme.mk (generateId w "programme")
               (prop "name" b) (prop "genre" b) (prop "targetAudience" b)
               (prop "episodeLength" b)
               (js_or (prop "styleReferences" b) (JArr []))
               (isoNow w) None.

(** [{ ...current, name, genre, targetAudience, episodeLength,
       styleReferences: styleReferences || [], updatedAt }]. *)
Definition updatedProgramme (w : World) (current : Programme.t) (b : JsVal)
  : Programme.t :=
  Programme.mk (Programme.id current)
               (prop "name" b) (prop "genre" b) (prop "targetAudience" b)
               (prop "episodeLength" b)
               (js_or (prop "styleReferences" b) (JArr []))
               (Programme.createdAt current) (Some (isoNow w)).

Definition newScript (w : World) (b : JsVal) : Script.t :=
  Script.mk (generateId w "script")
            (prop "programmeId" b) (prop "topic" b) (prop "content" b)
            (prop "sources" b) (isoNow w) None.

(** [{ ...current, content, sources, updatedAt }]. *)
Definition updatedScript (w : World) (current : Script.t) (b : JsVal)
  : Script.t :=
  Script.mk (Script.id current) (Script.programmeId current)
            (Script.topic current) (prop "content" b) (prop "sources" b)
            (Script.createdAt current) (Some (isoNow w)).

Definition withProgrammes (s : Store) (m : gmap string (list Programme.t))
  : Store := mkStore m (scripts s).
Definition withScripts (s : Store) (m : gmap string (list Script.t))
  : Store := mkStore (programmes s) m.

Section Handler.
(** The identity behind a request.  The source uses [getUserId]; the
    dispatcher is written over any resolver so that statements about
    several users can be made. *)
Variable resolve : Request → option string.

(** [const userId = getUserId(req); if (!userId) ...]. *)
Definition userOf (req : Request) : option string :=
  match resolve req with
  | Some userId => if decide (userId = "") then None else Some userId
  | None => None
  end.

(** After a provider helper has returned or thrown. *)
Definition forwarded (s : Store) (c : Called JsVal) : Routed :=
  (c.1, match c.2 with
        | Return result => Return (sendJson 200 (OfValue result), s)
        | Throw e => Throw e
        end).

(** [POST /api/generate]. *)
Definition generate (w : World) (req : Request) (s : Store) : Routed :=
  match userOf req with
  | None => done unauthorized s
  | Some _ =>
      match destructured "model" (parsed req) with
      | Throw e => thrown e
      | Return b =>
          let model := prop "model" b in
          let prompt := prop "prompt" b in
          if negb (truthy model) || negb (truthy prompt)
          then done (sendJson 400 (errorObj "Missing model or prompt")) s
          else if negb (stringifiable model)
          then thrown "Cannot convert object to primitive value"
          else
            match selected (toLowerCase (ToString model)) with
            | Some p => forwarded s (call p w prompt)
            | None => done (sendJson 400 (errorObj "Unsupported model")) s
            end
      end
  end.

(** The block [if (pathname === '/api/programmes') { ... }];
    [None] when control leaves the block without returning. *)
Definition programmesRoute (w : World) (req : Request) (s : Store)
  : option Routed :=
  if decide (pathname req = "/api/programmes") then
    match userOf req with
    | None => Some (done unauthorized s)
    | Some userId =>
        if decide (method req = "GET") then
          let list := listOf (programmes s) userId in
          Some (done (sendJson 200 (OfProgrammes list)) s)
        else if decide (method req = "POST") then
          Some match destructured "name" (parsed req) with
               | Throw e => thrown e
               | Return b =>
                   let programme := newProgramme w b in
                   done (sendJson 201 (OfProgramme programme))
                        (withProgrammes s
                           (unshift (programmes s) userId programme))
               end
        else None
    end
  else None.

(** The block [if (pathname.startsWith('/api/programmes/')) { ... }], with
    nothing served while its PUT branch waits for the body. *)
Definition programmeRoute (w : World) (req : Request) (s : Store)
  : option Routed :=
  if startsWith (pathname req) "/api/programmes/" then
    match userOf req with
    | None => Some (done unauthorized s)
    | Some userId =>
        let id := split_pop (pathname req) in
        let list := listOf (programmes s) userId in
        match findIndex Programme.id id list with
        | None =>
            Some (done (sendJson 404 (errorObj "Programme not found")) s)
        | Some (index, current) =>
            if decide (method req = "PUT") then
              Some match destructured "name" (parsed req) with
                   | Throw e => thrown e
                   | Return b =>
                       let updated := updatedProgramme w current b in
                       done (sendJson 200 (OfProgramme updated))
                            (withProgrammes s
                               (<[userId := <[index := updated]> list]>
                                  (programmes s)))
                   end
            else if decide (method req = "DELETE") then
              Some (done (sendJson 204 (OfValue (JObj [])))
                         (withProgrammes s
                            (<[userId := delete index list]>
                               (programmes s))))
            else None
        end
    end
  else None.

(** The block [if (pathname === '/api/scripts') { ... }]. *)
Definition scriptsRoute (w : World) (req : Request) (s : Store)
  : option Routed :=
  if decide (pathname req = "/api/scripts") then
    match userOf req with
    | None => Some (done unauthorized s)
    | Some userId =>
        if decide (method req = "GET") then
          Some (done (sendJson 200
                        (OfScripts (listOf (scripts s) userId))) s)
        else if decide (method req = "POST") then
          Some match destructured "programmeId" (parsed req) with
               | Throw e => thrown e
               | Return b =>
                   let script := newScript w b in
                   done (sendJson 201 (OfScript script))
                        (withScripts s (unshift (scripts s) userId script))
               end
        else None
    end
  else None.

(** The block [if (pathname.startsWith('/api/scripts/')) { ... }], with
    nothing served while its PUT branch waits for the body. *)
Definition scriptRoute (w : World) (req : Request) (s : Store)
  : option Routed :=
  if startsWith (pathname req) "/api/scripts/" then
    match userOf req with
    | None => Some (done unauthorized s)
    | Some userId =>
        let id := split_pop (pathname req) in
        let list := listOf (scripts s) userId in
        match findIndex Script.id id list with
        | None =>
            Some (done (sendJson 404 (errorObj "Script not found")) s)
        | Some (index, current) =>
            if decide (method req = "PUT") then
              Some match destructured "content" (parsed req) with
                   | Throw e => thrown e
                   | Return b =>
                       let updated := updatedScript w current b in
                       done (sendJson 200 (OfScript updated))
                            (withScripts s
                               (<[userId := <[index := updated]> list]>
                                  (scripts s)))
                   end
            else if decide (method req = "DELETE") then
              Some (done (sendJson 204 (OfValue (JObj [])))
                         (withScripts s
                            (<[userId := delete index list]> (scripts s))))
            else None
        end
    end
  else None.

(** The body of the [try] block: the routes in source order, each tried
    when the previous one was left without a response. *)
Definition routes (w : World) (req : Request) (s : Store) : Routed :=
  if decide (method req = "GET" ∧ pathname req = "/api/health")
  then done (sendJson 200 (OfValue (JObj [("status", JStr "ok")]))) s
  else if decide (method req = "POST" ∧ pathname req = "/api/generate")
  then generate w req s
  else
    match programmesRoute w req s with Some r => r | None =>
    match programmeRoute w req s with Some r => r | None =>
    match scriptsRoute w req s with Some r => r | None =>
    match scriptRoute w req s with Some r => r | None =>
      done (sendJson 404 (errorObj "Not found")) s
    end end end end.

(** [handleRequest(req, res)] with [resolve] for [getUserId]. *)
Definition handleRequestAs (w : World) (req : Request) (s : Store)
  : Reply :=
  if decide (method req = "OPTIONS")
  then mkReply (mkResponse 204 corsHeaders None) s []
  else
    match routes w req s with
    | (events, Return (r, s')) => mkReply r s' events
    | (events, Throw message) =>
        let shown := if decide (message = "")
                     then "Internal Server Error" else message in
        mkReply (sendJson 500 (errorObj shown)) s events
    end.
End Handler.

(** [handleRequest(req, res)] of the source. *)
Definition handleRequest : World → Request → Store → Reply :=
  handleRequestAs getUserId.

(** Requests served one after the other, each in its own world. *)
Fixpoint serve (resolve : Request → option string)
         (steps : list (World * Request)) (s : Store)
  : list Response * Store :=
  match steps with
  | [] => ([], s)
  | (w, req) :: rest =>
      let reply := handleRequestAs resolve w req s in
      let later := serve resolve rest (store reply) in
      (response reply :: later.1, later.2)
  end.

(** *** The wait inside a PUT *)

(** In the two PUT branches [index] is computed when the request arrives,
    and [list[index]] is read and written after
    [await parseRequestBody(req)]; the requests served during that wait find
    and leave the store in between.  [programmeRoute] and [scriptRoute] are
    these branches when nothing is served during the wait. *)

(** What a PUT holds while it waits for its body: the [userId] whose array
    [list] is, and [index]. *)
Inductive Waiting :=
| ForProgramme (userId : string) (index : nat)
| ForScript (userId : string) (index : nat).

(** [handleRequest] up to the wait of a PUT branch, on the store as the
    request finds it; [None] when the request does not get there. *)
Definition arrived (resolve : Request → option string) (req : Request)
           (s : Store) : option Waiting :=
  if decide (method req = "PUT") then
    if startsWith (pathname req) "/api/programmes/" then
      match userOf resolve req with
      | None => None
      | Some userId =>
          let id := split_pop (pathname req) in
          let list := listOf (programmes s) userId in
          match findIndex Programme.id id list with
          | None => None
          | Some (index, _) => Some (ForProgramme userId index)
          end
      end
    else if startsWith (pathname req) "/api/scripts/" then
      match userOf resolve req with
      | None => None
      | Some userId =>
          let id := split_pop (pathname req) in
          let list := listOf (scripts s) userId in
          match findIndex Script.id id list with
          | None => None
          | Some (index, _) => Some (ForScript userId index)
          end
      end
    else None
  else None.

(** The [catch] of [handleRequest], for a [try] block that ends on
    store [s]. *)
Definition caught (s : Store) (r : Routed) : Reply :=
  match r with
  | (events, Return (r, s')) => mkReply r s' events
  | (events, Throw message) =>
      let shown := if decide (message = "")
                   then "Internal Server Error" else message in
      mkReply (sendJson 500 (errorObj shown)) s events
  end.

(** The PUT branch from the wait on, on the store as it is when the body
    has arrived and in the world of that moment.  [list] is the array taken
    before the wait: the store still holds it for [userId], since the
    handlers change such an array in place and never replace it.  [None]
    when [index] is by then past the end of [list]: the source then stores
    there an object without [id] and [createdAt], which the record types
    here do not hold. *)
Definition resumed (w : World) (req : Request) (a : Waiting) (s : Store)
  : option Reply :=
  match a with
  | ForProgramme userId index =>
      match destructured "name" (parsed req) with
      | Throw e => Some (caught s (thrown e))
      | Return b =>
          let list := listOf (programmes s) userId in
          match list !! index with
          | None => None
          | Some current =>
              let updated := updatedProgramme w current b in
              Some (caught s
                      (done (sendJson 200 (OfProgramme updated))
                            (withProgrammes s
                               (<[userId := <[index := updated]> list]>
                                  (programmes s)))))
          end
      end
  | ForScript userId index =>
      match destructured "content" (parsed req) with
      | Throw e => Some (caught s (thrown e))
      | Return b =>
          let list := listOf (scripts s) userId in
          match list !! index with
          | None => None
          | Some current =>
              let updated := updatedScript w current b in
              Some (caught s
                      (done (sendJson 200 (OfScript updated))
                            (withScripts s
                               (<[userId := <[index := updated]> list]>
                                  (scripts s)))))
          end
      end
  end.

(** A PUT that arrives on store [s], waits for its body while the requests
    [during] are served, and goes on in world [w]; [None] when the request
    is no PUT that gets to wait, or when [resumed] is. *)
Definition putInterleaved (resolve : Request → option string) (w : World)
           (req : Request) (during : list (World * Request)) (s : Store)
  : option Reply :=
  match arrived resolve req s with
  | None => None
  | Some a => resumed w req a (serve resolve during s).2
  end.
End Simple.

(** ** The Express application *)

Module Express.

(** The endpoints registered on [app]; Express selects one from the method
    and the path and fills [req.params]. *)
Inductive Route :=
| PostGenerate
| GetProgrammes | PostProgrammes | PutProgramme | DeleteProgramme
| GetScripts | PostScripts | PutScript | DeleteScript
| GetHealth.

Record Request := mkRequest {
  authorization : option string;  (* req.headers.authorization *)
  params_id : string;             (* req.params.id *)
  body : JsVal;   (* req.body: the object or array express.json() parsed;
                     when it parsed nothing, undefined with Express 5 and
                     the empty object with Express 4 *)
}.

(** [res.status(code).json(obj)]; the headers are left to Express and to
    the cors middleware. *)
Definition json_ (code : Z) (obj : Payload) : Response :=
  mkResponse code [] (Some obj).

(** [authenticateUser]: either it answers 401 itself, or it sets
    [req.user = { uid }] and calls [next()]; the right side is that [uid]. *)
Definition authenticateUser (req : Request) : Response + string :=
  let authHeader := default "" (authorization req) in
  let token := if startsWith authHeader "Bearer "
               then Some (slice 7 authHeader) else None in
  match token with
  | None | Some "" => inl (json_ 401 (errorObj "Missing authorization token"))
  | Some _ => inr "demo-user"
  end.

(** [const { first, ... } = req.body]: a [TypeError] when [req.body] is
    [undefined] or [null]. *)
Definition destructured (first : string) (b : JsVal) : Outcome JsVal :=
  match b with
  | JUndefined =>
      Throw ("Cannot destructure property '" ++ first
               ++ "' of 'req.body' as it is undefined.")
  | JNull =>
      Throw ("Cannot destructure property '" ++ first
               ++ "' of 'req.body' as it is null.")
  | _ => Return b
  end.

(** An error that leaves a callback: the promise of the callback is
    rejected, Express (version 5, the one that can leave [req.body]
    undefined) hands the error to its error handler, and that one answers
    500 with a page for the error.  The store stays as it was: a callback
    that throws does so where it takes the fields out of [req.body], before
    it touches the store. *)
Definition rejected (message : string) (s : Store) : Reply :=
  mkReply (mkResponse 500 [] (Some (OfErrorPage message))) s [].

(** [(model || '').toLowerCase()], a [TypeError] when the operand has no
    such method; the engine prints the operand with double quotes. *)
Definition lowered (model : JsVal) : Outcome string :=
  match js_or model (JStr "") with
  | JStr s => Return (toLowerCase s)
  | _ =>
      Throw ("(model || " ++ String "034" (String "034" "")
               ++ ").toLowerCase is not a function")
  end.

(** What is left of the handler once a helper has settled, with the
    [catch] of the handler. *)
Definition forwarded (s : Store) (c : Called JsVal) : Reply :=
  match c.2 with
  | Return result => mkReply (json_ 200 (OfValue result)) s c.1
  | Throw message => mkReply (json_ 500 (errorObj message)) s c.1
  end.

(** [app.post('/api/generate', authenticateUser, ...)], the callback. *)
Definition generate (w : World) (req : Request) (s : Store) : Reply :=
  match destructured "model" (body req) with
  | Throw message => rejected message s
  | Return b =>
      let model := prop "model" b in
      let prompt := prop "prompt" b in
      match lowered model with
      | Throw message => mkReply (json_ 500 (errorObj message)) s []
      | Return selector =>
          match selected selector with
          | Some p => forwarded s (call p w prompt)
          | None => mkReply (json_ 400 (errorObj "Unsupported model")) s []
          end
      end
  end.

Definition newProgramme (w : World) (b : JsVal) : Programme.t :=
  Programme.mk (generateId w "programme")
               (prop "name" b) (prop "genre" b) (prop "targetAudience" b)
               (prop "episodeLength" b)
               (js_or (prop "styleReferences" b) (JArr []))
               (isoNow w) None.

(** [{ ...current, name, genre, targetAudience, episodeLength,
       styleReferences, updatedAt }]. *)
Definition updatedProgramme (w : World) (current : Programme.t) (b : JsVal)
  : Programme.t :=
  Programme.mk (Programme.id current)
               (prop "name" b) (prop "genre" b) (prop "targetAudience" b)
               (prop "episodeLength" b) (prop "styleReferences" b)
               (Programme.createdAt current) (Some (isoNow w)).

Definition newScript (w : World) (b : JsVal) : Script.t :=
  Script.mk (generateId w "script")
            (prop "programmeId" b) (prop "topic" b) (prop "content" b)
            (prop "sources" b) (isoNow w) None.

Definition updatedScript (w : World) (current : Script.t) (b : JsVal)
  : Script.t :=
  Script.mk (Script.id current) (Script.programmeId current)
            (Script.topic current) (prop "content" b) (prop "sources" b)
            (Script.createdAt current) (Some (isoNow w)).

Definition quiet (r : Response) (s : Store) : Reply := mkReply r s [].

(** The callback of each route, run with [req.user.uid = userId], and what
    Express makes of an error that leaves it. *)
Definition handler (route : Route) (userId : string)
           (w : World) (req : Request) (s : Store) : Reply :=
  match route with
  | GetHealth => quiet (json_ 200 (OfValue (JObj [("status", JStr "ok")]))) s
  | PostGenerate => generate w req s
  | GetProgrammes =>
      quiet (json_ 200 (OfProgrammes (listOf (programmes s) userId))) s
  | PostProgrammes =>
      match destructured "name" (body req) with
      | Throw message => rejected message s
      | Return b =>
          let programme := newProgramme w b in
          quiet (json_ 201 (OfProgramme programme))
                (mkStore (unshift (programmes s) userId programme) (scripts s))
      end
  | PutProgramme =>
      match destructured "name" (body req) with
      | Throw message => rejected message s
      | Return b =>
          let userProgrammes := listOf (programmes s) userId in
          match findIndex Programme.id (params_id req) userProgrammes with
          | None => quiet (json_ 404 (errorObj "Programme not found")) s
          | Some (index, current) =>
              let updated := updatedProgramme w current b in
              quiet (json_ 200 (OfProgramme updated))
                    (mkStore (<[userId := <[index := updated]> userProgrammes]>
                                (programmes s))
                             (scripts s))
          end
      end
  | DeleteProgramme =>
      let userProgrammes := listOf (programmes s) userId in
      match findIndex Programme.id (params_id req) userProgrammes with
      | None => quiet (json_ 404 (errorObj "Programme not found")) s
      | Some (index, _) =>
          quiet (mkResponse 204 [] None)
                (mkStore (<[userId := delete index userProgrammes]>
                            (programmes s))
                         (scripts s))
      end
  | GetScripts =>
      quiet (json_ 200 (OfScripts (listOf (scripts s) userId))) s
  | PostScripts =>
      match destructured "programmeId" (body req) with
      | Throw message => rejected message s
      | Return b =>
          let script := newScript w b in
          quiet (json_ 201 (OfScript script))
                (mkStore (programmes s) (unshift (scripts s) userId script))
      end
  | PutScript =>
      match destructured "content" (body req) with
      | Throw message => rejected message s
      | Return b =>
          let userScripts := listOf (scripts s) userId in
          match findIndex Script.id (params_id req) userScripts with
          | None => quiet (json_ 404 (errorObj "Script not found")) s
          | Some (index, current) =>
              let updated := updatedScript w current b in
              quiet (json_ 200 (OfScript updated))
                    (mkStore (programmes s)
                             (<[userId := <[index := updated]> userScripts]>
                                (scripts s)))
          end
      end
  | DeleteScript =>
      let userScripts := listOf (scripts s) userId in
      match findIndex Script.id (params_id req) userScripts with
      | None => quiet (json_ 404 (errorObj "Script not found")) s
      | Some (index, _) =>
          quiet (mkResponse 204 [] None)
                (mkStore (programmes s)
                         (<[userId := delete index userScripts]> (scripts s)))
      end
  end.

(** A route as registered: every one but the health check runs
    [authenticateUser] first. *)
Definition app (route : Route) (w : World) (req : Request) (s : Store)
  : Reply :=
  match route with
  | GetHealth => handler GetHealth "" w req s
  | _ =>
      match authenticateUser req with
      | inl refusal => quiet refusal s
      | inr uid => handler route uid w req s
      end
  end.

(** Callbacks run one after the other on behalf of [userId]. *)
Fixpoint serve (userId : string) (steps : list (Route * World * Request))
         (s : Store) : list Response * Store :=
  match steps with
  | [] => ([], s)
  | (route, w, req) :: rest =>
      let reply := handler route userId w req s in
      let later := serve userId rest (store reply) in
      (response reply :: later.1, later.2)
  end.
End Express.

(** ** Vocabulary of the statements *)

(** The record a response announces as created: status 201 with a programme
    as its body. *)
Definition createdProgramme (r : Response) : option Programme.t :=
  match body r with
  | Some (OfProgramme p) => if decide (statusCode r = 201) then Some p else None
  | _ => None
  end.

(** The two values that make up the variable part of a generated id. *)
Definition draw (w : World) : Z * string := (now w, substr (random36 w) 2 9).

(** The part of the store that belongs to user [u] is the same in both. *)
Definition agreeOn (u : string) (s1 s2 : Store) : Prop :=
  programmes s1 !! u = programmes s2 !! u ∧ scripts s1 !! u = scripts s2 !! u.

(** A request that creates a programme on the simple server. *)
Definition postsProgramme (req : Simple.Request) : Prop :=
  Simple.method req = "POST" ∧ Simple.pathname req = "/api/programmes".

(** A request that lists the programmes on the simple server. *)
Definition getsProgrammes (req : Simple.Request) : Prop :=
  Simple.method req = "GET" ∧ Simple.pathname req = "/api/programmes".

Definition isDigit (c : ascii) : bool :=
  let n := nat_of_ascii c in (48 <=? n)%nat && (n <=? 57)%nat.

Fixpoint allDigits (s : string) : bool :=
  match s with
  | EmptyString => true
  | String c rest => isDigit c && allDigits rest
  end.

(** The programme ids announced by a list of responses, in order. *)
Definition createdIds (responses : list Response) : list string :=
  Programme.id <$> omap createdProgramme responses.

(** Going from [s] to [s'] leaves every user but [A] as they were. *)
Definition touchesOnly (A : string) (s s' : Store) : Prop :=
  ∀ B, A ≠ B → agreeOn B s' s.

(** A route left the store of every user but [A] as it was. *)
Definition routedOnly (A : string) (s : Store) (r : Simple.Routed) : Prop :=
  match r.2 with
  | Return (_, s') => touchesOnly A s s'
  | Throw _ => True
  end.

(** Two outcomes of the [try] block that differ at most in the parts of the
    resulting store that do not belong to [A]. *)
Definition sameOutcome (A : string) (o1 o2 : Outcome (Response * Store))
  : Prop :=
  match o1, o2 with
  | Return (r1, t1), Return (r2, t2) => r1 = r2 ∧ agreeOn A t1 t2
  | Throw e1, Throw e2 => e1 = e2
  | _, _ => False
  end.

Definition sameRouted (A : string) (r1 r2 : Simple.Routed) : Prop :=
  r1.1 = r2.1 ∧ sameOutcome A r1.2 r2.2.

Definition sameRoute (A : string) (r1 r2 : option Simple.Routed) : Prop :=
  match r1, r2 with
  | Some x1, Some x2 => sameRouted A x1 x2
  | None, None => True
  | _, _ => False
  end.

(** ** Concrete requests, worlds and stores *)

Module Sample.

(** A resolver that derives the identity from the bearer token. *)
Definition byToken (req : Simple.Request) : option string :=
  match Simple.authorization req with
  | Some header =>
      if startsWith header "Bearer " then Some (slice 7 header) else None
  | None => None
  end.

Definition offline : FetchRequest → Outcome FetchResponse :=
  λ _, Throw "fetch failed".

Definition answering (v : JsVal) : FetchRequest → Outcome FetchResponse :=
  λ _, Return (mkFetchResponse true 200 (Return "") (Return v)).

(** No credential configured. *)
Definition bare (t : Z) (r : string) : World :=
  mkWorld ∅ offline t r "2023-11-14T22:13:20.000Z".

(** All three credentials configured, upstream answering. *)
Definition configured : World :=
  mkWorld (<["GEMINI_API_KEY" := "g-key"]>
             (<["CLAUDE_API_KEY" := "c-key"]>
                (<["OPENAI_API_KEY" := "o-key"]> ∅)))
          (answering (JObj [("answer", JStr "hello")]))
          1700000000000 "0.4fzyo82mvyr" "2023-11-14T22:13:20.000Z".

Definition bearer (token : string) : option string :=
  Some ("Bearer " ++ token).

Definition fields (name : string) : JsVal :=
  JObj [("name", JStr name); ("genre", JStr "drama")].

Definition getProgrammes (token : string) : Simple.Request :=
  Simple.mkRequest "GET" "/api/programmes" (bearer token)
                   (Return (JObj [])).
Definition postProgramme (token name : string) : Simple.Request :=
  Simple.mkRequest "POST" "/api/programmes" (bearer token)
                   (Return (fields name)).
Definition putProgramme (token id name : string) : Simple.Request :=
  Simple.mkRequest "PUT" ("/api/programmes/" ++ id) (bearer token)
                   (Return (fields name)).
Definition deleteProgramme (token id : string) : Simple.Request :=
  Simple.mkRequest "DELETE" ("/api/programmes/" ++ id) (bearer token)
                   (Return (JObj [])).
Definition putScript (token id : string) : Simple.Request :=
  Simple.mkRequest "PUT" ("/api/scripts/" ++ id) (bearer token)
                   (Return (JObj [("content", JStr "INT. STUDIO");
                                  ("sources", JArr [])])).
Definition deleteScript (token id : string) : Simple.Request :=
  Simple.mkRequest "DELETE" ("/api/scripts/" ++ id) (bearer token)
                   (Return (JObj [])).
Definition generate (token : string) (model prompt : JsVal)
  : Simple.Request :=
  Simple.mkRequest "POST" "/api/generate" (bearer token)
                   (Return (JObj [("model", model); ("prompt", prompt)])).

Definition express (id : string) (b : JsVal) : Express.Request :=
  Express.mkRequest (bearer "t") id b.

Definition aProgramme (id : string) : Programme.t :=
  Programme.mk id (JStr "Late Show") (JStr "talk") JUndefined JUndefined
               (JArr []) "2023-11-14T22:13:20.000Z" None.
Definition aScript (id : string) : Script.t :=
  Script.mk id (JStr "programme-1") (JStr "pilot") (JStr "FADE IN")
            JUndefined "2023-11-14T22:13:20.000Z" None.

(** One user with two programmes and two scripts. *)
Definition stocked : Store :=
  mkStore {[ "demo-user" := [aProgramme "p2"; aProgramme "p1"] ]}
          {[ "demo-user" := [aScript "s2"; aScript "s1"] ]}.
End Sample.

(** ** Loading [.env] (simple-backend-server.js) *)

(** [text.split(/\r?\n/)]: the pieces between line feeds, a carriage return
    right before a line feed belonging to the separator. *)
Fixpoint splitLines (text : string) : list string :=
  match text with
  | EmptyString => [EmptyString]
  | String c rest =>
      if Ascii.eqb c "010" then EmptyString :: splitLines rest
      else
        match rest with
        | String d rest' =>
            if Ascii.eqb c "013" && Ascii.eqb d "010"
            then EmptyString :: splitLines rest'
            else match splitLines rest with
                 | line :: lines => String c line :: lines
                 | [] => [String c EmptyString]
                 end
        | EmptyString => [String c EmptyString]
        end
  end.

(** The characters [trim] removes (white space and line terminators of
    the language), by the bytes of their UTF-8 encoding.  One byte: tab,
    line feed, vertical tab, form feed, carriage return, space. *)
Definition isSpace (c : ascii) : bool :=
  let n := nat_of_ascii c in
  ((9 <=? n)%nat && (n <=? 13)%nat) || (n =? 32)%nat.

(** Two bytes: U+00A0. *)
Definition isSpace2 (a b : ascii) : bool :=
  (nat_of_ascii a =? 194)%nat && (nat_of_ascii b =? 160)%nat.

(** Three bytes: U+1680, U+2000 to U+200A, U+2028, U+2029, U+202F, U+205F,
    U+3000 and U+FEFF. *)
Definition isSpace3 (a b c : ascii) : bool :=
  let x := nat_of_ascii a in
  let y := nat_of_ascii b in
  let z := nat_of_ascii c in
  ((x =? 225) && (y =? 154) && (z =? 128))%nat
  || ((x =? 226) && (y =? 128)
      && (((128 <=? z) && (z <=? 138)) || (z =? 168) || (z =? 169)
          || (z =? 175)))%nat
  || ((x =? 226) && (y =? 129) && (z =? 159))%nat
  || ((x =? 227) && (y =? 128) && (z =? 128))%nat
  || ((x =? 239) && (y =? 187) && (z =? 191))%nat.

Fixpoint trimStart (s : string) : string :=
  match s with
  | EmptyString => EmptyString
  | String a rest =>
      if isSpace a then trimStart rest
      else
        match rest with
        | EmptyString => s
        | String b rest' =>
            if isSpace2 a b then trimStart rest'
            else
              match rest' with
              | EmptyString => s
              | String c rest'' =>
                  if isSpace3 a b c then trimStart rest'' else s
              end
        end
  end.

(** [s] up to the point from which only characters that [trim] removes
    follow. *)
Fixpoint trimEnd (s : string) : string :=
  match s with
  | EmptyString => EmptyString
  | String c rest =>
      if decide (trimStart s = "") then EmptyString
      else String c (trimEnd rest)
  end.

(** [s.trim()]. *)
Definition trim (s : string) : string := trimEnd (trimStart s).

(** [s.indexOf(c)], [None] for [-1]. *)
Fixpoint indexOf (c : ascii) (s : string) : option nat :=
  match s with
  | EmptyString => None
  | String a rest => if Ascii.eqb a c then Some O else S <$> indexOf c rest
  end.

(** One turn of the loop of [loadDotEnv] up to the assignment: the key and
    value a line defines, [None] when the loop [continue]s. *)
Definition parseLine (line : string) : option (string * string) :=
  if decide (line = "") then None
  else if startsWith line "#" then None
  else match indexOf "=" line with
       | None => None
       | Some idx => Some (trim (substr line 0 idx), trim (slice (S idx) line))
       end.

(** [if (!Object.prototype.hasOwnProperty.call(process.env, key))
       process.env[key] = value]; [process.env] holds no variable with the
    empty name, and an assignment to that name is ignored. *)
Definition assignMissing (env : gmap string string) (kv : string * string)
  : gmap string string :=
  match env !! kv.1 with
  | Some _ => env
  | None => if decide (kv.1 = "") then env else <[kv.1 := kv.2]> env
  end.

(** [loadDotEnv()], as a function of [process.env] and of the file [.env]:
    [None] when [existsSync] is false, [Some (Throw _)] when [readFileSync]
    throws, [Some (Return text)] otherwise. *)
Definition loadDotEnv (file : option (Outcome string))
           (env : gmap string string) : gmap string string :=
  match file with
  | None => env
  | Some (Throw _) => env
  | Some (Return text) =>
      foldl (λ env line, match parseLine line with
                         | None => env
                         | Some kv => assignMissing env kv
                         end)
            env (splitLines text)
  end.

(** The value the first line defining [key] gives it. *)
Fixpoint firstDefinition (key : string) (lines : list string) : option string :=
  match lines with
  | [] => None
  | line :: rest =>
      match parseLine line with
      | Some (k, v) => if decide (k = key) then Some v
                       else firstDefinition key rest
      | None => firstDefinition key rest
      end
  end.

(** [text] with every line feed preceded by a carriage return. *)
Fixpoint crlf (text : string) : string :=
  match text with
  | EmptyString => EmptyString
  | String c rest =>
      if Ascii.eqb c "010" then String "013" (String "010" (crlf rest))
      else String c (crlf rest)
  end.

Fixpoint hasChar (c : ascii) (s : string) : bool :=
  match s with
  | EmptyString => false
  | String a rest => Ascii.eqb a c || hasChar c rest
  end.


(** ** Further vocabulary *)

(** The upstream requests among the provider events of a run. *)
Definition fetchesOf (events : list Event) : list FetchRequest :=
  omap (λ e, match e with Fetched r => Some r | Invoked _ _ => None end) events.

(** The paths of the programme routes, and of the script routes. *)
Definition programmePath (path : string) : Prop :=
  path = "/api/programmes" ∨ startsWith path "/api/programmes/" = true.
Definition scriptPath (path : string) : Prop :=
  path = "/api/scripts" ∨ startsWith path "/api/scripts/" = true.

(** The requests of the simple server that ask for the caller's identity. *)
Definition protected (req : Simple.Request) : Prop :=
  (Simple.method req = "POST" ∧ Simple.pathname req = "/api/generate")
  ∨ programmePath (Simple.pathname req) ∨ scriptPath (Simple.pathname req).

(** An [Authorization] header of the form [Bearer <token>] with a
    non-empty token. *)
Definition validBearer (header : option string) : Prop :=
  ∃ token, token ≠ "" ∧ header = Some ("Bearer " ++ token).

(** The name a helper uses for its provider in error messages. *)
Definition labelOf (p : Provider) : string :=
  match p with
  | Gemini => "Gemini"
  | Claude => "Claude"
  | OpenAI => "OpenAI"
  end.

(** [err.message || 'Internal Server Error'] of the simple server. *)
Definition shownMessage (message : string) : string :=
  if decide (message = "") then "Internal Server Error" else message.

(** The world after [loadDotEnv()] has run at start-up. *)
Definition started (file : option (Outcome string)) (w : World) : World :=
  mkWorld (loadDotEnv file (env w)) (fetch w) (now w) (random36 w) (isoNow w).


(** ** More concrete inputs *)

Module Cases.

Definition nl : string := String "010" EmptyString.

(** A [.env] file with a comment, spaces around a key, and a key given
    twice. *)
Definition dotenv : string :=
  "# credentials" ++ nl ++ "GEMINI_API_KEY=from-file" ++ nl
    ++ " PORT = 8080 " ++ nl ++ "GEMINI_API_KEY=later" ++ nl.

(** A world whose provider answers every request with [response]. *)
Definition answered (response : FetchResponse) : World :=
  mkWorld (env Sample.configured) (λ _, Return response)
          1700000000000 "0.4fzyo82mvyr" "2023-11-14T22:13:20.000Z".

Definition overloaded : FetchResponse :=
  mkFetchResponse false 429 (Return "slow down") (Throw "not JSON").

Definition fine : FetchResponse :=
  mkFetchResponse true 200 (Return "") (Return (JObj [("answer", JStr "hi")])).

(** A request without an Authorization header. *)
Definition anonymous (method path : string) : Simple.Request :=
  Simple.mkRequest method path None (Return (JObj [])).

Definition unreadable (method path : string) : Simple.Request :=
  Simple.mkRequest method path (Sample.bearer "t")
                   (Throw "Unexpected end of JSON input").

Definition asking (model : string) : JsVal :=
  JObj [("model", JStr model); ("prompt", JStr "hi")].
End Cases.



(** * Properties *)

(** ** The embedding on concrete inputs *)

Example split_pop_item : split_pop "/api/programmes/programme-1-abc" = "programme-1-abc".
Proof. reflexivity. Qed.

Example split_pop_trailing_slash : split_pop "/api/programmes/" = "".
Proof. reflexivity. Qed.

Example toLowerCase_mixed : toLowerCase "ChatGPT" = "chatgpt".
Proof. reflexivity. Qed.

Example ToString_array : ToString (JArr [JStr "Gemini"; JNull; JNum (-3)]) = "Gemini,,-3".
Proof. by vm_compute. Qed.

Example getUserId_any_token :
  Simple.getUserId (Sample.getProgrammes "whatever") = Some "demo-user"
  ∧ Simple.getUserId (Sample.getProgrammes "") = None
  ∧ Simple.getUserId (Simple.mkRequest "GET" "/api/programmes"
                        (Some "Basic abc") (Return (JObj []))) = None
  ∧ Simple.getUserId (Simple.mkRequest "GET" "/api/programmes" None
                        (Return (JObj []))) = None.
Proof. by vm_compute. Qed.

Example generateId_sample :
  generateId (Sample.bare 1700000000000 "0.4fzyo82mvyr") "script"
  = "script-1700000000000-4fzyo82mv".
Proof. by vm_compute. Qed.

Example generate_relays_upstream_json :
  let reply := Simple.handleRequest Sample.configured
                 (Sample.generate "t" (JStr "Claude") (JStr "hi"))
                 initial in
  statusCode (response reply) = 200
  ∧ body (response reply) = Some (OfValue (JObj [("answer", JStr "hello")]))
  ∧ store reply = initial.
Proof. by vm_compute. Qed.

Example options_preflight :
  response (Simple.handleRequest Sample.configured
              (Simple.mkRequest "OPTIONS" "/nowhere" None (Return (JObj [])))
              initial)
  = mkResponse 204 Simple.corsHeaders None.
Proof. reflexivity. Qed.

Example malformed_body_is_500 :
  let reply := Simple.handleRequest Sample.configured
                 (Simple.mkRequest "POST" "/api/programmes" (Sample.bearer "t")
                    (Throw "Unexpected token } in JSON at position 1"))
                 Sample.stocked in
  statusCode (response reply) = 500 ∧ store reply = Sample.stocked.
Proof. by vm_compute. Qed.

(** A model that [String] cannot convert, and a body that is [null]. *)
Example generate_object_model :
  let model := JObj [("toString", JNum 1)] in
  response (Simple.handleRequest Sample.configured
              (Sample.generate "t" model (JStr "hi")) initial)
  = Simple.sendJson 500 (errorObj "Cannot convert object to primitive value")
  ∧ response (Simple.handleRequest Sample.configured
                (Sample.generate "t" (JArr [JStr "Gemini"; model]) (JStr "hi"))
                initial)
    = Simple.sendJson 500
        (errorObj "Cannot convert object to primitive value")
  ∧ response (Simple.handleRequest Sample.configured
                (Sample.generate "t" (JObj []) (JStr "hi")) initial)
    = Simple.sendJson 400 (errorObj "Unsupported model").
Proof. by vm_compute. Qed.

Example null_body_is_500 :
  Simple.handleRequest Sample.configured
    (Simple.mkRequest "POST" "/api/scripts" (Sample.bearer "t") (Return JNull))
    Sample.stocked
  = mkReply (Simple.sendJson 500
               (errorObj "Cannot destructure property 'programmeId' of 'body' as it is null."))
            Sample.stocked [].
Proof. by vm_compute. Qed.

(** The Express callbacks on a request without a parsed body, and the
    generate callback on a model that is not a string. *)
Example express_without_body :
  Express.app Express.PostProgrammes Sample.configured
    (Sample.express "" JUndefined) Sample.stocked
  = Express.rejected
      "Cannot destructure property 'name' of 'req.body' as it is undefined."
      Sample.stocked
  ∧ statusCode (response (Express.app Express.PutScript Sample.configured
                            (Sample.express "s9" JUndefined) Sample.stocked))
    = 500
  ∧ statusCode (response (Express.app Express.DeleteScript Sample.configured
                            (Sample.express "s1" JUndefined) Sample.stocked))
    = 204.
Proof. by vm_compute. Qed.

Example express_model_not_a_string :
  response (Express.app Express.PostGenerate Sample.configured
              (Sample.express "" (JObj [("model", JNum 4)])) initial)
  = Express.json_ 500
      (errorObj ("(model || " ++ String "034" (String "034" "")
                   ++ ").toLowerCase is not a function")).
Proof. by vm_compute. Qed.

(** ** Strings and lists *)

Lemma startsWith_app (p s : string) :
  startsWith s p = true → ∃ r, s = p ++ r.
Proof.
  unfold startsWith. revert s.
  induction p as [|a p IH]; intros s H.
  - by exists s.
  - destruct s as [|b s]; [done|]. simpl in H.
    destruct (ascii_dec a b) as [->|]; [|done].
    destruct (IH _ H) as [r ->]. by exists r.
Qed.

Lemma listOf_lookup {A} (m1 m2 : gmap string (list A)) (u : string) :
  m1 !! u = m2 !! u → listOf m1 u = listOf m2 u.
Proof. unfold listOf. by intros ->. Qed.

Lemma listOf_insert {A} (m : gmap string (list A)) (u : string) (l : list A) :
  listOf (<[u := l]> m) u = l.
Proof. unfold listOf. by rewrite lookup_insert_eq. Qed.

Lemma listOf_insert_ne {A} (m : gmap string (list A)) (u v : string)
      (l : list A) :
  u ≠ v → listOf (<[u := l]> m) v = listOf m v.
Proof. intros. unfold listOf. by rewrite lookup_insert_ne. Qed.

Lemma findIndex_None {A} (getId : A → string) (id : string) (l : list A) :
  findIndex getId id l = None ↔ id ∉ getId <$> l.
Proof.
  unfold findIndex. rewrite list_find_None, list_elem_of_fmap, Forall_forall.
  split.
  - intros H (x & -> & Hx). by apply (H x).
  - intros H x Hx Heq. apply H. by exists x.
Qed.

Lemma findIndex_Some {A} (getId : A → string) (id : string) (l : list A)
      (i : nat) (x : A) :
  findIndex getId id l = Some (i, x) ↔
  ∃ before after, l = (before ++ x :: after)%list ∧ length before = i
                  ∧ getId x = id ∧ id ∉ getId <$> before.
Proof.
  unfold findIndex. rewrite list_find_Some. split.
  - intros (Hi & Hx & Hlt).
    exists (take i l), (drop (S i) l). repeat split.
    + by rewrite take_drop_middle.
    + rewrite length_take. apply lookup_lt_Some in Hi. lia.
    + done.
    + rewrite list_elem_of_fmap. intros (y & -> & Hy).
      apply list_elem_of_lookup in Hy as [j Hj].
      pose proof (lookup_lt_Some _ _ _ Hj) as Hlen.
      rewrite length_take in Hlen.
      rewrite lookup_take_lt in Hj by lia.
      apply (Hlt j y); [done|lia|done].
  - intros (before & after & -> & <- & Hx & Hnot). repeat split.
    + by rewrite list_lookup_middle.
    + done.
    + intros j y Hj Hlt Hy. apply Hnot.
      rewrite lookup_app_l in Hj by done.
      rewrite list_elem_of_fmap. exists y. split; [done|].
      by eapply list_elem_of_lookup_2.
Qed.

(** ** Bodies and conversions *)

Lemma express_destructured_present (first : string) (b : JsVal) :
  b ≠ JUndefined → b ≠ JNull → Express.destructured first b = Return b.
Proof. by destruct b. Qed.

Lemma express_destructured_object (k first : string) (b : JsVal) :
  prop k b ≠ JUndefined → Express.destructured first b = Return b.
Proof. by destruct b. Qed.

Lemma express_destructured_undefined (first : string) :
  Express.destructured first JUndefined
  = Throw ("Cannot destructure property '" ++ first
             ++ "' of 'req.body' as it is undefined.").
Proof. done. Qed.

Lemma express_lowered_object (b : JsVal) (selector : string) (p : Provider) :
  Express.lowered (prop "model" b) = Return selector →
  selected selector = Some p →
  prop "model" b ≠ JUndefined.
Proof.
  intros Hlow Hsel Hundef. rewrite Hundef in Hlow.
  injection Hlow as <-. discriminate Hsel.
Qed.

Lemma hasChar_append (c : ascii) (s t : string) :
  hasChar c (s ++ t) = hasChar c s || hasChar c t.
Proof.
  induction s as [|a s IH]; [done|].
  change (String a s ++ t) with (String a (s ++ t)).
  cbn [hasChar]. by rewrite IH, orb_assoc.
Qed.

Lemma lower_ascii_bracket (c : ascii) :
  Ascii.eqb (lower_ascii c) "[" = Ascii.eqb c "[".
Proof. by destruct c as [[] [] [] [] [] [] [] []]. Qed.

Lemma hasChar_toLowerCase (s : string) :
  hasChar "[" (toLowerCase s) = hasChar "[" s.
Proof.
  induction s as [|c s IH]; [done|].
  cbn [toLowerCase hasChar]. by rewrite lower_ascii_bracket, IH.
Qed.

Lemma bracket_unselected (s : string) :
  hasChar "[" s = true → selected (toLowerCase s) = None.
Proof.
  intros H. rewrite <- hasChar_toLowerCase in H.
  unfold selected. repeat case_decide; try done;
    match goal with E : toLowerCase s = _ |- _ => rewrite E in H end;
    discriminate H.
Qed.

(** A value that [String] cannot convert holds an object, so whatever is
    converted before the failure shows contains a bracket. *)
Lemma unstringifiable_bracket (v : JsVal) :
  stringifiable v = false → hasChar "[" (ToString v) = true.
Proof.
  revert v. fix unstringifiable_bracket 1. intros v.
  destruct v as [| | | | |items|fields]; try discriminate; [|done].
  cbn [stringifiable ToString].
  induction items as [|e rest IH]; [discriminate|].
  cbn [forallb]. intros H. apply andb_false_iff in H.
  cbn [List.map join].
  assert (Hhead : stringifiable e = false →
                  hasChar "[" match e with
                              | JUndefined | JNull => ""
                              | _ => ToString e
                              end = true).
  { intros He. pose proof (unstringifiable_bracket e He) as Hb.
    by destruct e. }
  destruct H as [He|Hrest].
  - destruct (List.map _ rest); [by apply Hhead|].
    rewrite hasChar_append, Hhead by done. done.
  - specialize (IH Hrest).
    destruct rest as [|e' rest']; [discriminate|].
    cbn [List.map] in *.
    rewrite !hasChar_append, IH. by rewrite !orb_true_r.
Qed.

Lemma selected_stringifiable (v : JsVal) (p : Provider) :
  selected (toLowerCase (ToString v)) = Some p → stringifiable v = true.
Proof.
  intros Hsel. destruct (stringifiable v) eqn:Hv; [done|].
  apply unstringifiable_bracket, bracket_unselected in Hv. congruence.
Qed.

(** ** Reaching a route of the simple server *)

Module SimpleFacts.
Import Simple.

Section Routing.
Variable resolve : Request → option string.

Lemma routes_programmes w req s :
  pathname req = "/api/programmes" →
  routes resolve w req s =
    match programmesRoute resolve w req s with
    | Some r => r
    | None => done (sendJson 404 (errorObj "Not found")) s
    end.
Proof.
  intros Hp. unfold routes, programmeRoute, scriptsRoute, scriptRoute.
  rewrite Hp. repeat case_decide; naive_solver.
Qed.

Lemma routes_programme w req s :
  startsWith (pathname req) "/api/programmes/" = true →
  routes resolve w req s =
    match programmeRoute resolve w req s with
    | Some r => r
    | None => done (sendJson 404 (errorObj "Not found")) s
    end.
Proof.
  intros [r Hp]%startsWith_app.
  unfold routes, programmesRoute, scriptsRoute, scriptRoute.
  rewrite Hp. repeat case_decide; naive_solver.
Qed.

Lemma routes_scripts w req s :
  pathname req = "/api/scripts" →
  routes resolve w req s =
    match scriptsRoute resolve w req s with
    | Some r => r
    | None => done (sendJson 404 (errorObj "Not found")) s
    end.
Proof.
  intros Hp.
  unfold routes, programmesRoute, programmeRoute, scriptRoute.
  rewrite Hp. repeat case_decide; naive_solver.
Qed.

Lemma routes_script w req s :
  startsWith (pathname req) "/api/scripts/" = true →
  routes resolve w req s =
    match scriptRoute resolve w req s with
    | Some r => r
    | None => done (sendJson 404 (errorObj "Not found")) s
    end.
Proof.
  intros [r Hp]%startsWith_app.
  unfold routes, programmesRoute, programmeRoute, scriptsRoute.
  rewrite Hp. repeat case_decide; naive_solver.
Qed.
End Routing.
End SimpleFacts.

(** ** Updating an id that is not there *)








(** ** Model names outside the known set *)

Lemma selected_None (x : string) : selected x = None ↔ x ∉ knownModels.
Proof.
  unfold selected, knownModels. repeat case_decide; subst; set_solver.
Qed.

Lemma destructured_object (k first : string) (b : JsVal) :
  prop k b ≠ JUndefined → Simple.destructured first (Return b) = Return b.
Proof. by destruct b. Qed.

Lemma truthy_defined (v : JsVal) : truthy v = true → v ≠ JUndefined.
Proof. by intros H ->. Qed.

Lemma simple_generate_reached resolve w req s :
  Simple.method req = "POST" →
  Simple.pathname req = "/api/generate" →
  Simple.handleRequestAs resolve w req s =
    match Simple.generate resolve w req s with
    | (events, Return (r, s')) => mkReply r s' events
    | (events, Throw message) =>
        mkReply (Simple.sendJson 500
                   (errorObj (if decide (message = "")
                              then "Internal Server Error" else message)))
                s events
    end.
Proof.
  intros Hm Hp. unfold Simple.handleRequestAs, Simple.routes.
  rewrite Hm, Hp. repeat case_decide; naive_solver.
Qed.

(** C2.  An authenticated POST /api/generate whose model is a string that,
    lowercased, is none of gemini, claude, openai, chatgpt is answered 400
    with an error object, and the run enters no provider helper and issues no
    fetch: its trace of provider events is empty.  Both servers. *)
Theorem unsupported_model_rejected (m : string) :
  toLowerCase m ∉ knownModels →
  (∀ resolve w req s u b,
      Simple.userOf resolve req = Some u →
      Simple.method req = "POST" →
      Simple.pathname req = "/api/generate" →
      Simple.parsed req = Return b →
      prop "model" b = JStr m →
      let reply := Simple.handleRequestAs resolve w req s in
      statusCode (response reply) = 400
      ∧ (∃ message, body (response reply) = Some (errorObj message))
      ∧ trace reply = [])
  ∧ (∀ w req s uid,
        Express.authenticateUser req = inr uid →
        prop "model" (Express.body req) = JStr m →
        let reply := Express.app Express.PostGenerate w req s in
        statusCode (response reply) = 400
        ∧ (∃ message, body (response reply) = Some (errorObj message))
        ∧ trace reply = []).
Proof.
  intros Hm%selected_None. split.
  - intros resolve w req s u b Hu Hmeth Hp Hb Hmodel. cbv zeta.
    rewrite simple_generate_reached by done.
    unfold Simple.generate. rewrite Hu, Hb.
    destruct b; try discriminate Hmodel. simpl Simple.destructured. cbv beta iota.
    rewrite Hmodel. simpl ToString. cbn [stringifiable negb]. rewrite Hm.
    destruct (negb _ || negb _); simpl; eauto.
  - intros w req s uid Hauth Hmodel. cbv zeta.
    unfold Express.app. rewrite Hauth. unfold Express.handler, Express.generate.
    rewrite (express_destructured_object "model") by (by rewrite Hmodel).
    cbv zeta.
    rewrite Hmodel. unfold Express.lowered, js_or. simpl truthy.
    case_bool_decide as Hempty; simpl.
    + subst m. simpl. eauto.
    + rewrite Hm. simpl. eauto.
Qed.

Lemma unsupported_model_rejected_witness :
  let reply := Simple.handleRequest Sample.configured
                 (Sample.generate "t" (JStr "Bogus") (JStr "hi"))
                 Sample.stocked in
  statusCode (response reply) = 400
  ∧ (∃ message, body (response reply) = Some (errorObj message))
  ∧ trace reply = [].
Proof.
  apply (proj1 (unsupported_model_rejected "Bogus"
                  ltac:(apply (bool_decide_unpack _); vm_compute; exact I))
               Simple.getUserId _ _ _ "demo-user"
               (JObj [("model", JStr "Bogus"); ("prompt", JStr "hi")]));
    reflexivity.
Defined.

(** ** Missing credentials *)

Lemma call_unconfigured (p : Provider) (w : World) (prompt : JsVal) :
  env w !! keyName p = None →
  call p w prompt = ([Invoked p prompt], Throw (keyName p ++ " not configured")).
Proof.
  intros H. destruct p; simpl in *;
    unfold callGemini, callClaude, callOpenAI, credential; by rewrite H.
Qed.

(** C3.  When the environment variable of a provider is absent, its helper
    throws the message naming that variable without issuing any fetch, and a
    generate request that selects this provider is answered 500 with that
    message as its error; the only provider event of the run is the entry
    into the helper, so nothing is fetched.  Both servers. *)
Theorem missing_credential_fails (p : Provider) (w : World) :
  env w !! keyName p = None →
  (∀ prompt,
      call p w prompt
      = ([Invoked p prompt], Throw (keyName p ++ " not configured")))
  ∧ (∀ resolve req s u b,
        Simple.userOf resolve req = Some u →
        Simple.method req = "POST" →
        Simple.pathname req = "/api/generate" →
        Simple.parsed req = Return b →
        truthy (prop "model" b) = true →
        truthy (prop "prompt" b) = true →
        selected (toLowerCase (ToString (prop "model" b))) = Some p →
        let reply := Simple.handleRequestAs resolve w req s in
        statusCode (response reply) = 500
        ∧ body (response reply)
          = Some (errorObj (keyName p ++ " not configured"))
        ∧ trace reply = [Invoked p (prop "prompt" b)])
  ∧ (∀ req s uid selector,
        Express.authenticateUser req = inr uid →
        Express.lowered (prop "model" (Express.body req)) = Return selector →
        selected selector = Some p →
        let reply := Express.app Express.PostGenerate w req s in
        statusCode (response reply) = 500
        ∧ body (response reply)
          = Some (errorObj (keyName p ++ " not configured"))
        ∧ trace reply = [Invoked p (prop "prompt" (Express.body req))]).
Proof.
  intros Henv. split; [|split].
  - intros prompt. by apply call_unconfigured.
  - intros resolve req s u b Hu Hmeth Hp Hb Hmodel Hprompt Hsel. cbv zeta.
    rewrite simple_generate_reached by done.
    unfold Simple.generate. rewrite Hu, Hb.
    destruct b; try discriminate Hmodel. simpl Simple.destructured.
    cbv beta iota zeta.
    rewrite Hmodel, Hprompt, (selected_stringifiable _ p Hsel), Hsel.
    simpl negb. simpl orb.
    cbv beta iota. rewrite call_unconfigured by done.
    unfold Simple.forwarded. simpl. by destruct p.
  - intros req s uid selector Hauth Hlow Hsel. cbv zeta.
    unfold Express.app. rewrite Hauth. unfold Express.handler, Express.generate.
    rewrite (express_destructured_object "model")
      by (by eapply express_lowered_object).
    cbv zeta.
    rewrite Hlow, Hsel, call_unconfigured by done. done.
Qed.

Lemma missing_credential_fails_witness :
  let reply := Simple.handleRequest (Sample.bare 0 "")
                 (Sample.generate "t" (JStr "Gemini") (JStr "hi"))
                 Sample.stocked in
  statusCode (response reply) = 500
  ∧ body (response reply) = Some (errorObj "GEMINI_API_KEY not configured")
  ∧ trace reply = [Invoked Gemini (JStr "hi")].
Proof.
  apply (proj1 (proj2 (missing_credential_fails Gemini (Sample.bare 0 "")
                         eq_refl))
               Simple.getUserId _ _ "demo-user"
               (JObj [("model", JStr "Gemini"); ("prompt", JStr "hi")]));
    reflexivity.
Defined.

(** ** Prompts *)

Lemma call_configured (p : Provider) (w : World) (prompt : JsVal) key :
  credential w (keyName p) = Some key →
  ∃ r, (call p w prompt).1 = [Invoked p prompt; Fetched r]
       ∧ promptOf r = prompt.
Proof.
  intros H. destruct p; simpl in *;
    unfold callGemini, callClaude, callOpenAI; rewrite H; simpl; eauto.
Qed.

Lemma simple_forwarded_trace s c : (Simple.forwarded s c).1 = c.1.
Proof. done. Qed.

Lemma express_forwarded_trace s c : trace (Express.forwarded s c) = c.1.
Proof. unfold Express.forwarded. by destruct (c.2). Qed.

(** The claim of C7 fails on the simple server: with the Gemini credential
    configured, an empty prompt is answered 400 and no helper is entered. *)
Lemma empty_prompt_rejected_by_simple_server :
  let reply := Simple.handleRequest Sample.configured
                 (Sample.generate "t" (JStr "gemini") (JStr ""))
                 Sample.stocked in
  statusCode (response reply) = 400
  ∧ body (response reply) = Some (errorObj "Missing model or prompt")
  ∧ trace reply = [].
Proof. by vm_compute. Qed.

(** C7, amended.  The Express application does not validate the prompt: for a
    known model whose credential is configured, the helper is entered with
    the prompt of the body, whatever it is (the empty string included), and
    the one upstream request carries that same value.  The simple server
    does the same for a prompt that is truthy, but answers 400
    "Missing model or prompt" to a falsy one (the empty string, a missing
    prompt) without entering any helper. *)
Theorem prompt_forwarding (p : Provider) (w : World) (key : string) :
  credential w (keyName p) = Some key →
  (∀ req s uid selector,
      Express.authenticateUser req = inr uid →
      Express.lowered (prop "model" (Express.body req)) = Return selector →
      selected selector = Some p →
      let prompt := prop "prompt" (Express.body req) in
      ∃ r, trace (Express.app Express.PostGenerate w req s)
           = [Invoked p prompt; Fetched r]
           ∧ promptOf r = prompt)
  ∧ (∀ resolve req s u b,
        Simple.userOf resolve req = Some u →
        Simple.method req = "POST" →
        Simple.pathname req = "/api/generate" →
        Simple.parsed req = Return b →
        truthy (prop "model" b) = true →
        selected (toLowerCase (ToString (prop "model" b))) = Some p →
        let prompt := prop "prompt" b in
        let reply := Simple.handleRequestAs resolve w req s in
        if truthy prompt
        then ∃ r, trace reply = [Invoked p prompt; Fetched r]
                  ∧ promptOf r = prompt
        else statusCode (response reply) = 400
             ∧ body (response reply) = Some (errorObj "Missing model or prompt")
             ∧ trace reply = []).
Proof.
  intros Hkey. split.
  - intros req s uid selector Hauth Hlow Hsel. cbv zeta.
    unfold Express.app. rewrite Hauth. unfold Express.handler, Express.generate.
    rewrite (express_destructured_object "model")
      by (by eapply express_lowered_object).
    cbv zeta.
    rewrite Hlow, Hsel, express_forwarded_trace.
    by eapply call_configured.
  - intros resolve req s u b Hu Hmeth Hp Hb Hmodel Hsel. cbv zeta.
    rewrite simple_generate_reached by done.
    unfold Simple.generate. rewrite Hu, Hb.
    rewrite (destructured_object "model") by by apply truthy_defined.
    cbv zeta. rewrite Hmodel, (selected_stringifiable _ p Hsel), Hsel.
    destruct (truthy (prop "prompt" b)) eqn:Hprompt; simpl negb; simpl orb;
      cbv beta iota; [|done].
    destruct (call_configured p w (prop "prompt" b) key Hkey)
      as (r & Htrace & Hprompt').
    exists r. split; [|done]. rewrite <- Htrace.
    rewrite <- (simple_forwarded_trace s).
    by destruct (Simple.forwarded s _) as [events [[??]|?]].
Qed.

Lemma prompt_forwarding_witness :
  ∃ r, trace (Express.app Express.PostGenerate Sample.configured
                (Sample.express ""
                   (JObj [("model", JStr "ChatGPT"); ("prompt", JStr "")]))
                Sample.stocked)
       = [Invoked OpenAI (JStr ""); Fetched r]
       ∧ promptOf r = JStr "".
Proof.
  apply (proj1 (prompt_forwarding OpenAI Sample.configured "o-key" eq_refl)
               (Sample.express ""
                  (JObj [("model", JStr "ChatGPT"); ("prompt", JStr "")]))
               Sample.stocked "demo-user" "chatgpt"); reflexivity.
Defined.

(** ** Deleting *)

Lemma findIndex_middle {A} (getId : A → string) (before after : list A) x :
  getId x ∉ getId <$> before →
  findIndex getId (getId x) (before ++ x :: after)%list
  = Some (length before, x).
Proof.
  intros H. apply findIndex_Some. by exists before, after.
Qed.

Lemma findIndex_gone {A} (getId : A → string) (before after : list A) id :
  id ∉ getId <$> before → id ∉ getId <$> after →
  findIndex getId id (before ++ after)%list = None.
Proof.
  intros Hb Ha. apply findIndex_None. rewrite fmap_app. set_solver.
Qed.

Lemma simple_delete_programme resolve w req s u i x :
  Simple.userOf resolve req = Some u →
  Simple.method req = "DELETE" →
  startsWith (Simple.pathname req) "/api/programmes/" = true →
  findIndex Programme.id (split_pop (Simple.pathname req))
            (listOf (programmes s) u) = Some (i, x) →
  Simple.handleRequestAs resolve w req s =
    mkReply (Simple.sendJson 204 (OfValue (JObj [])))
            (Simple.withProgrammes s
               (<[u := delete i (listOf (programmes s) u)]> (programmes s)))
            [].
Proof.
  intros Hu Hm Hp Hfind. unfold Simple.handleRequestAs.
  rewrite SimpleFacts.routes_programme by done.
  unfold Simple.programmeRoute. rewrite Hp, Hu, Hm, Hfind.
  by repeat case_decide.
Qed.

Lemma simple_delete_script resolve w req s u i x :
  Simple.userOf resolve req = Some u →
  Simple.method req = "DELETE" →
  startsWith (Simple.pathname req) "/api/scripts/" = true →
  findIndex Script.id (split_pop (Simple.pathname req))
            (listOf (scripts s) u) = Some (i, x) →
  Simple.handleRequestAs resolve w req s =
    mkReply (Simple.sendJson 204 (OfValue (JObj [])))
            (Simple.withScripts s
               (<[u := delete i (listOf (scripts s) u)]> (scripts s)))
            [].
Proof.
  intros Hu Hm Hp Hfind. unfold Simple.handleRequestAs.
  rewrite SimpleFacts.routes_script by done.
  unfold Simple.scriptRoute. rewrite Hp, Hu, Hm, Hfind.
  by repeat case_decide.
Qed.

Lemma simple_delete_absent resolve w req s u :
  Simple.userOf resolve req = Some u →
  Simple.method req = "DELETE" →
  (startsWith (Simple.pathname req) "/api/programmes/" = true ∧
   findIndex Programme.id (split_pop (Simple.pathname req))
             (listOf (programmes s) u) = None)
  ∨ (startsWith (Simple.pathname req) "/api/scripts/" = true ∧
     findIndex Script.id (split_pop (Simple.pathname req))
               (listOf (scripts s) u) = None) →
  statusCode (response (Simple.handleRequestAs resolve w req s)) = 404
  ∧ store (Simple.handleRequestAs resolve w req s) = s.
Proof.
  intros Hu Hm [[Hp Hfind]|[Hp Hfind]]; unfold Simple.handleRequestAs.
  - rewrite SimpleFacts.routes_programme by done.
    unfold Simple.programmeRoute. rewrite Hp, Hu, Hm, Hfind.
    by repeat case_decide.
  - rewrite SimpleFacts.routes_script by done.
    unfold Simple.scriptRoute. rewrite Hp, Hu, Hm, Hfind.
    by repeat case_decide.
Qed.

Lemma express_delete_programme u w req s i x :
  findIndex Programme.id (Express.params_id req) (listOf (programmes s) u)
  = Some (i, x) →
  Express.handler Express.DeleteProgramme u w req s =
    mkReply (mkResponse 204 [] None)
            (mkStore (<[u := delete i (listOf (programmes s) u)]>
                        (programmes s)) (scripts s)) [].
Proof. intros H. unfold Express.handler. by rewrite H. Qed.

Lemma express_delete_script u w req s i x :
  findIndex Script.id (Express.params_id req) (listOf (scripts s) u)
  = Some (i, x) →
  Express.handler Express.DeleteScript u w req s =
    mkReply (mkResponse 204 [] None)
            (mkStore (programmes s)
                     (<[u := delete i (listOf (scripts s) u)]> (scripts s))) [].
Proof. intros H. unfold Express.handler. by rewrite H. Qed.

Lemma express_delete_absent u w req s :
  (findIndex Programme.id (Express.params_id req) (listOf (programmes s) u)
   = None →
   Express.handler Express.DeleteProgramme u w req s
   = mkReply (Express.json_ 404 (errorObj "Programme not found")) s [])
  ∧ (findIndex Script.id (Express.params_id req) (listOf (scripts s) u)
     = None →
     Express.handler Express.DeleteScript u w req s
     = mkReply (Express.json_ 404 (errorObj "Script not found")) s []).
Proof. split; intros H; unfold Express.handler; by rewrite H. Qed.

(** The claim of C6 fails when two records of the sequence carry the same id,
    which two creates served with the same clock value and the same random
    draw produce: the second DELETE of that id is answered 204 again. *)
Lemma second_delete_succeeds_on_shared_id :
  let w := Sample.bare 1700000000000 "0.4fzyo82mvyr" in
  let id := "programme-1700000000000-4fzyo82mv" in
  statusCode <$>
    (Simple.serve Simple.getUserId
       [(w, Sample.postProgramme "t" "first");
        (w, Sample.postProgramme "t" "second");
        (w, Sample.deleteProgramme "t" id);
        (w, Sample.deleteProgramme "t" id)] initial).1
  = [201; 201; 204; 204].
Proof. by vm_compute. Qed.

(** C6, amended.  When the id of a DELETE occurs exactly once in the caller's
    sequence, the first DELETE is answered 204 and leaves a store that
    differs from the old one only in that this record is gone from the
    caller's sequence; the same DELETE served next is answered 404 and
    changes nothing.  Both servers, programmes and scripts. *)
Theorem delete_twice (u : string) (s : Store) :
  (∀ resolve w w' req before x after,
      Simple.userOf resolve req = Some u →
      Simple.method req = "DELETE" →
      startsWith (Simple.pathname req) "/api/programmes/" = true →
      listOf (programmes s) u = (before ++ x :: after)%list →
      Programme.id x = split_pop (Simple.pathname req) →
      Programme.id x ∉ Programme.id <$> before →
      Programme.id x ∉ Programme.id <$> after →
      let first := Simple.handleRequestAs resolve w req s in
      let second := Simple.handleRequestAs resolve w' req (store first) in
      statusCode (response first) = 204
      ∧ store first
        = mkStore (<[u := (before ++ after)%list]> (programmes s)) (scripts s)
      ∧ statusCode (response second) = 404
      ∧ store second = store first)
  ∧ (∀ resolve w w' req before x after,
        Simple.userOf resolve req = Some u →
        Simple.method req = "DELETE" →
        startsWith (Simple.pathname req) "/api/scripts/" = true →
        listOf (scripts s) u = (before ++ x :: after)%list →
        Script.id x = split_pop (Simple.pathname req) →
        Script.id x ∉ Script.id <$> before →
        Script.id x ∉ Script.id <$> after →
        let first := Simple.handleRequestAs resolve w req s in
        let second := Simple.handleRequestAs resolve w' req (store first) in
        statusCode (response first) = 204
        ∧ store first
          = mkStore (programmes s) (<[u := (before ++ after)%list]> (scripts s))
        ∧ statusCode (response second) = 404
        ∧ store second = store first)
  ∧ (∀ w w' req before x after,
        listOf (programmes s) u = (before ++ x :: after)%list →
        Programme.id x = Express.params_id req →
        Programme.id x ∉ Programme.id <$> before →
        Programme.id x ∉ Programme.id <$> after →
        let first := Express.handler Express.DeleteProgramme u w req s in
        let second :=
          Express.handler Express.DeleteProgramme u w' req (store first) in
        statusCode (response first) = 204
        ∧ store first
          = mkStore (<[u := (before ++ after)%list]> (programmes s)) (scripts s)
        ∧ statusCode (response second) = 404
        ∧ store second = store first)
  ∧ (∀ w w' req before x after,
        listOf (scripts s) u = (before ++ x :: after)%list →
        Script.id x = Express.params_id req →
        Script.id x ∉ Script.id <$> before →
        Script.id x ∉ Script.id <$> after →
        let first := Express.handler Express.DeleteScript u w req s in
        let second :=
          Express.handler Express.DeleteScript u w' req (store first) in
        statusCode (response first) = 204
        ∧ store first
          = mkStore (programmes s) (<[u := (before ++ after)%list]> (scripts s))
        ∧ statusCode (response second) = 404
        ∧ store second = store first).
Proof.
  repeat split_and.
  - intros resolve w w' req before x after Hu Hm Hp Hl Hid Hb Ha. cbv zeta.
    rewrite (simple_delete_programme _ _ _ _ u (length before) x); try done.
    2:{ rewrite Hl, <- Hid. by apply findIndex_middle. }
    rewrite Hl, delete_middle. cbn [response store statusCode].
    unfold Simple.withProgrammes. split; [done|]. split; [done|].
    apply (simple_delete_absent _ _ _ _ u); try done.
    left. split; [done|]. cbn [programmes]. rewrite listOf_insert, <- Hid.
    by apply findIndex_gone.
  - intros resolve w w' req before x after Hu Hm Hp Hl Hid Hb Ha. cbv zeta.
    rewrite (simple_delete_script _ _ _ _ u (length before) x); try done.
    2:{ rewrite Hl, <- Hid. by apply findIndex_middle. }
    rewrite Hl, delete_middle. cbn [response store statusCode].
    unfold Simple.withScripts. split; [done|]. split; [done|].
    apply (simple_delete_absent _ _ _ _ u); try done.
    right. split; [done|]. cbn [scripts]. rewrite listOf_insert, <- Hid.
    by apply findIndex_gone.
  - intros w w' req before x after Hl Hid Hb Ha. cbv zeta.
    rewrite (express_delete_programme _ _ _ _ (length before) x).
    2:{ rewrite Hl, <- Hid. by apply findIndex_middle. }
    rewrite Hl, delete_middle. cbn [response store statusCode].
    split; [done|]. split; [done|].
    rewrite (proj1 (express_delete_absent _ _ _ _)); [done|].
    cbn [programmes]. rewrite listOf_insert, <- Hid. by apply findIndex_gone.
  - intros w w' req before x after Hl Hid Hb Ha. cbv zeta.
    rewrite (express_delete_script _ _ _ _ (length before) x).
    2:{ rewrite Hl, <- Hid. by apply findIndex_middle. }
    rewrite Hl, delete_middle. cbn [response store statusCode].
    split; [done|]. split; [done|].
    rewrite (proj2 (express_delete_absent _ _ _ _)); [done|].
    cbn [scripts]. rewrite listOf_insert, <- Hid. by apply findIndex_gone.
Qed.

Lemma delete_twice_witness :
  let req := Sample.deleteProgramme "t" "p1" in
  let first := Simple.handleRequest (Sample.bare 0 "") req Sample.stocked in
  let second := Simple.handleRequest (Sample.bare 1 "") req (store first) in
  statusCode (response first) = 204
  ∧ store first
    = mkStore (<["demo-user" := [Sample.aProgramme "p2"] ]>
                 (programmes Sample.stocked))
              (scripts Sample.stocked)
  ∧ statusCode (response second) = 404
  ∧ store second = store first.
Proof.
  apply (proj1 (delete_twice "demo-user" Sample.stocked) Simple.getUserId
               (Sample.bare 0 "") (Sample.bare 1 "")
               (Sample.deleteProgramme "t" "p1")
               [Sample.aProgramme "p2"] (Sample.aProgramme "p1") []);
    try reflexivity;
    apply (bool_decide_unpack _); vm_compute; exact I.
Defined.

Lemma findIndex_present {A} (getId : A → string) (id : string) (l : list A) :
  id ∈ getId <$> l → ∃ i x, findIndex getId id l = Some (i, x).
Proof.
  intros Hin. destruct (findIndex getId id l) as [[i x]|] eqn:Hfind; [eauto|].
  by apply findIndex_None in Hfind.
Qed.

(** What each server hands to the response on a successful DELETE, and what
    of it is written. *)
Example delete_chunks :
  let simple := Simple.handleRequest (Sample.bare 0 "")
                  (Sample.deleteProgramme "t" "p1") Sample.stocked in
  let express := Express.app Express.DeleteProgramme (Sample.bare 0 "")
                   (Sample.express "p1" (JObj [])) Sample.stocked in
  statusCode (response simple) = 204
  ∧ body (response simple) = Some (OfValue (JObj []))
  ∧ wireBody (response simple) = None
  ∧ statusCode (response express) = 204
  ∧ body (response express) = None
  ∧ store simple = store express.
Proof. by vm_compute. Qed.

(** C9.  Every successful DELETE of a programme or of a script, that is one
    whose id is in the caller's sequence, is answered 204 and no body bytes
    are written.  The Express callbacks end the response without a chunk.
    The simple server goes through [sendJson], which hands the text of [{}]
    to [res.end] after [writeHead(204)]; for that status the chunk is
    dropped.  Both servers. *)
Theorem delete_no_content (u : string) (s : Store) :
  (∀ resolve w req,
      Simple.userOf resolve req = Some u →
      Simple.method req = "DELETE" →
      (startsWith (Simple.pathname req) "/api/programmes/" = true ∧
       split_pop (Simple.pathname req)
         ∈ Programme.id <$> listOf (programmes s) u)
      ∨ (startsWith (Simple.pathname req) "/api/scripts/" = true ∧
         split_pop (Simple.pathname req)
           ∈ Script.id <$> listOf (scripts s) u) →
      let r := response (Simple.handleRequestAs resolve w req s) in
      statusCode r = 204 ∧ wireBody r = None)
  ∧ (∀ w req,
        Express.params_id req ∈ Programme.id <$> listOf (programmes s) u →
        let r := response (Express.handler Express.DeleteProgramme u w req s) in
        statusCode r = 204 ∧ body r = None ∧ wireBody r = None)
  ∧ (∀ w req,
        Express.params_id req ∈ Script.id <$> listOf (scripts s) u →
        let r := response (Express.handler Express.DeleteScript u w req s) in
        statusCode r = 204 ∧ body r = None ∧ wireBody r = None).
Proof.
  split; [|split].
  - intros resolve w req Hu Hm [[Hp Hid]|[Hp Hid]]; cbv zeta;
      apply findIndex_present in Hid as (i & x & Hfind).
    + by rewrite (simple_delete_programme _ _ _ _ u i x).
    + by rewrite (simple_delete_script _ _ _ _ u i x).
  - intros w req (i & x & Hfind)%findIndex_present. cbv zeta.
    by rewrite (express_delete_programme _ _ _ _ i x).
  - intros w req (i & x & Hfind)%findIndex_present. cbv zeta.
    by rewrite (express_delete_script _ _ _ _ i x).
Qed.

Lemma delete_no_content_witness :
  let r := response (Simple.handleRequest (Sample.bare 0 "")
                       (Sample.deleteScript "t" "s1") Sample.stocked) in
  statusCode r = 204 ∧ wireBody r = None.
Proof.
  apply (proj1 (delete_no_content "demo-user" Sample.stocked)
               Simple.getUserId).
  - reflexivity.
  - reflexivity.
  - right. split; [reflexivity|].
    apply (bool_decide_unpack _). vm_compute. exact I.
Defined.

(** ** The wait inside a PUT of the simple server *)

Lemma listOf_nonempty {A} (m : gmap string (list A)) u (l : list A) :
  l ≠ [] → listOf m u = l → m !! u = Some l.
Proof. unfold listOf. destruct (m !! u); simpl; congruence. Qed.

Lemma insert_middle {A} (before after : list A) (x y : A) :
  <[length before := y]> (before ++ x :: after)%list
  = (before ++ y :: after)%list.
Proof.
  rewrite insert_app_r_alt by lia. by rewrite Nat.sub_diag.
Qed.

Lemma script_path_not_programme (path : string) :
  startsWith path "/api/scripts/" = true →
  startsWith path "/api/programmes/" = false.
Proof. by intros [r ->]%startsWith_app. Qed.

Lemma arrived_programme resolve req s u i x :
  Simple.userOf resolve req = Some u →
  Simple.method req = "PUT" →
  startsWith (Simple.pathname req) "/api/programmes/" = true →
  findIndex Programme.id (split_pop (Simple.pathname req))
            (listOf (programmes s) u) = Some (i, x) →
  Simple.arrived resolve req s = Some (Simple.ForProgramme u i).
Proof.
  intros Hu Hm Hp Hfind. unfold Simple.arrived.
  rewrite Hp, Hu. cbv zeta. rewrite Hfind. by case_decide.
Qed.

Lemma arrived_script resolve req s u i x :
  Simple.userOf resolve req = Some u →
  Simple.method req = "PUT" →
  startsWith (Simple.pathname req) "/api/scripts/" = true →
  findIndex Script.id (split_pop (Simple.pathname req))
            (listOf (scripts s) u) = Some (i, x) →
  Simple.arrived resolve req s = Some (Simple.ForScript u i).
Proof.
  intros Hu Hm Hp Hfind. unfold Simple.arrived.
  rewrite (script_path_not_programme _ Hp), Hp, Hu. cbv zeta.
  rewrite Hfind. by case_decide.
Qed.

(** After the wait the write goes to the record that is at [index] by
    then, whichever it is. *)
Lemma resumed_programme w req u s before y after :
  listOf (programmes s) u = (before ++ y :: after)%list →
  Simple.resumed w req (Simple.ForProgramme u (length before)) s =
    Some match Simple.destructured "name" (Simple.parsed req) with
         | Return b =>
             mkReply (Simple.sendJson 200
                        (OfProgramme (Simple.updatedProgramme w y b)))
                     (mkStore
                        (<[u := (before ++ Simple.updatedProgramme w y b
                                   :: after)%list]> (programmes s))
                        (scripts s)) []
         | Throw e =>
             mkReply (Simple.sendJson 500 (errorObj (shownMessage e))) s []
         end.
Proof.
  intros Hl. unfold Simple.resumed.
  destruct (Simple.destructured _ _) as [b|e]; [|done].
  cbv zeta. rewrite Hl, list_lookup_middle by done.
  by rewrite insert_middle.
Qed.

Lemma resumed_script w req u s before y after :
  listOf (scripts s) u = (before ++ y :: after)%list →
  Simple.resumed w req (Simple.ForScript u (length before)) s =
    Some match Simple.destructured "content" (Simple.parsed req) with
         | Return b =>
             mkReply (Simple.sendJson 200
                        (OfScript (Simple.updatedScript w y b)))
                     (mkStore (programmes s)
                        (<[u := (before ++ Simple.updatedScript w y b
                                   :: after)%list]> (scripts s))) []
         | Throw e =>
             mkReply (Simple.sendJson 500 (errorObj (shownMessage e))) s []
         end.
Proof.
  intros Hl. unfold Simple.resumed.
  destruct (Simple.destructured _ _) as [b|e]; [|done].
  cbv zeta. rewrite Hl, list_lookup_middle by done.
  by rewrite insert_middle.
Qed.

Lemma simple_put_programme resolve w req s u i x :
  Simple.userOf resolve req = Some u →
  Simple.method req = "PUT" →
  startsWith (Simple.pathname req) "/api/programmes/" = true →
  findIndex Programme.id (split_pop (Simple.pathname req))
            (listOf (programmes s) u) = Some (i, x) →
  Simple.handleRequestAs resolve w req s =
    match Simple.destructured "name" (Simple.parsed req) with
    | Return b =>
        mkReply (Simple.sendJson 200
                   (OfProgramme (Simple.updatedProgramme w x b)))
                (mkStore
                   (<[u := <[i := Simple.updatedProgramme w x b]>
                             (listOf (programmes s) u)]> (programmes s))
                   (scripts s)) []
    | Throw e => mkReply (Simple.sendJson 500 (errorObj (shownMessage e))) s []
    end.
Proof.
  intros Hu Hm Hp Hfind. unfold Simple.handleRequestAs.
  rewrite SimpleFacts.routes_programme by done.
  unfold Simple.programmeRoute. rewrite Hp, Hu, Hm, Hfind.
  repeat case_decide; try done.
  by destruct (Simple.destructured _ _).
Qed.

Lemma simple_put_script resolve w req s u i x :
  Simple.userOf resolve req = Some u →
  Simple.method req = "PUT" →
  startsWith (Simple.pathname req) "/api/scripts/" = true →
  findIndex Script.id (split_pop (Simple.pathname req))
            (listOf (scripts s) u) = Some (i, x) →
  Simple.handleRequestAs resolve w req s =
    match Simple.destructured "content" (Simple.parsed req) with
    | Return b =>
        mkReply (Simple.sendJson 200 (OfScript (Simple.updatedScript w x b)))
                (mkStore (programmes s)
                   (<[u := <[i := Simple.updatedScript w x b]>
                             (listOf (scripts s) u)]> (scripts s))) []
    | Throw e => mkReply (Simple.sendJson 500 (errorObj (shownMessage e))) s []
    end.
Proof.
  intros Hu Hm Hp Hfind. unfold Simple.handleRequestAs.
  rewrite SimpleFacts.routes_script by done.
  unfold Simple.scriptRoute. rewrite Hp, Hu, Hm, Hfind.
  repeat case_decide; try done.
  by destruct (Simple.destructured _ _).
Qed.

(** The two parts of a PUT put together again: when nothing is served
    during the wait, they are [handleRequest]. *)
Lemma resumed_at_once resolve w req s a :
  Simple.arrived resolve req s = Some a →
  Simple.resumed w req a s = Some (Simple.handleRequestAs resolve w req s).
Proof.
  unfold Simple.arrived. intros Ha.
  destruct (decide (Simple.method req = "PUT")) as [Hm|]; [|done].
  destruct (startsWith (Simple.pathname req) "/api/programmes/") eqn:Hp.
  - destruct (Simple.userOf resolve req) as [u|] eqn:Hu; [|done].
    cbv zeta in Ha.
    destruct (findIndex Programme.id _ _) as [[i x]|] eqn:Hfind; [|done].
    injection Ha as <-.
    rewrite (simple_put_programme _ _ _ _ u i x) by done.
    apply findIndex_Some in Hfind as (before & after & Hl & <- & _).
    rewrite (resumed_programme _ _ _ _ before x after) by done.
    destruct (Simple.destructured _ _) as [b|e]; [|done].
    by rewrite Hl, insert_middle.
  - destruct (startsWith (Simple.pathname req) "/api/scripts/") eqn:Hp';
      [|done].
    destruct (Simple.userOf resolve req) as [u|] eqn:Hu; [|done].
    cbv zeta in Ha.
    destruct (findIndex Script.id _ _) as [[i x]|] eqn:Hfind; [|done].
    injection Ha as <-.
    rewrite (simple_put_script _ _ _ _ u i x) by done.
    apply findIndex_Some in Hfind as (before & after & Hl & <- & _).
    rewrite (resumed_script _ _ _ _ before x after) by done.
    destruct (Simple.destructured _ _) as [b|e]; [|done].
    by rewrite Hl, insert_middle.
Qed.

Lemma putInterleaved_at_once resolve w req s a :
  Simple.arrived resolve req s = Some a →
  Simple.putInterleaved resolve w req [] s
  = Some (Simple.handleRequestAs resolve w req s).
Proof.
  intros Ha. unfold Simple.putInterleaved. rewrite Ha.
  by apply resumed_at_once.
Qed.

(** ** Updating a script *)

(** C10.  The claim fails on the simple server when a request is served
    while a PUT waits for its body.  The PUT branch finds the index of the
    script before the wait and writes at that index after it.  With the
    scripts s2, s1 of the caller, a PUT for s1 finds index 1; a
    POST /api/scripts served during the wait puts a new script in front;
    the PUT then overwrites s2, now at index 1, answers 200 with it, and
    leaves s1 as it was.  Served with nothing in between, the same PUT
    updates s1, and so does the Express callback, which has no wait between
    its lookup and its write. *)
Theorem put_script_stale_index :
  let w := Sample.bare 1700000000000 "0.4fzyo82mvyr" in
  let put := Sample.putScript "t" "s1" in
  let fields := JObj [("content", JStr "INT. STUDIO"); ("sources", JArr [])] in
  let post := Simple.mkRequest "POST" "/api/scripts" (Sample.bearer "t")
                               (Return (JObj [("topic", JStr "teaser")])) in
  let scriptsOf (reply : Reply) := listOf (scripts (store reply)) "demo-user" in
  Simple.arrived Simple.getUserId put Sample.stocked
  = Some (Simple.ForScript "demo-user" 1)
  ∧ response <$> Simple.putInterleaved Simple.getUserId w put [(w, post)]
                   Sample.stocked
    = Some (Simple.sendJson 200
              (OfScript (Simple.updatedScript w (Sample.aScript "s2") fields)))
  ∧ scriptsOf <$> Simple.putInterleaved Simple.getUserId w put [(w, post)]
                    Sample.stocked
    = Some [Simple.newScript w (JObj [("topic", JStr "teaser")]);
            Simple.updatedScript w (Sample.aScript "s2") fields;
            Sample.aScript "s1"]
  ∧ Simple.putInterleaved Simple.getUserId w put [] Sample.stocked
    = Some (Simple.handleRequest w put Sample.stocked)
  ∧ scriptsOf (Simple.handleRequest w put Sample.stocked)
    = [Sample.aScript "s2";
       Simple.updatedScript w (Sample.aScript "s1") fields]
  ∧ scriptsOf (Express.app Express.PutScript w (Sample.express "s1" fields)
                 Sample.stocked)
    = [Sample.aScript "s2";
       Express.updatedScript w (Sample.aScript "s1") fields].
Proof. by vm_compute. Qed.

(** X21.  When the caller's scripts are the same at the end of the wait as
    they were at its start (whatever else was served in between), and always
    on the Express server, a PUT on a script of the caller's sequence (the
    record [x] that the id of the request resolves to, with [before] in
    front of it and [after] behind) leaves the programmes untouched and
    leaves a scripts store that differs from the one it finds only in that
    [x] is replaced, at its position, by a record with the same id,
    programmeId, topic and createdAt. *)
Theorem put_script_frame (u : string) (s : Store) (before after : list Script.t)
        (x : Script.t) :
  listOf (scripts s) u = (before ++ x :: after)%list →
  Script.id x ∉ Script.id <$> before →
  (∀ resolve w req during,
      Simple.userOf resolve req = Some u →
      Simple.method req = "PUT" →
      startsWith (Simple.pathname req) "/api/scripts/" = true →
      split_pop (Simple.pathname req) = Script.id x →
      let s1 := (Simple.serve resolve during s).2 in
      listOf (scripts s1) u = listOf (scripts s) u →
      ∃ reply x',
        Simple.putInterleaved resolve w req during s = Some reply
        ∧ programmes (store reply) = programmes s1
        ∧ scripts (store reply)
          = <[u := (before ++ x' :: after)%list]> (scripts s1)
        ∧ Script.id x' = Script.id x
        ∧ Script.programmeId x' = Script.programmeId x
        ∧ Script.topic x' = Script.topic x
        ∧ Script.createdAt x' = Script.createdAt x)
  ∧ (∀ w req,
        Express.params_id req = Script.id x →
        let s' := store (Express.handler Express.PutScript u w req s) in
        programmes s' = programmes s
        ∧ ∃ x', scripts s' = <[u := (before ++ x' :: after)%list]> (scripts s)
                ∧ Script.id x' = Script.id x
                ∧ Script.programmeId x' = Script.programmeId x
                ∧ Script.topic x' = Script.topic x
                ∧ Script.createdAt x' = Script.createdAt x).
Proof.
  intros Hl Hb. split.
  - intros resolve w req during Hu Hm Hp Hid. cbv zeta. intros Hsame.
    unfold Simple.putInterleaved.
    rewrite (arrived_script _ _ _ u (length before) x); try done.
    2:{ rewrite Hl, Hid. by apply findIndex_middle. }
    rewrite Hl in Hsame.
    rewrite (resumed_script _ _ _ _ before x after) by done.
    destruct (Simple.destructured _ _) as [b|e].
    + eexists _, (Simple.updatedScript w x b). by split.
    + eexists _, x. split; [done|]. cbn [store]. repeat split.
      rewrite insert_id; [done|].
      apply listOf_nonempty; [|done]. by destruct before.
  - intros w req Hid. cbv zeta. unfold Express.handler.
    destruct (Express.destructured _ _) as [b|e].
    + rewrite Hl, Hid, findIndex_middle by done.
      split; [done|]. exists (Express.updatedScript w x b).
      cbn [scripts store Express.quiet]. by rewrite insert_middle.
    + split; [done|]. exists x. cbn [store Express.rejected].
      rewrite insert_id; [done|].
      apply listOf_nonempty; [|done]. by destruct before.
Qed.

Lemma put_script_frame_witness :
  ∃ reply x',
    Simple.putInterleaved Simple.getUserId (Sample.bare 0 "")
      (Sample.putScript "t" "s1")
      [(Sample.bare 0 "", Sample.postProgramme "t" "Late Show")]
      Sample.stocked = Some reply
    ∧ programmes (store reply)
      = programmes
          (Simple.serve Simple.getUserId
             [(Sample.bare 0 "", Sample.postProgramme "t" "Late Show")]
             Sample.stocked).2
    ∧ scripts (store reply)
      = <["demo-user" := [Sample.aScript "s2"; x'] ]>
          (scripts
             (Simple.serve Simple.getUserId
                [(Sample.bare 0 "", Sample.postProgramme "t" "Late Show")]
                Sample.stocked).2)
    ∧ Script.id x' = "s1"
    ∧ Script.programmeId x' = JStr "programme-1"
    ∧ Script.topic x' = JStr "pilot"
    ∧ Script.createdAt x' = "2023-11-14T22:13:20.000Z".
Proof.
  apply (proj1 (put_script_frame "demo-user" Sample.stocked
                  [Sample.aScript "s2"] [] (Sample.aScript "s1")
                  eq_refl
                  ltac:(apply (bool_decide_unpack _); vm_compute; exact I))
               Simple.getUserId (Sample.bare 0 "")
               (Sample.putScript "t" "s1")
               [(Sample.bare 0 "", Sample.postProgramme "t" "Late Show")]);
    reflexivity.
Defined.

(** ** Creating and listing *)

Lemma simple_post_programme resolve w req s u :
  Simple.userOf resolve req = Some u →
  postsProgramme req →
  Simple.handleRequestAs resolve w req s =
    match Simple.destructured "name" (Simple.parsed req) with
    | Return b =>
        mkReply (Simple.sendJson 201 (OfProgramme (Simple.newProgramme w b)))
                (mkStore (unshift (programmes s) u (Simple.newProgramme w b))
                         (scripts s)) []
    | Throw message =>
        mkReply (Simple.sendJson 500
                   (errorObj (if decide (message = "")
                              then "Internal Server Error" else message)))
                s []
    end.
Proof.
  intros Hu [Hm Hp]. unfold Simple.handleRequestAs.
  rewrite SimpleFacts.routes_programmes by done.
  unfold Simple.programmesRoute. rewrite Hp, Hu, Hm.
  repeat case_decide; try done.
  by destruct (Simple.destructured _ _).
Qed.

Lemma simple_get_programmes resolve w req s u :
  Simple.userOf resolve req = Some u →
  getsProgrammes req →
  Simple.handleRequestAs resolve w req s =
    mkReply (Simple.sendJson 200 (OfProgrammes (listOf (programmes s) u))) s [].
Proof.
  intros Hu [Hm Hp]. unfold Simple.handleRequestAs.
  rewrite SimpleFacts.routes_programmes by done.
  unfold Simple.programmesRoute. rewrite Hp, Hu, Hm.
  by repeat case_decide.
Qed.

Lemma listOf_unshift {A} (m : gmap string (list A)) u (x : A) :
  listOf (unshift m u x) u = x :: listOf m u.
Proof. unfold unshift. apply listOf_insert. Qed.

Lemma omap_cons_Some {A B} (f : A → option B) x y (l : list A) :
  f x = Some y → omap f (x :: l) = y :: omap f l.
Proof. intros H. cbn. by rewrite H. Qed.

Lemma omap_cons_None {A B} (f : A → option B) x (l : list A) :
  f x = None → omap f (x :: l) = omap f l.
Proof. intros H. cbn. by rewrite H. Qed.

Lemma simple_creates_listed resolve u steps s :
  Forall (λ st, Simple.userOf resolve st.2 = Some u ∧ postsProgramme st.2)
         steps →
  listOf (programmes (Simple.serve resolve steps s).2) u
  = (reverse (omap createdProgramme (Simple.serve resolve steps s).1)
       ++ listOf (programmes s) u)%list.
Proof.
  intros Hsteps. revert s.
  induction Hsteps as [|[w req] steps [Hu Hpost] _ IH]; intros s; [done|].
  cbn [Simple.serve fst snd].
  rewrite (simple_post_programme _ _ _ _ u) by done.
  destruct (Simple.destructured _ _) as [b|e]; cbn [response store].
  - rewrite (omap_cons_Some _ _ (Simple.newProgramme w b)) by reflexivity.
    rewrite IH. cbn [programmes].
    by rewrite listOf_unshift, reverse_cons, <- app_assoc.
  - rewrite omap_cons_None by reflexivity. apply IH.
Qed.

Lemma express_post_programme u w req s :
  Express.handler Express.PostProgrammes u w req s =
    match Express.destructured "name" (Express.body req) with
    | Return b =>
        mkReply (Express.json_ 201 (OfProgramme (Express.newProgramme w b)))
                (mkStore (unshift (programmes s) u (Express.newProgramme w b))
                         (scripts s)) []
    | Throw message => Express.rejected message s
    end.
Proof. unfold Express.handler. by destruct (Express.destructured _ _). Qed.

Lemma express_creates_listed u steps s :
  Forall (λ st : Express.Route * World * Express.Request,
            st.1.1 = Express.PostProgrammes) steps →
  listOf (programmes (Express.serve u steps s).2) u
  = (reverse (omap createdProgramme (Express.serve u steps s).1)
       ++ listOf (programmes s) u)%list.
Proof.
  intros Hsteps. revert s.
  induction Hsteps as [|[[route w] req] steps Hroute _ IH]; intros s; [done|].
  simpl in Hroute. subst route.
  cbn [Express.serve fst snd]. rewrite express_post_programme.
  destruct (Express.destructured _ _) as [b|e]; cbn [response store].
  - rewrite (omap_cons_Some _ _ (Express.newProgramme w b)) by reflexivity.
    rewrite IH. cbn [programmes].
    by rewrite listOf_unshift, reverse_cons, <- app_assoc.
  - unfold Express.rejected at 1 2. cbn [response store].
    rewrite omap_cons_None by reflexivity. apply IH.
Qed.





(** ** Generated ids *)

Lemma append_nil (b : string) : "" ++ b = b.
Proof. reflexivity. Qed.

Lemma append_cons (c : ascii) (a b : string) :
  String c a ++ b = String c (a ++ b).
Proof. reflexivity. Qed.

Lemma append_nil_r (a : string) : a ++ "" = a.
Proof. induction a as [|x a IH]; [done|]. by rewrite append_cons, IH. Qed.

Lemma string_app_assoc (a b c : string) : (a ++ b) ++ c = a ++ (b ++ c).
Proof.
  induction a as [|x a IH]; [done|]. by rewrite !append_cons, IH.
Qed.

Lemma allDigits_app (a b : string) :
  allDigits a = true → allDigits b = true → allDigits (a ++ b) = true.
Proof.
  induction a as [|x a IH]; [done|]. rewrite append_cons. simpl.
  intros [Hx Ha]%andb_prop Hb. rewrite Hx. simpl. by apply IH.
Qed.

Lemma pretty_N_char_digit (x : N) : isDigit (pretty_N_char x) = true.
Proof. unfold pretty_N_char. by repeat case_match. Qed.

Lemma pretty_N_go_digits (x : N) (s : string) :
  ∃ d, pretty_N_go x s = d ++ s ∧ allDigits d = true
       ∧ ((0 < x)%N → d ≠ "").
Proof.
  revert s. induction (N.lt_wf_0 x) as [x _ IH]; intros s.
  destruct (decide (x = 0%N)) as [->|Hx].
  - exists "". rewrite pretty_N_go_0. split; [done|]. split; [done|]. lia.
  - rewrite pretty_N_go_step by lia.
    destruct (IH (x `div` 10)%N) with
      (s := String (pretty_N_char (x `mod` 10)) s) as (d & -> & Hd & _).
    { apply N.div_lt; lia. }
    exists (d ++ String (pretty_N_char (x `mod` 10)) "").
    split; [|split].
    + by rewrite string_app_assoc.
    + apply allDigits_app; [done|]. simpl.
      by rewrite pretty_N_char_digit.
    + intros _. by destruct d.
Qed.

Lemma pretty_N_digits (x : N) :
  allDigits (pretty x) = true ∧ pretty x ≠ "".
Proof.
  unfold pretty, pretty_N. case_decide as Hx; [done|].
  destruct (pretty_N_go_digits x "") as (d & -> & Hd & Hne).
  rewrite append_nil_r. split; [done|]. apply Hne. lia.
Qed.

(** A printed integer is a non-empty run of digits, after a minus sign when
    it is negative. *)
Lemma pretty_Z_shape (n : Z) :
  ∃ d, allDigits d = true ∧ d ≠ ""
       ∧ (pretty n = d ∨ pretty n = String "-" d).
Proof.
  destruct n as [|p|p]; unfold pretty, pretty_Z.
  - exists "0". eauto.
  - exists (pretty (Npos p)). destruct (pretty_N_digits (Npos p)). eauto.
  - exists (pretty (Npos p)). destruct (pretty_N_digits (Npos p)). eauto.
Qed.

Lemma digits_dash_split (d1 d2 r1 r2 : string) :
  allDigits d1 = true → allDigits d2 = true →
  d1 ++ String "-" r1 = d2 ++ String "-" r2 → d1 = d2 ∧ r1 = r2.
Proof.
  revert d2. induction d1 as [|c d1 IH]; intros [|c' d2];
    rewrite ?append_nil, ?append_cons; simpl.
  - intros _ _. by injection 1.
  - intros _ [Hc _]%andb_prop. injection 1 as <- _. done.
  - intros [Hc _]%andb_prop _. injection 1 as -> _. done.
  - intros [_ H1]%andb_prop [_ H2]%andb_prop. injection 1 as -> Heq.
    destruct (IH d2 H1 H2 Heq) as [-> ->]. done.
Qed.

Lemma pretty_dash_inj (n1 n2 : Z) (r1 r2 : string) :
  pretty n1 ++ String "-" r1 = pretty n2 ++ String "-" r2 →
  n1 = n2 ∧ r1 = r2.
Proof.
  intros Heq.
  destruct (pretty_Z_shape n1) as (d1 & Hd1 & Hne1 & Hs1).
  destruct (pretty_Z_shape n2) as (d2 & Hd2 & Hne2 & Hs2).
  assert (pretty n1 = pretty n2 ∧ r1 = r2) as [Hp ->].
  { destruct Hs1 as [E1|E1], Hs2 as [E2|E2]; rewrite E1, E2 in *.
    - by destruct (digits_dash_split _ _ _ _ Hd1 Hd2 Heq) as [-> ->].
    - destruct d1 as [|c d1]; [done|]. rewrite !append_cons in Heq.
      simpl in Hd1. apply andb_prop in Hd1 as [Hc _].
      by injection Heq as -> _.
    - destruct d2 as [|c d2]; [done|]. rewrite !append_cons in Heq.
      simpl in Hd2. apply andb_prop in Hd2 as [Hc _].
      by injection Heq as <- _.
    - rewrite !append_cons in Heq. injection Heq as Heq.
      by destruct (digits_dash_split _ _ _ _ Hd1 Hd2 Heq) as [-> ->]. }
  split; [|done]. by apply (inj pretty).
Qed.

(** Two generated ids with the same prefix coincide exactly when the clock
    value and the random suffix they were built from coincide. *)
Lemma generateId_inj (w1 w2 : World) (prefix : string) :
  generateId w1 prefix = generateId w2 prefix ↔ draw w1 = draw w2.
Proof.
  unfold generateId, draw. split.
  - intros Heq. apply (inj (String.app prefix)) in Heq.
    rewrite ?append_cons, ?append_nil in Heq. injection Heq as Heq.
    apply pretty_dash_inj in Heq as [-> ->]. done.
  - by intros [= -> ->].
Qed.

Lemma NoDup_fmap_through {A B C} (f : A → B) (h : A → C) (l : list A) :
  (∀ x y, f x = f y → h x = h y) → NoDup (h <$> l) → NoDup (f <$> l).
Proof.
  intros Hfh. induction l as [|a l IH]; csimpl; [constructor|].
  rewrite !NoDup_cons. intros [Hnot Hl]. split; [|by apply IH].
  rewrite list_elem_of_fmap. intros (y & Hy & Hin). apply Hnot.
  rewrite list_elem_of_fmap. exists y. split; [by apply Hfh|done].
Qed.

Lemma simple_created_ids resolve u steps s :
  Forall (λ st, Simple.userOf resolve st.2 = Some u ∧ postsProgramme st.2)
         steps →
  createdIds (Simple.serve resolve steps s).1
  `sublist_of` (λ st, generateId st.1 "programme") <$> steps.
Proof.
  intros Hsteps. revert s. unfold createdIds.
  induction Hsteps as [|[w req] steps [Hu Hpost] _ IH]; intros s; [done|].
  cbn [Simple.serve fst snd].
  rewrite (simple_post_programme _ _ _ _ u) by done.
  destruct (Simple.destructured _ _) as [b|e]; cbn [response store].
  - rewrite (omap_cons_Some _ _ (Simple.newProgramme w b)) by reflexivity.
    csimpl. apply sublist_skip, IH.
  - rewrite omap_cons_None by reflexivity. csimpl. apply sublist_cons, IH.
Qed.

Lemma express_created_ids u steps s :
  Forall (λ st : Express.Route * World * Express.Request,
            st.1.1 = Express.PostProgrammes) steps →
  createdIds (Express.serve u steps s).1
  `sublist_of` (λ st, generateId st.1.2 "programme") <$> steps.
Proof.
  intros Hsteps. revert s. unfold createdIds.
  induction Hsteps as [|[[route w] req] steps Hroute _ IH]; intros s; [done|].
  simpl in Hroute. subst route.
  cbn [Express.serve fst snd]. rewrite express_post_programme.
  destruct (Express.destructured _ _) as [b|e]; cbn [response store].
  - rewrite (omap_cons_Some _ _ (Express.newProgramme w b)) by reflexivity.
    csimpl. apply sublist_skip, IH.
  - unfold Express.rejected at 1 2. cbn [response store].
    rewrite omap_cons_None by reflexivity. csimpl. apply sublist_cons, IH.
Qed.

(** The claim of C8 fails: two creates served with the same clock value and
    the same random draw return the same id. *)
Lemma same_draw_same_id :
  let w := Sample.bare 1700000000000 "0.4fzyo82mvyr" in
  createdIds (Simple.serve Simple.getUserId
                [(w, Sample.postProgramme "t" "first");
                 (w, Sample.postProgramme "t" "second")] initial).1
  = ["programme-1700000000000-4fzyo82mv";
     "programme-1700000000000-4fzyo82mv"].
Proof. by vm_compute. Qed.

(** C8, amended.  The ids of two created programmes coincide exactly when
    the two creates read the same clock value and drew the same random
    suffix; there is no other check.  Hence, in a run of creates of one user
    whose (clock value, suffix) pairs are pairwise distinct, the returned
    ids are pairwise distinct, and so are the ids in the user's sequence
    when it was empty before the run.  Both servers. *)
Theorem created_ids_distinct (u : string) (s : Store) :
  (∀ w1 w2 b1 b2,
      (Programme.id (Simple.newProgramme w1 b1)
       = Programme.id (Simple.newProgramme w2 b2) ↔ draw w1 = draw w2)
      ∧ (Programme.id (Express.newProgramme w1 b1)
         = Programme.id (Express.newProgramme w2 b2) ↔ draw w1 = draw w2))
  ∧ (∀ resolve steps,
        Forall (λ st, Simple.userOf resolve st.2 = Some u ∧ postsProgramme st.2)
               steps →
        NoDup ((λ st, draw st.1) <$> steps) →
        let run := Simple.serve resolve steps s in
        NoDup (createdIds run.1)
        ∧ (listOf (programmes s) u = [] →
           NoDup (Programme.id <$> listOf (programmes run.2) u)))
  ∧ (∀ steps,
        Forall (λ st : Express.Route * World * Express.Request,
                  st.1.1 = Express.PostProgrammes) steps →
        NoDup ((λ st, draw st.1.2) <$> steps) →
        let run := Express.serve u steps s in
        NoDup (createdIds run.1)
        ∧ (listOf (programmes s) u = [] →
           NoDup (Programme.id <$> listOf (programmes run.2) u))).
Proof.
  split; [|split].
  - intros w1 w2 b1 b2. split; apply generateId_inj.
  - intros resolve steps Hsteps Hdraws. cbv zeta.
    assert (NoDup (createdIds (Simple.serve resolve steps s).1)) as Hids.
    { eapply sublist_NoDup; [|by eapply simple_created_ids].
      eapply NoDup_fmap_through; [|exact Hdraws].
      intros x y. apply generateId_inj. }
    split; [done|]. intros Hempty.
    rewrite (simple_creates_listed _ u), Hempty, app_nil_r, fmap_reverse by done.
    by rewrite reverse_Permutation.
  - intros steps Hsteps Hdraws. cbv zeta.
    assert (NoDup (createdIds (Express.serve u steps s).1)) as Hids.
    { eapply sublist_NoDup; [|by eapply express_created_ids].
      eapply NoDup_fmap_through; [|exact Hdraws].
      intros x y. apply generateId_inj. }
    split; [done|]. intros Hempty.
    rewrite (express_creates_listed u steps s Hsteps).
    rewrite Hempty, app_nil_r, fmap_reverse. by rewrite reverse_Permutation.
Qed.

(** ** Isolation between users *)

Lemma agreeOn_refl u s : agreeOn u s s.
Proof. by split. Qed.

Lemma agreeOn_trans u s1 s2 s3 :
  agreeOn u s1 s2 → agreeOn u s2 s3 → agreeOn u s1 s3.
Proof. intros [??] [??]. split; congruence. Qed.

Lemma touchesOnly_refl A s : touchesOnly A s s.
Proof. intros B _. apply agreeOn_refl. Qed.

Lemma touchesOnly_programmes A s l :
  touchesOnly A s (mkStore (<[A := l]> (programmes s)) (scripts s)).
Proof. intros B HAB. split; cbn; by rewrite ?lookup_insert_ne. Qed.

Lemma touchesOnly_scripts A s l :
  touchesOnly A s (mkStore (programmes s) (<[A := l]> (scripts s))).
Proof. intros B HAB. split; cbn; by rewrite ?lookup_insert_ne. Qed.

Lemma programmesRoute_only resolve w req s A r :
  Simple.userOf resolve req = Some A →
  Simple.programmesRoute resolve w req s = Some r → routedOnly A s r.
Proof.
  intros Hu. unfold Simple.programmesRoute. rewrite Hu.
  repeat case_decide; try done; intros [= <-]; unfold routedOnly.
  - apply touchesOnly_refl.
  - destruct (Simple.destructured _ _); [|done].
    apply touchesOnly_programmes.
Qed.

Lemma programmeRoute_only resolve w req s A r :
  Simple.userOf resolve req = Some A →
  Simple.programmeRoute resolve w req s = Some r → routedOnly A s r.
Proof.
  intros Hu. unfold Simple.programmeRoute. rewrite Hu.
  destruct (startsWith _ _); [|done].
  destruct (findIndex _ _ _) as [[i x]|].
  - repeat case_decide; try done; intros [= <-]; unfold routedOnly.
    + destruct (Simple.destructured _ _); [|done]. apply touchesOnly_programmes.
    + apply touchesOnly_programmes.
  - intros [= <-]. apply touchesOnly_refl.
Qed.

Lemma scriptsRoute_only resolve w req s A r :
  Simple.userOf resolve req = Some A →
  Simple.scriptsRoute resolve w req s = Some r → routedOnly A s r.
Proof.
  intros Hu. unfold Simple.scriptsRoute. rewrite Hu.
  repeat case_decide; try done; intros [= <-]; unfold routedOnly.
  - apply touchesOnly_refl.
  - destruct (Simple.destructured _ _); [|done].
    apply touchesOnly_scripts.
Qed.

Lemma scriptRoute_only resolve w req s A r :
  Simple.userOf resolve req = Some A →
  Simple.scriptRoute resolve w req s = Some r → routedOnly A s r.
Proof.
  intros Hu. unfold Simple.scriptRoute. rewrite Hu.
  destruct (startsWith _ _); [|done].
  destruct (findIndex _ _ _) as [[i x]|].
  - repeat case_decide; try done; intros [= <-]; unfold routedOnly.
    + destruct (Simple.destructured _ _); [|done]. apply touchesOnly_scripts.
    + apply touchesOnly_scripts.
  - intros [= <-]. apply touchesOnly_refl.
Qed.

Lemma generate_keeps_store resolve w req s :
  match (Simple.generate resolve w req s).2 with
  | Return (_, s') => s' = s
  | Throw _ => True
  end.
Proof.
  unfold Simple.generate, Simple.forwarded, Simple.done, Simple.thrown.
  repeat case_match; simplify_eq/=; done.
Qed.

Lemma routes_only resolve w req s A :
  Simple.userOf resolve req = Some A →
  routedOnly A s (Simple.routes resolve w req s).
Proof.
  intros Hu. unfold Simple.routes.
  case_decide; [apply touchesOnly_refl|].
  case_decide.
  { unfold routedOnly. pose proof (generate_keeps_store resolve w req s) as H'.
    destruct (Simple.generate _ _ _ _).2 as [[??]|]; [|done].
    subst. apply touchesOnly_refl. }
  destruct (Simple.programmesRoute _ _ _ _) eqn:E1;
    [by eapply programmesRoute_only|].
  destruct (Simple.programmeRoute _ _ _ _) eqn:E2;
    [by eapply programmeRoute_only|].
  destruct (Simple.scriptsRoute _ _ _ _) eqn:E3;
    [by eapply scriptsRoute_only|].
  destruct (Simple.scriptRoute _ _ _ _) eqn:E4;
    [by eapply scriptRoute_only|].
  apply touchesOnly_refl.
Qed.

Lemma simple_step_isolated resolve w req s A :
  Simple.userOf resolve req = Some A →
  touchesOnly A s (store (Simple.handleRequestAs resolve w req s)).
Proof.
  intros Hu. unfold Simple.handleRequestAs.
  case_decide; [apply touchesOnly_refl|].
  pose proof (routes_only resolve w req s A Hu) as H'. unfold routedOnly in H'.
  destruct (Simple.routes _ _ _ _) as [events [[r s']|e]]; cbn in *.
  - done.
  - apply touchesOnly_refl.
Qed.

Lemma agreeOn_programmes A s1 s2 l :
  agreeOn A s1 s2 →
  agreeOn A (mkStore (<[A := l]> (programmes s1)) (scripts s1))
            (mkStore (<[A := l]> (programmes s2)) (scripts s2)).
Proof. intros [??]. split; cbn; by rewrite ?lookup_insert_eq. Qed.

Lemma agreeOn_scripts A s1 s2 l :
  agreeOn A s1 s2 →
  agreeOn A (mkStore (programmes s1) (<[A := l]> (scripts s1)))
            (mkStore (programmes s2) (<[A := l]> (scripts s2))).
Proof. intros [??]. split; cbn; by rewrite ?lookup_insert_eq. Qed.

Ltac same_routed :=
  try done;
  try (split; [done|]; try done; split; [done|];
       first [by apply agreeOn_programmes | by apply agreeOn_scripts | done]).

Lemma programmesRoute_same resolve w req s1 s2 A :
  Simple.userOf resolve req = Some A → agreeOn A s1 s2 →
  sameRoute A (Simple.programmesRoute resolve w req s1)
              (Simple.programmesRoute resolve w req s2).
Proof.
  intros Hu Hs. pose proof Hs as [Hp _].
  unfold Simple.programmesRoute, unshift. rewrite Hu.
  rewrite (listOf_lookup _ _ _ Hp).
  repeat case_decide; same_routed.
  destruct (Simple.destructured _ _); same_routed.
Qed.

Lemma programmeRoute_same resolve w req s1 s2 A :
  Simple.userOf resolve req = Some A → agreeOn A s1 s2 →
  sameRoute A (Simple.programmeRoute resolve w req s1)
              (Simple.programmeRoute resolve w req s2).
Proof.
  intros Hu Hs. pose proof Hs as [Hp _].
  unfold Simple.programmeRoute. rewrite Hu.
  rewrite (listOf_lookup _ _ _ Hp).
  destruct (startsWith _ _); [|done].
  destruct (findIndex _ _ _) as [[i x]|]; same_routed.
  repeat case_decide; same_routed.
  destruct (Simple.destructured _ _); same_routed.
Qed.

Lemma scriptsRoute_same resolve w req s1 s2 A :
  Simple.userOf resolve req = Some A → agreeOn A s1 s2 →
  sameRoute A (Simple.scriptsRoute resolve w req s1)
              (Simple.scriptsRoute resolve w req s2).
Proof.
  intros Hu Hs. pose proof Hs as [_ Hp].
  unfold Simple.scriptsRoute, unshift. rewrite Hu.
  rewrite (listOf_lookup _ _ _ Hp).
  repeat case_decide; same_routed.
  destruct (Simple.destructured _ _); same_routed.
Qed.

Lemma scriptRoute_same resolve w req s1 s2 A :
  Simple.userOf resolve req = Some A → agreeOn A s1 s2 →
  sameRoute A (Simple.scriptRoute resolve w req s1)
              (Simple.scriptRoute resolve w req s2).
Proof.
  intros Hu Hs. pose proof Hs as [_ Hp].
  unfold Simple.scriptRoute. rewrite Hu.
  rewrite (listOf_lookup _ _ _ Hp).
  destruct (startsWith _ _); [|done].
  destruct (findIndex _ _ _) as [[i x]|]; same_routed.
  repeat case_decide; same_routed.
  destruct (Simple.destructured _ _); same_routed.
Qed.

Lemma generate_same resolve w req s1 s2 A :
  agreeOn A s1 s2 →
  sameRouted A (Simple.generate resolve w req s1)
               (Simple.generate resolve w req s2).
Proof.
  intros Hs.
  unfold Simple.generate, Simple.forwarded, Simple.done, Simple.thrown.
  repeat case_match; simplify_eq/=; same_routed.
Qed.

Lemma routes_same resolve w req s1 s2 A :
  Simple.userOf resolve req = Some A → agreeOn A s1 s2 →
  sameRouted A (Simple.routes resolve w req s1)
               (Simple.routes resolve w req s2).
Proof.
  intros Hu Hs. unfold Simple.routes.
  case_decide; [same_routed|].
  case_decide; [by apply generate_same|].
  pose proof (programmesRoute_same resolve w req s1 s2 A Hu Hs) as H1.
  pose proof (programmeRoute_same resolve w req s1 s2 A Hu Hs) as H2.
  pose proof (scriptsRoute_same resolve w req s1 s2 A Hu Hs) as H3.
  pose proof (scriptRoute_same resolve w req s1 s2 A Hu Hs) as H4.
  unfold sameRoute in *.
  repeat case_match; same_routed.
Qed.

Lemma simple_step_independent resolve w req s1 s2 A :
  Simple.userOf resolve req = Some A → agreeOn A s1 s2 →
  let r1 := Simple.handleRequestAs resolve w req s1 in
  let r2 := Simple.handleRequestAs resolve w req s2 in
  response r1 = response r2 ∧ trace r1 = trace r2
  ∧ agreeOn A (store r1) (store r2).
Proof.
  intros Hu Hs. cbv zeta. unfold Simple.handleRequestAs.
  case_decide; [done|].
  destruct (routes_same resolve w req s1 s2 A Hu Hs) as [Hev Hout].
  destruct (Simple.routes resolve w req s1) as [ev1 [[r1 t1]|e1]],
           (Simple.routes resolve w req s2) as [ev2 [[r2 t2]|e2]];
    cbn in *; try done.
  - by destruct Hout as [-> ?].
  - by subst.
Qed.

Lemma express_generate_keeps_store w req s :
  store (Express.generate w req s) = s.
Proof.
  unfold Express.generate, Express.forwarded. by repeat case_match.
Qed.

Lemma express_step_isolated route A w req s :
  touchesOnly A s (store (Express.handler route A w req s)).
Proof.
  destruct route; unfold Express.handler, Express.quiet, unshift;
    rewrite ?express_generate_keeps_store;
    repeat case_match; cbn [store];
    first [apply touchesOnly_refl | apply touchesOnly_programmes
          | apply touchesOnly_scripts].
Qed.

Lemma express_step_independent route A w req s1 s2 :
  agreeOn A s1 s2 →
  let r1 := Express.handler route A w req s1 in
  let r2 := Express.handler route A w req s2 in
  response r1 = response r2 ∧ trace r1 = trace r2
  ∧ agreeOn A (store r1) (store r2).
Proof.
  intros Hs. pose proof Hs as [Hp Hq]. cbv zeta.
  destruct route; unfold Express.handler, Express.quiet, unshift;
    rewrite ?(listOf_lookup _ _ _ Hp), ?(listOf_lookup _ _ _ Hq);
    try (unfold Express.generate, Express.forwarded);
    repeat case_match; cbn [response trace store];
    (split; [done|]); (split; [done|]);
    first [done | by apply agreeOn_programmes | by apply agreeOn_scripts].
Qed.

Lemma simple_run_isolated resolve A steps s :
  Forall (λ st, Simple.userOf resolve st.2 = Some A) steps →
  touchesOnly A s (Simple.serve resolve steps s).2.
Proof.
  intros Hsteps. revert s.
  induction Hsteps as [|[w req] steps Hu _ IH]; intros s.
  - apply touchesOnly_refl.
  - cbn [Simple.serve snd]. intros B HAB.
    eapply agreeOn_trans; [by apply IH|].
    by apply (simple_step_isolated resolve w req s A Hu).
Qed.

Lemma simple_run_independent resolve A steps s1 s2 :
  Forall (λ st, Simple.userOf resolve st.2 = Some A) steps →
  agreeOn A s1 s2 →
  (Simple.serve resolve steps s1).1 = (Simple.serve resolve steps s2).1
  ∧ agreeOn A (Simple.serve resolve steps s1).2
              (Simple.serve resolve steps s2).2.
Proof.
  intros Hsteps. revert s1 s2.
  induction Hsteps as [|[w req] steps Hu _ IH]; intros s1 s2 Hs; [done|].
  cbn [Simple.serve fst snd].
  destruct (simple_step_independent resolve w req s1 s2 A Hu Hs)
    as (Hr & _ & Hs').
  destruct (IH _ _ Hs') as [Hrs Hfinal].
  split; [|done]. by rewrite Hr, Hrs.
Qed.

Lemma express_run_isolated A steps s :
  touchesOnly A s (Express.serve A steps s).2.
Proof.
  revert s. induction steps as [|[[route w] req] steps IH]; intros s.
  - apply touchesOnly_refl.
  - cbn [Express.serve snd]. intros B HAB.
    eapply agreeOn_trans; [by apply IH|].
    by apply (express_step_isolated route A w req s).
Qed.

Lemma express_run_independent A steps s1 s2 :
  agreeOn A s1 s2 →
  (Express.serve A steps s1).1 = (Express.serve A steps s2).1
  ∧ agreeOn A (Express.serve A steps s1).2 (Express.serve A steps s2).2.
Proof.
  revert s1 s2.
  induction steps as [|[[route w] req] steps IH]; intros s1 s2 Hs; [done|].
  cbn [Express.serve fst snd].
  destruct (express_step_independent route A w req s1 s2 Hs)
    as (Hr & _ & Hs').
  destruct (IH _ _ Hs') as [Hrs Hfinal].
  split; [|done]. by rewrite Hr, Hrs.
Qed.

(** C1.  Isolation between users.  For distinct identities A and B and any
    run of requests served as A, from any store: the part of the store that
    belongs to B is the same after the run as before it; the responses of
    the run are determined by A's own part of the store, so they carry
    nothing of B's records; and every request of B, its listing included, is
    answered after the run exactly as it would have been answered before it,
    so a programme created by A is not in B's list.  Both servers. *)
Theorem cross_user_isolation (A B : string) :
  A ≠ B →
  (∀ resolve steps s,
      Forall (λ st, Simple.userOf resolve st.2 = Some A) steps →
      let run := Simple.serve resolve steps s in
      agreeOn B run.2 s
      ∧ (∀ s', agreeOn A s' s → (Simple.serve resolve steps s').1 = run.1)
      ∧ (∀ w req,
            Simple.userOf resolve req = Some B →
            response (Simple.handleRequestAs resolve w req run.2)
            = response (Simple.handleRequestAs resolve w req s)))
  ∧ (∀ steps s,
        let run := Express.serve A steps s in
        agreeOn B run.2 s
        ∧ (∀ s', agreeOn A s' s → (Express.serve A steps s').1 = run.1)
        ∧ (∀ route w req,
              response (Express.handler route B w req run.2)
              = response (Express.handler route B w req s))).
Proof.
  intros HAB. split.
  - intros resolve steps s Hsteps. cbv zeta.
    assert (agreeOn B (Simple.serve resolve steps s).2 s) as HB
      by by apply (simple_run_isolated resolve A).
    split; [done|]. split.
    + intros s' Hs'. by apply (simple_run_independent resolve A).
    + intros w req Hu. by apply (simple_step_independent resolve w req _ _ B).
  - intros steps s. cbv zeta.
    assert (agreeOn B (Express.serve A steps s).2 s) as HB
      by by apply (express_run_isolated A).
    split; [done|]. split.
    + intros s' Hs'. by apply express_run_independent.
    + intros route w req. by apply express_step_independent.
Qed.

Lemma cross_user_isolation_witness :
  let steps := [(Sample.bare 7 "0.abc", Sample.postProgramme "alice" "noir");
                (Sample.bare 8 "0.abd",
                 Sample.deleteProgramme "alice" "programme-7-abc")] in
  let run := Simple.serve Sample.byToken steps Sample.stocked in
  agreeOn "bob" run.2 Sample.stocked
  ∧ (∀ s', agreeOn "alice" s' Sample.stocked →
           (Simple.serve Sample.byToken steps s').1 = run.1)
  ∧ (∀ w req,
        Simple.userOf Sample.byToken req = Some "bob" →
        response (Simple.handleRequestAs Sample.byToken w req run.2)
        = response (Simple.handleRequestAs Sample.byToken w req
                      Sample.stocked)).
Proof.
  apply (proj1 (cross_user_isolation "alice" "bob" ltac:(discriminate))
               Sample.byToken).
  repeat constructor.
Defined.


Lemma created_ids_distinct_witness :
  let steps := [(Sample.bare 7 "0.abc", Sample.postProgramme "t" "noir");
                (Sample.bare 7 "0.abd", Sample.postProgramme "t" "quiz")] in
  let run := Simple.serve Simple.getUserId steps initial in
  NoDup (createdIds run.1)
  ∧ (listOf (programmes initial) "demo-user" = [] →
     NoDup (Programme.id <$> listOf (programmes run.2) "demo-user")).
Proof.
  apply (proj1 (proj2 (created_ids_distinct "demo-user" initial))
               Simple.getUserId).
  - repeat constructor.
  - apply (bool_decide_unpack _). vm_compute. exact I.
Defined.

(** * Further properties of the code *)

Example splitLines_mixed :
  splitLines (String "a" (String "013" (String "010" (String "b" (String "010" (String "013" "c"))))))
  = ["a"; "b"; String "013" "c"].
Proof. reflexivity. Qed.

Example parseLine_spaced : parseLine "  KEY = some value  " = Some ("KEY", "some value").
Proof. by vm_compute. Qed.
Example parseLine_comment : parseLine "# KEY=1" = None.
Proof. by vm_compute. Qed.
Example parseLine_two : parseLine "A=b=c" = Some ("A", "b=c").
Proof. by vm_compute. Qed.

(** A byte order mark at the start of the file and a no-break space after a
    value are white space to [trim]. *)
Example parseLine_byte_order_mark :
  parseLine (String "239" (String "187" (String "191" "KEY=v")))
  = Some ("KEY", "v").
Proof. by vm_compute. Qed.
Example parseLine_no_break_space :
  parseLine ("KEY=v" ++ String "194" (String "160" "")) = Some ("KEY", "v").
Proof. by vm_compute. Qed.
Example trim_keeps_inner_space :
  trim (" a" ++ String "194" (String "160" "b") ++ String "009" "")
  = "a" ++ String "194" (String "160" "b").
Proof. by vm_compute. Qed.

(** A line that starts with the equals sign defines nothing. *)
Example loadDotEnv_empty_name :
  loadDotEnv (Some (Return ("=1" ++ Cases.nl ++ "A=2"))) ∅ = {[ "A" := "2" ]}.
Proof. by vm_compute. Qed.

(** ** Loading [.env] *)

Lemma load_lines_lookup (lines : list string) (env : gmap string string)
      (key : string) :
  foldl (λ env line, match parseLine line with
                     | None => env
                     | Some kv => assignMissing env kv
                     end) env lines !! key
  = match env !! key with
    | Some v => Some v
    | None => if decide (key = "") then None else firstDefinition key lines
    end.
Proof.
  revert env. induction lines as [|line lines IH]; intros env; simpl.
  - destruct (env !! key); [done|]. by case_decide.
  - rewrite IH. destruct (parseLine line) as [[k v]|]; [|done].
    unfold assignMissing. simpl.
    destruct (env !! k) eqn:Hk.
    + destruct (decide (k = key)) as [->|]; [by rewrite Hk|done].
    + destruct (decide (k = "")) as [->|Hne].
      * destruct (decide ("" = key)) as [<-|]; [|done].
        by rewrite Hk.
      * destruct (decide (k = key)) as [->|].
        -- rewrite lookup_insert_eq, Hk. by rewrite decide_False.
        -- by rewrite lookup_insert_ne.
Qed.

(** X1.  After [loadDotEnv], a variable that the environment already had
    keeps its value whatever the file says; a variable it did not have gets
    the value of the first line of the file that defines it, name and value
    trimmed of white space; a variable defined by neither is still absent,
    and so is the variable with the empty name, which a line that starts
    with the equals sign would define. *)
Theorem loadDotEnv_lookup (text : string) (env : gmap string string)
        (key : string) :
  loadDotEnv (Some (Return text)) env !! key
  = match env !! key with
    | Some v => Some v
    | None => if decide (key = "") then None
              else firstDefinition key (splitLines text)
    end.
Proof. apply load_lines_lookup. Qed.

(** X2.  Loading the same file a second time changes nothing. *)
Theorem loadDotEnv_idempotent (file : option (Outcome string))
        (env : gmap string string) :
  loadDotEnv file (loadDotEnv file env) = loadDotEnv file env.
Proof.
  destruct file as [[text|e]|]; try done.
  apply map_eq. intros key. unfold loadDotEnv.
  rewrite !load_lines_lookup.
  destruct (env !! key); [done|]. case_decide; [done|].
  by destruct (firstDefinition key (splitLines text)).
Qed.

Lemma splitLines_cons_plain (c : ascii) (rest : string) :
  Ascii.eqb c "010" = false → Ascii.eqb c "013" = false →
  splitLines (String c rest)
  = match splitLines rest with
    | line :: lines => String c line :: lines
    | [] => [String c EmptyString]
    end.
Proof.
  intros Hn Hr. simpl. rewrite Hn, Hr. by destruct rest.
Qed.

Lemma splitLines_crlf (text : string) :
  hasChar "013" text = false → splitLines (crlf text) = splitLines text.
Proof.
  induction text as [|c rest IH]; [done|]. simpl hasChar.
  intros [Hc Hrest]%orb_false_elim. specialize (IH Hrest).
  destruct (Ascii.eqb c "010") eqn:Hn.
  - apply Ascii.eqb_eq in Hn as ->. simpl. by rewrite IH.
  - assert (crlf (String c rest) = String c (crlf rest)) as ->
      by (simpl; by rewrite Hn).
    rewrite !splitLines_cons_plain by done. by rewrite IH.
Qed.

(** X3.  A file saved with CRLF line ends loads like the same file with LF
    line ends. *)
Theorem loadDotEnv_crlf (text : string) (env : gmap string string) :
  hasChar "013" text = false →
  loadDotEnv (Some (Return (crlf text))) env
  = loadDotEnv (Some (Return text)) env.
Proof. intros H. unfold loadDotEnv. by rewrite splitLines_crlf. Qed.

(** ** Every answer of the simple server *)

(** The ways in which the [try] block of [handleRequest] can end. *)
Lemma routes_cases resolve w req s :
  let R := Simple.routes resolve w req s in
  (∃ code obj, R = ([], Return (Simple.sendJson code obj, s)))
  ∨ (∃ e, R = ([], Throw e))
  ∨ (∃ p prompt u,
        Simple.method req = "POST" ∧ Simple.pathname req = "/api/generate"
        ∧ Simple.userOf resolve req = Some u
        ∧ R = Simple.forwarded s (call p w prompt))
  ∨ (∃ u l code obj,
        Simple.userOf resolve req = Some u
        ∧ programmePath (Simple.pathname req)
        ∧ (Simple.method req = "POST" ∨ Simple.method req = "PUT"
           ∨ Simple.method req = "DELETE")
        ∧ R = ([], Return (Simple.sendJson code obj,
                           mkStore (<[u := l]> (programmes s)) (scripts s))))
  ∨ (∃ u l code obj,
        Simple.userOf resolve req = Some u
        ∧ scriptPath (Simple.pathname req)
        ∧ (Simple.method req = "POST" ∨ Simple.method req = "PUT"
           ∨ Simple.method req = "DELETE")
        ∧ R = ([], Return (Simple.sendJson code obj,
                           mkStore (programmes s) (<[u := l]> (scripts s))))).
Proof.
  cbv zeta. unfold Simple.routes.
  case_decide; [left; by eauto|].
  case_decide as Hgen.
  { destruct Hgen as [Hm Hp]. unfold Simple.generate.
    destruct (Simple.userOf resolve req) as [u|] eqn:Hu; [|left; by eauto].
    destruct (Simple.destructured _ _); [|right; left; by eauto].
    destruct (_ || _); [left; by eauto|].
    destruct (negb (stringifiable _)); [right; left; by eauto|].
    destruct (selected _) as [p|]; [|left; by eauto].
    do 2 right. left. by eauto 10. }
  unfold Simple.programmesRoute.
  case_decide as Hp1.
  { destruct (Simple.userOf resolve req) as [u|] eqn:Hu; [|left; by eauto].
    case_decide; [left; by eauto|].
    case_decide.
    - destruct (Simple.destructured _ _); [|right; left; by eauto].
      do 3 right. left. unfold unshift, programmePath. by eauto 12.
    - unfold Simple.programmeRoute, Simple.scriptsRoute, Simple.scriptRoute.
      rewrite Hp1. simpl. repeat case_decide; try done. left. by eauto. }
  unfold Simple.programmeRoute.
  destruct (startsWith (Simple.pathname req) "/api/programmes/") eqn:Hp2.
  { destruct (Simple.userOf resolve req) as [u|] eqn:Hu; [|left; by eauto].
    destruct (findIndex _ _ _) as [[i x]|]; [|left; by eauto].
    case_decide.
    - destruct (Simple.destructured _ _); [|right; left; by eauto].
      do 3 right. left. unfold programmePath. by eauto 12.
    - case_decide.
      + do 3 right. left. unfold programmePath. by eauto 12.
      + apply startsWith_app in Hp2 as [rest Hp2].
        unfold Simple.scriptsRoute, Simple.scriptRoute. rewrite Hp2.
        case_decide; [done|]. simpl. left. by eauto. }
  unfold Simple.scriptsRoute.
  case_decide as Hp3.
  { destruct (Simple.userOf resolve req) as [u|] eqn:Hu; [|left; by eauto].
    case_decide; [left; by eauto|].
    case_decide.
    - destruct (Simple.destructured _ _); [|right; left; by eauto].
      do 4 right. unfold unshift, scriptPath. by eauto 12.
    - unfold Simple.scriptRoute. rewrite Hp3. simpl. left. by eauto. }
  unfold Simple.scriptRoute.
  destruct (startsWith (Simple.pathname req) "/api/scripts/") eqn:Hp4.
  { destruct (Simple.userOf resolve req) as [u|] eqn:Hu; [|left; by eauto].
    destruct (findIndex _ _ _) as [[i x]|]; [|left; by eauto].
    case_decide.
    - destruct (Simple.destructured _ _); [|right; left; by eauto].
      do 4 right. unfold scriptPath. by eauto 12.
    - case_decide.
      + do 4 right. unfold scriptPath. by eauto 12.
      + left. by eauto. }
  left. by eauto.
Qed.

Lemma call_trace (p : Provider) (w : World) (prompt : JsVal) :
  (call p w prompt).1 = [Invoked p prompt]
  ∨ ∃ r, (call p w prompt).1 = [Invoked p prompt; Fetched r].
Proof.
  destruct p; simpl; unfold callGemini, callClaude, callOpenAI;
    destruct (credential w _); simpl; eauto.
Qed.

(** The reply of the simple server in terms of how the [try] block ended. *)
Lemma simple_reply_cases resolve w req s :
  let reply := Simple.handleRequestAs resolve w req s in
  (store reply = s ∧ trace reply = [])
  ∨ (∃ p prompt u,
        Simple.method req = "POST" ∧ Simple.pathname req = "/api/generate"
        ∧ Simple.userOf resolve req = Some u
        ∧ store reply = s ∧ trace reply = (call p w prompt).1)
  ∨ (∃ u l,
        Simple.userOf resolve req = Some u
        ∧ programmePath (Simple.pathname req)
        ∧ (Simple.method req = "POST" ∨ Simple.method req = "PUT"
           ∨ Simple.method req = "DELETE")
        ∧ store reply = mkStore (<[u := l]> (programmes s)) (scripts s)
        ∧ trace reply = [])
  ∨ (∃ u l,
        Simple.userOf resolve req = Some u
        ∧ scriptPath (Simple.pathname req)
        ∧ (Simple.method req = "POST" ∨ Simple.method req = "PUT"
           ∨ Simple.method req = "DELETE")
        ∧ store reply = mkStore (programmes s) (<[u := l]> (scripts s))
        ∧ trace reply = []).
Proof.
  cbv zeta. unfold Simple.handleRequestAs. case_decide; [by left|].
  destruct (routes_cases resolve w req s)
    as [(code & obj & ->)|[(e & ->)|[(p & prompt & u & Hm & Hp & Hu & ->)
       |[(u & l & code & obj & Hu & Hp & Hm & ->)
        |(u & l & code & obj & Hu & Hp & Hm & ->)]]]].
  - by left.
  - by left.
  - right. left. exists p, prompt, u. unfold Simple.forwarded.
    by destruct (call p w prompt) as [events [result|e]].
  - do 2 right. left. by eauto 10.
  - do 3 right. by eauto 10.
Qed.

(** X9.  What a request to the simple server can change.  Only the
    programme routes change the programmes and only the script routes change
    the scripts; a request whose method is not POST, PUT or DELETE, or whose
    caller is not identified, changes nothing; and whatever changes is the
    caller's own sequence. *)
Theorem simple_store_frame resolve w req s :
  let s' := store (Simple.handleRequestAs resolve w req s) in
  (¬ programmePath (Simple.pathname req) → programmes s' = programmes s)
  ∧ (¬ scriptPath (Simple.pathname req) → scripts s' = scripts s)
  ∧ (Simple.method req ≠ "POST" → Simple.method req ≠ "PUT" →
     Simple.method req ≠ "DELETE" → s' = s)
  ∧ (Simple.userOf resolve req = None → s' = s)
  ∧ (∀ u v, Simple.userOf resolve req = Some u → v ≠ u →
            programmes s' !! v = programmes s !! v
            ∧ scripts s' !! v = scripts s !! v).
Proof.
  cbv zeta.
  destruct (simple_reply_cases resolve w req s)
    as [[Hs _]|[(p & prompt & u & _ & _ & _ & Hs & _)
       |[(u & l & Hu & Hp & Hm & Hs & _)|(u & l & Hu & Hp & Hm & Hs & _)]]];
    rewrite Hs; clear Hs.
  - by repeat split.
  - by repeat split.
  - split; [intros Hn; by destruct Hn|].
    split; [done|].
    split; [intros; naive_solver|].
    split; [intros; congruence|].
    intros u' v Hu' Hv. split; [|done]. cbn.
    rewrite lookup_insert_ne; [done|congruence].
  - split; [done|].
    split; [intros Hn; by destruct Hn|].
    split; [intros; naive_solver|].
    split; [intros; congruence|].
    intros u' v Hu' Hv. split; [done|]. cbn.
    rewrite lookup_insert_ne; [done|congruence].
Qed.

(** X10.  Upstream calls of the simple server.  Serving one request issues
    at most one fetch, and a request that reaches a provider helper at all
    is an authenticated POST /api/generate. *)
Theorem simple_upstream_calls resolve w req s :
  let reply := Simple.handleRequestAs resolve w req s in
  (length (fetchesOf (trace reply)) ≤ 1)%nat
  ∧ (trace reply ≠ [] →
     Simple.method req = "POST" ∧ Simple.pathname req = "/api/generate"
     ∧ is_Some (Simple.userOf resolve req)).
Proof.
  cbv zeta.
  destruct (simple_reply_cases resolve w req s)
    as [[_ ->]|[(p & prompt & u & Hm & Hp & Hu & _ & ->)
       |[(u & l & _ & _ & _ & _ & ->)|(u & l & _ & _ & _ & _ & ->)]]];
    try (split; [simpl; lia|done]).
  split; [|by eauto].
  destruct (call_trace p w prompt) as [->|[r ->]]; simpl; lia.
Qed.

(** X5.  Every response of the simple server carries the three CORS
    headers: a preflight (OPTIONS, whatever the path and the headers) is
    answered 204 with exactly these, ended without a chunk and touching
    nothing; every other response has its Content-Type, application/json,
    followed by these three. *)
Theorem simple_cors_headers resolve w req s :
  let reply := Simple.handleRequestAs resolve w req s in
  if decide (Simple.method req = "OPTIONS")
  then reply = mkReply (mkResponse 204 Simple.corsHeaders None) s []
  else headers (response reply)
       = ("Content-Type", "application/json") :: Simple.corsHeaders.
Proof.
  cbv zeta. unfold Simple.handleRequestAs. case_decide; [done|].
  destruct (routes_cases resolve w req s)
    as [(code & obj & ->)|[(e & ->)|[(p & prompt & u & Hm & Hp & Hu & ->)
       |[(u & l & code & obj & Hu & Hp & Hm & ->)
        |(u & l & code & obj & Hu & Hp & Hm & ->)]]]]; try by eauto.
  unfold Simple.forwarded.
  by destruct (call p w prompt) as [events [result|e]].
Qed.

(** ** Who is asking *)

Lemma slice_bearer (rest : string) : slice 7 ("Bearer " ++ rest) = rest.
Proof. reflexivity. Qed.

Lemma startsWith_bearer (rest : string) :
  startsWith ("Bearer " ++ rest) "Bearer " = true.
Proof. by destruct rest. Qed.

Lemma validBearer_spec (header : option string) :
  validBearer header ↔
  startsWith (default "" header) "Bearer " = true
  ∧ slice 7 (default "" header) ≠ "".
Proof.
  split.
  - intros (token & Hne & ->). cbn [from_option id].
    by rewrite startsWith_bearer, slice_bearer.
  - intros [[rest Hrest]%startsWith_app Hne].
    rewrite Hrest, slice_bearer in Hne. exists rest. split; [done|].
    destruct header as [h|]; simpl in Hrest; [by subst|done].
Qed.

Lemma getUserId_spec (req : Simple.Request) :
  (validBearer (Simple.authorization req) →
   Simple.getUserId req = Some "demo-user")
  ∧ (¬ validBearer (Simple.authorization req) → Simple.getUserId req = None).
Proof.
  split; rewrite validBearer_spec.
  - intros [Hs Ht]. unfold Simple.getUserId. rewrite Hs. simpl.
    by case_decide.
  - intros Hnot. unfold Simple.getUserId.
    destruct (startsWith _ _); simpl; [|done].
    case_decide; [done|]. by destruct Hnot.
Qed.

Lemma authenticateUser_spec (req : Express.Request) :
  (validBearer (Express.authorization req) →
   Express.authenticateUser req = inr "demo-user")
  ∧ (¬ validBearer (Express.authorization req) →
     Express.authenticateUser req
     = inl (Express.json_ 401 (errorObj "Missing authorization token"))).
Proof.
  split; rewrite validBearer_spec.
  - intros [Hs Ht]. unfold Express.authenticateUser. rewrite Hs.
    by destruct (slice 7 _).
  - intros Hnot. unfold Express.authenticateUser.
    destruct (startsWith _ _); [|done].
    destruct (slice 7 _) eqn:E; [done|]. by destruct Hnot.
Qed.

(** X7.  The placeholder authentication.  Both servers accept exactly the
    requests whose Authorization header is "Bearer " followed by a non-empty
    token, and give every one of them the identity demo-user.  Any other
    request has no identity on the simple server; on Express the middleware
    answers it 401 and the callback of the route is not run, for every route
    but the health check. *)
Theorem placeholder_authentication :
  (∀ req,
      (validBearer (Simple.authorization req) →
       Simple.getUserId req = Some "demo-user")
      ∧ (¬ validBearer (Simple.authorization req) →
         Simple.getUserId req = None))
  ∧ (∀ req,
        (validBearer (Express.authorization req) →
         Express.authenticateUser req = inr "demo-user")
        ∧ (¬ validBearer (Express.authorization req) →
           Express.authenticateUser req
           = inl (Express.json_ 401 (errorObj "Missing authorization token"))))
  ∧ (∀ route w req s,
        ¬ validBearer (Express.authorization req) →
        route ≠ Express.GetHealth →
        Express.app route w req s
        = mkReply (Express.json_ 401 (errorObj "Missing authorization token"))
                  s []).
Proof.
  split; [|split].
  - apply getUserId_spec.
  - apply authenticateUser_spec.
  - intros route w req s Hnot Hroute. unfold Express.app.
    rewrite (proj2 (authenticateUser_spec req) Hnot).
    by destruct route.
Qed.

(** X6.  A request to a protected route of the simple server whose caller
    is not identified is answered 401, whatever its method (OPTIONS apart)
    and its body; nothing is stored and no provider helper is entered. *)
Theorem simple_unauthenticated resolve w req s :
  Simple.userOf resolve req = None →
  Simple.method req ≠ "OPTIONS" →
  protected req →
  Simple.handleRequestAs resolve w req s
  = mkReply (Simple.sendJson 401
               (errorObj "Missing or invalid authorization token")) s [].
Proof.
  intros Hu Hopt [[Hm Hp]|[[Hp|Hp]|[Hp|Hp]]].
  - rewrite simple_generate_reached by done.
    unfold Simple.generate. by rewrite Hu.
  - unfold Simple.handleRequestAs. case_decide; [done|].
    rewrite SimpleFacts.routes_programmes by done.
    unfold Simple.programmesRoute. rewrite Hu. by case_decide.
  - unfold Simple.handleRequestAs. case_decide; [done|].
    rewrite SimpleFacts.routes_programme by done.
    unfold Simple.programmeRoute. by rewrite Hp, Hu.
  - unfold Simple.handleRequestAs. case_decide; [done|].
    rewrite SimpleFacts.routes_scripts by done.
    unfold Simple.scriptsRoute. rewrite Hu. by case_decide.
  - unfold Simple.handleRequestAs. case_decide; [done|].
    rewrite SimpleFacts.routes_script by done.
    unfold Simple.scriptRoute. by rewrite Hp, Hu.
Qed.

(** X18.  Requests the simple server has no route for.  Outside the
    health check, the generate route and the record routes every request is
    answered 404 "Not found" without being asked for an identity; so is an
    authenticated request to a collection path with a method other than GET
    and POST. *)
Theorem simple_no_route resolve w req s :
  Simple.method req ≠ "OPTIONS" →
  (¬ (Simple.method req = "GET" ∧ Simple.pathname req = "/api/health")
   ∧ ¬ protected req)
  ∨ (is_Some (Simple.userOf resolve req)
     ∧ (Simple.pathname req = "/api/programmes"
        ∨ Simple.pathname req = "/api/scripts")
     ∧ Simple.method req ≠ "GET" ∧ Simple.method req ≠ "POST") →
  Simple.handleRequestAs resolve w req s
  = mkReply (Simple.sendJson 404 (errorObj "Not found")) s [].
Proof.
  intros Hopt H. unfold Simple.handleRequestAs. case_decide; [done|].
  destruct H as [[Hh Hprot]|([u Hu] & Hp & Hg & Hpost)].
  - unfold protected, programmePath, scriptPath in Hprot.
    unfold Simple.routes, Simple.programmesRoute, Simple.programmeRoute,
      Simple.scriptsRoute, Simple.scriptRoute.
    destruct (startsWith _ "/api/programmes/") eqn:E1; [naive_solver|].
    destruct (startsWith _ "/api/scripts/") eqn:E2; [naive_solver|].
    repeat case_decide; naive_solver.
  - destruct Hp as [Hp|Hp].
    + rewrite SimpleFacts.routes_programmes by done.
      unfold Simple.programmesRoute. rewrite Hu. by repeat case_decide.
    + rewrite SimpleFacts.routes_scripts by done.
      unfold Simple.scriptsRoute. rewrite Hu. by repeat case_decide.
Qed.

(** ** What comes back from a provider *)

(** How the generate route of the simple server turns the outcome of the
    selected helper into its reply. *)
Lemma simple_generate_outcome resolve w req s u b p :
  Simple.userOf resolve req = Some u →
  Simple.method req = "POST" →
  Simple.pathname req = "/api/generate" →
  Simple.parsed req = Return b →
  truthy (prop "model" b) = true →
  truthy (prop "prompt" b) = true →
  selected (toLowerCase (ToString (prop "model" b))) = Some p →
  Simple.handleRequestAs resolve w req s
  = mkReply match (call p w (prop "prompt" b)).2 with
            | Return v => Simple.sendJson 200 (OfValue v)
            | Throw m => Simple.sendJson 500 (errorObj (shownMessage m))
            end
            s (call p w (prop "prompt" b)).1.
Proof.
  intros Hu Hm Hp Hb Hmodel Hprompt Hsel.
  rewrite simple_generate_reached by done.
  unfold Simple.generate. rewrite Hu, Hb.
  rewrite (destructured_object "model") by by apply truthy_defined.
  cbv zeta.
  rewrite Hmodel, Hprompt, (selected_stringifiable _ p Hsel), Hsel.
  cbn [negb orb].
  unfold Simple.forwarded.
  by destruct (call p w (prop "prompt" b)) as [events [v|m]].
Qed.

Lemma express_generate_outcome w req s selector p :
  Express.lowered (prop "model" (Express.body req)) = Return selector →
  selected selector = Some p →
  Express.generate w req s
  = mkReply match (call p w (prop "prompt" (Express.body req))).2 with
            | Return v => Express.json_ 200 (OfValue v)
            | Throw m => Express.json_ 500 (errorObj m)
            end
            s (call p w (prop "prompt" (Express.body req))).1.
Proof.
  intros Hlow Hsel. unfold Express.generate.
  rewrite (express_destructured_object "model")
    by (by eapply express_lowered_object).
  cbv zeta. rewrite Hlow, Hsel.
  unfold Express.forwarded.
  by destruct (call p w _) as [events [v|m]].
Qed.

Lemma call_fetched (p : Provider) (w : World) (prompt : JsVal) key :
  credential w (keyName p) = Some key →
  ∃ r, call p w prompt = ([Invoked p prompt; Fetched r],
                          (request w (labelOf p) r).2)
       ∧ promptOf r = prompt.
Proof.
  intros H. destruct p; simpl in *;
    unfold callGemini, callClaude, callOpenAI, entered; rewrite H;
    eexists; (split; [reflexivity|done]).
Qed.

Lemma labelled_nonempty (p : Provider) (rest : string) :
  shownMessage (labelOf p ++ rest) = labelOf p ++ rest.
Proof. by destruct p. Qed.

(** X11.  Upstream failures.  When the credential is configured and the
    provider answers with a non-success status, the helper throws
    "<Provider> API error: <status> – <body text>" and the generate request
    is answered 500 with that message; when the fetch itself fails, the
    request is answered 500 with the message of that failure, which the
    simple server replaces by "Internal Server Error" when it is empty.
    Nothing is stored and nothing is retried: the run has one fetch.  Both
    servers. *)
Theorem upstream_failure (p : Provider) (w : World) (key : string)
        (outcome : Outcome FetchResponse) :
  credential w (keyName p) = Some key →
  (∀ r, fetch w r = outcome) →
  ∀ message,
    match outcome with
    | Throw e => message = e
    | Return resp =>
        ok resp = false
        ∧ ∃ t, text resp = Return t
               ∧ message = labelOf p ++ " API error: "
                             ++ pretty (status resp) ++ " – " ++ t
    end →
    (∀ resolve req s u b,
        Simple.userOf resolve req = Some u →
        Simple.method req = "POST" →
        Simple.pathname req = "/api/generate" →
        Simple.parsed req = Return b →
        truthy (prop "model" b) = true →
        truthy (prop "prompt" b) = true →
        selected (toLowerCase (ToString (prop "model" b))) = Some p →
        let reply := Simple.handleRequestAs resolve w req s in
        response reply = Simple.sendJson 500 (errorObj (shownMessage message))
        ∧ store reply = s
        ∧ length (fetchesOf (trace reply)) = 1%nat)
    ∧ (∀ req s selector,
          Express.lowered (prop "model" (Express.body req)) = Return selector →
          selected selector = Some p →
          let reply := Express.generate w req s in
          response reply = Express.json_ 500 (errorObj message)
          ∧ store reply = s
          ∧ length (fetchesOf (trace reply)) = 1%nat)
    ∧ match outcome with
      | Throw _ => True
      | Return _ => shownMessage message = message
      end.
Proof.
  intros Hkey Hfetch message Hout.
  assert (∀ prompt, ∃ r, call p w prompt
            = ([Invoked p prompt; Fetched r], Throw message)) as Hcall.
  { intros prompt.
    destruct (call_fetched p w prompt key Hkey) as (r & -> & _).
    exists r. f_equal. unfold request. cbn [snd]. rewrite Hfetch.
    destruct outcome as [resp|e]; [|by subst].
    destruct Hout as (-> & t & -> & ->). done. }
  split; [|split].
  - intros resolve req s u b Hu Hm Hp Hb Hmodel Hprompt Hsel. cbv zeta.
    rewrite (simple_generate_outcome _ _ _ _ u b p) by done.
    destruct (Hcall (prop "prompt" b)) as [r ->]. done.
  - intros req s selector Hlow Hsel. cbv zeta.
    rewrite (express_generate_outcome _ _ _ selector p) by done.
    destruct (Hcall (prop "prompt" (Express.body req))) as [r ->]. done.
  - destruct outcome as [resp|e]; [|done].
    destruct Hout as (_ & t & _ & ->). apply labelled_nonempty.
Qed.

(** X12.  Upstream success.  When the credential is configured and the
    provider answers with a success status, the generate request is
    answered 200 with the JSON of the provider as it came, after exactly one
    fetch that carries the prompt of the request; nothing is stored.  Both
    servers. *)
Theorem upstream_success (p : Provider) (w : World) (key : string)
        (resp : FetchResponse) (v : JsVal) :
  credential w (keyName p) = Some key →
  (∀ r, fetch w r = Return resp) →
  ok resp = true →
  json resp = Return v →
  (∀ resolve req s u b,
      Simple.userOf resolve req = Some u →
      Simple.method req = "POST" →
      Simple.pathname req = "/api/generate" →
      Simple.parsed req = Return b →
      truthy (prop "model" b) = true →
      truthy (prop "prompt" b) = true →
      selected (toLowerCase (ToString (prop "model" b))) = Some p →
      let reply := Simple.handleRequestAs resolve w req s in
      response reply = Simple.sendJson 200 (OfValue v)
      ∧ store reply = s
      ∧ ∃ r, fetchesOf (trace reply) = [r] ∧ promptOf r = prop "prompt" b)
  ∧ (∀ req s selector,
        Express.lowered (prop "model" (Express.body req)) = Return selector →
        selected selector = Some p →
        let reply := Express.generate w req s in
        response reply = Express.json_ 200 (OfValue v)
        ∧ store reply = s
        ∧ ∃ r, fetchesOf (trace reply) = [r]
               ∧ promptOf r = prop "prompt" (Express.body req)).
Proof.
  intros Hkey Hfetch Hok Hjson.
  assert (∀ prompt, ∃ r, call p w prompt
            = ([Invoked p prompt; Fetched r], Return v)
            ∧ promptOf r = prompt) as Hcall.
  { intros prompt.
    destruct (call_fetched p w prompt key Hkey) as (r & -> & Hr).
    exists r. split; [|done]. f_equal. unfold request. cbn [snd].
    by rewrite Hfetch, Hok. }
  split.
  - intros resolve req s u b Hu Hm Hp Hb Hmodel Hprompt Hsel. cbv zeta.
    rewrite (simple_generate_outcome _ _ _ _ u b p) by done.
    destruct (Hcall (prop "prompt" b)) as (r & -> & Hr). by eauto.
  - intros req s selector Hlow Hsel. cbv zeta.
    rewrite (express_generate_outcome _ _ _ selector p) by done.
    destruct (Hcall (prop "prompt" (Express.body req))) as (r & -> & Hr).
    by eauto.
Qed.

(** ** Model names *)

Lemma toLowerCase_empty (m : string) : toLowerCase m = "" ↔ m = "".
Proof. by destruct m. Qed.

Lemma selected_nonempty (x : string) (p : Provider) :
  selected x = Some p → x ≠ "".
Proof. by intros H ->. Qed.

(** X13.  Model names are matched without regard to case, and chatgpt is
    another name for openai: two generate requests that differ only in the
    spelling of the model are answered alike when the lowercased names are
    equal or select the same provider.  Both servers. *)
Theorem model_name_spelling (m1 m2 : string) :
  toLowerCase m1 = toLowerCase m2
  ∨ (∃ p, selected (toLowerCase m1) = Some p
          ∧ selected (toLowerCase m2) = Some p) →
  (∀ resolve w s req1 req2 u b1 b2,
      Simple.userOf resolve req1 = Some u →
      Simple.userOf resolve req2 = Some u →
      Simple.method req1 = "POST" → Simple.pathname req1 = "/api/generate" →
      Simple.method req2 = "POST" → Simple.pathname req2 = "/api/generate" →
      Simple.parsed req1 = Return b1 → Simple.parsed req2 = Return b2 →
      prop "model" b1 = JStr m1 → prop "model" b2 = JStr m2 →
      prop "prompt" b1 = prop "prompt" b2 →
      Simple.handleRequestAs resolve w req1 s
      = Simple.handleRequestAs resolve w req2 s)
  ∧ (∀ w s req1 req2,
        prop "model" (Express.body req1) = JStr m1 →
        prop "model" (Express.body req2) = JStr m2 →
        prop "prompt" (Express.body req1) = prop "prompt" (Express.body req2) →
        Express.generate w req1 s = Express.generate w req2 s).
Proof.
  intros Hsame.
  assert (selected (toLowerCase m1) = selected (toLowerCase m2)) as Hsel.
  { destruct Hsame as [->|(p & -> & ->)]; done. }
  assert (m1 = "" ↔ m2 = "") as Hempty.
  { destruct Hsame as [Heq|(p & H1 & H2)].
    - rewrite <- (toLowerCase_empty m1), <- (toLowerCase_empty m2).
      by rewrite Heq.
    - apply selected_nonempty in H1, H2.
      rewrite toLowerCase_empty in H1, H2. naive_solver. }
  split.
  - intros resolve w s req1 req2 u b1 b2 Hu1 Hu2 Hm1 Hp1 Hm2 Hp2 Hb1 Hb2
           Hmod1 Hmod2 Hprompt.
    rewrite !simple_generate_reached by done.
    unfold Simple.generate. rewrite Hu1, Hu2, Hb1, Hb2.
    rewrite !(destructured_object "model") by congruence.
    cbv zeta. rewrite Hmod1, Hmod2, Hprompt.
    cbn [ToString truthy]. rewrite Hsel.
    by rewrite (bool_decide_ext _ _ Hempty).
  - intros w s req1 req2 Hmod1 Hmod2 Hprompt.
    unfold Express.generate.
    rewrite !(express_destructured_object "model") by congruence.
    cbv zeta. unfold Express.lowered, js_or.
    rewrite Hmod1, Hmod2, Hprompt. cbn [truthy].
    rewrite (bool_decide_ext _ _ Hempty).
    destruct (bool_decide (m2 = "")); cbn [negb]; [done|].
    by rewrite Hsel.
Qed.

(** ** Bodies that cannot be read *)

(** The routes of the simple server that read the body: what they answer
    when reading it throws. *)
Lemma simple_body_thrown resolve w req s u (message : string → string) :
  Simple.userOf resolve req = Some u →
  (∀ first, Simple.destructured first (Simple.parsed req)
            = Throw (message first)) →
  (Simple.method req = "POST"
   ∧ (Simple.pathname req = "/api/generate"
      ∨ Simple.pathname req = "/api/programmes"
      ∨ Simple.pathname req = "/api/scripts"))
  ∨ (Simple.method req = "PUT"
     ∧ ((startsWith (Simple.pathname req) "/api/programmes/" = true
         ∧ split_pop (Simple.pathname req)
             ∈ Programme.id <$> listOf (programmes s) u)
        ∨ (startsWith (Simple.pathname req) "/api/scripts/" = true
           ∧ split_pop (Simple.pathname req)
               ∈ Script.id <$> listOf (scripts s) u))) →
  ∃ first,
    Simple.handleRequestAs resolve w req s
    = mkReply (Simple.sendJson 500 (errorObj (shownMessage (message first))))
              s [].
Proof.
  intros Hu He [[Hm [Hp|[Hp|Hp]]]|[Hm [[Hp Hin]|[Hp Hin]]]].
  - exists "model". rewrite simple_generate_reached by done.
    unfold Simple.generate. by rewrite Hu, He.
  - exists "name". unfold Simple.handleRequestAs.
    rewrite SimpleFacts.routes_programmes by done.
    unfold Simple.programmesRoute. rewrite Hp, Hu, Hm, He.
    by repeat case_decide.
  - exists "programmeId". unfold Simple.handleRequestAs.
    rewrite SimpleFacts.routes_scripts by done.
    unfold Simple.scriptsRoute. rewrite Hp, Hu, Hm, He.
    by repeat case_decide.
  - exists "name". unfold Simple.handleRequestAs.
    rewrite SimpleFacts.routes_programme by done.
    unfold Simple.programmeRoute. rewrite Hp, Hu, Hm, He.
    destruct (findIndex _ _ _) as [[i x]|] eqn:Hfind.
    + by repeat case_decide.
    + by apply findIndex_None in Hfind.
  - exists "content". unfold Simple.handleRequestAs.
    rewrite SimpleFacts.routes_script by done.
    unfold Simple.scriptRoute. rewrite Hp, Hu, Hm, He.
    destruct (findIndex _ _ _) as [[i x]|] eqn:Hfind.
    + by repeat case_decide.
    + by apply findIndex_None in Hfind.
Qed.

(** X14.  On the simple server an authenticated POST to the generate,
    programmes or scripts route whose body cannot be parsed is answered 500
    with the message of the parse failure ("Internal Server Error" when
    that is empty); so is a PUT on an existing record, served with nothing
    in between.  A body that is the JSON value null is answered 500 as
    well.  In both cases nothing is stored and no helper is entered. *)
Theorem simple_unreadable_body resolve w req s u :
  Simple.userOf resolve req = Some u →
  (Simple.method req = "POST"
   ∧ (Simple.pathname req = "/api/generate"
      ∨ Simple.pathname req = "/api/programmes"
      ∨ Simple.pathname req = "/api/scripts"))
  ∨ (Simple.method req = "PUT"
     ∧ ((startsWith (Simple.pathname req) "/api/programmes/" = true
         ∧ split_pop (Simple.pathname req)
             ∈ Programme.id <$> listOf (programmes s) u)
        ∨ (startsWith (Simple.pathname req) "/api/scripts/" = true
           ∧ split_pop (Simple.pathname req)
               ∈ Script.id <$> listOf (scripts s) u))) →
  let reply := Simple.handleRequestAs resolve w req s in
  (∀ e, Simple.parsed req = Throw e →
        reply = mkReply (Simple.sendJson 500 (errorObj (shownMessage e))) s [])
  ∧ (Simple.parsed req = Return JNull →
     statusCode (response reply) = 500 ∧ store reply = s ∧ trace reply = []).
Proof.
  intros Hu Hroute. cbv zeta. split.
  - intros e He.
    destruct (simple_body_thrown resolve w req s u (λ _, e)) as [first ->];
      try done.
    intros first. by rewrite He.
  - intros He.
    destruct (simple_body_thrown resolve w req s u
                (λ first, "Cannot destructure property '" ++ first
                            ++ "' of 'body' as it is null."))
      as [first ->]; try done.
    intros first. by rewrite He.
Qed.

(** ** Methods on a record path *)

(** X17.  On a record path of the simple server the lookup comes before
    the method: an id that is not in the caller's sequence is answered 404
    "Programme not found" (or "Script not found") for every method but
    OPTIONS, and an id that is there is answered 404 "Not found" for every
    method other than PUT and DELETE.  Nothing is stored. *)
Theorem simple_record_path_methods resolve w req s u :
  Simple.userOf resolve req = Some u →
  Simple.method req ≠ "OPTIONS" →
  let reply := Simple.handleRequestAs resolve w req s in
  let id := split_pop (Simple.pathname req) in
  (startsWith (Simple.pathname req) "/api/programmes/" = true →
   (id ∉ Programme.id <$> listOf (programmes s) u →
    reply = mkReply (Simple.sendJson 404 (errorObj "Programme not found")) s [])
   ∧ (id ∈ Programme.id <$> listOf (programmes s) u →
      Simple.method req ≠ "PUT" → Simple.method req ≠ "DELETE" →
      reply = mkReply (Simple.sendJson 404 (errorObj "Not found")) s []))
  ∧ (startsWith (Simple.pathname req) "/api/scripts/" = true →
     (id ∉ Script.id <$> listOf (scripts s) u →
      reply = mkReply (Simple.sendJson 404 (errorObj "Script not found")) s [])
     ∧ (id ∈ Script.id <$> listOf (scripts s) u →
        Simple.method req ≠ "PUT" → Simple.method req ≠ "DELETE" →
        reply = mkReply (Simple.sendJson 404 (errorObj "Not found")) s [])).
Proof.
  intros Hu Hopt. cbv zeta.
  split; intros Hp; unfold Simple.handleRequestAs;
    (destruct (decide (Simple.method req = "OPTIONS")); [done|]).
  - rewrite SimpleFacts.routes_programme by done.
    unfold Simple.programmeRoute. rewrite Hp, Hu. split.
    + intros Hin%findIndex_None. by rewrite Hin.
    + intros Hin Hput Hdel.
      destruct (findIndex _ _ _) as [[i x]|] eqn:Hfind.
      * by repeat case_decide.
      * by apply findIndex_None in Hfind.
  - rewrite SimpleFacts.routes_script by done.
    unfold Simple.scriptRoute. rewrite Hp, Hu. split.
    + intros Hin%findIndex_None. by rewrite Hin.
    + intros Hin Hput Hdel.
      destruct (findIndex _ _ _) as [[i x]|] eqn:Hfind.
      * by repeat case_decide.
      * by apply findIndex_None in Hfind.
Qed.

(** ** One identity for every token *)

Lemma userOf_getUserId (req : Simple.Request) :
  validBearer (Simple.authorization req) →
  Simple.userOf Simple.getUserId req = Some "demo-user".
Proof.
  intros [Hs Ht]%validBearer_spec. unfold Simple.userOf, Simple.getUserId.
  rewrite Hs. simpl. by case_decide.
Qed.

Lemma authenticateUser_valid (req : Express.Request) :
  validBearer (Express.authorization req) →
  Express.authenticateUser req = inr "demo-user".
Proof. apply authenticateUser_spec. Qed.

(** X8.  Because every accepted token is given the same identity, the
    records are shared by all callers: a programme created with one token
    (by a request whose body can be read) is the first element of the list
    returned to any other token.  Both servers. *)
Theorem tokens_share_one_sequence (s : Store) :
  (∀ w1 w2 req1 req2 b,
      validBearer (Simple.authorization req1) →
      validBearer (Simple.authorization req2) →
      postsProgramme req1 →
      Simple.parsed req1 = Return b → b ≠ JNull → b ≠ JUndefined →
      getsProgrammes req2 →
      response (Simple.handleRequest w2 req2
                  (store (Simple.handleRequest w1 req1 s)))
      = Simple.sendJson 200
          (OfProgrammes (Simple.newProgramme w1 b
                           :: listOf (programmes s) "demo-user")))
  ∧ (∀ w1 w2 req1 req2,
        validBearer (Express.authorization req1) →
        validBearer (Express.authorization req2) →
        Express.body req1 ≠ JUndefined → Express.body req1 ≠ JNull →
        response (Express.app Express.GetProgrammes w2 req2
                    (store (Express.app Express.PostProgrammes w1 req1 s)))
        = Express.json_ 200
            (OfProgrammes (Express.newProgramme w1 (Express.body req1)
                             :: listOf (programmes s) "demo-user"))).
Proof.
  split.
  - intros w1 w2 req1 req2 b H1 H2 Hpost Hb Hn Hd Hget.
    unfold Simple.handleRequest.
    rewrite (simple_post_programme Simple.getUserId w1 req1 s "demo-user"
               (userOf_getUserId _ H1) Hpost), Hb.
    replace (Simple.destructured "name" (Return b)) with (Return b)
      by (by destruct b).
    rewrite (simple_get_programmes Simple.getUserId w2 req2 _ "demo-user"
               (userOf_getUserId _ H2) Hget).
    cbn [store response programmes]. by rewrite listOf_unshift.
  - intros w1 w2 req1 req2 H1 H2 Hd Hn. unfold Express.app.
    rewrite !authenticateUser_valid by done.
    rewrite express_post_programme, express_destructured_present by done.
    cbn [Express.handler Express.quiet store response programmes].
    by rewrite listOf_unshift.
Qed.

(** ** Addressing a created record *)

Lemma afterLastSlash_no_slash (cur s : string) :
  hasChar "/" s = false → afterLastSlash cur s = cur.
Proof.
  revert cur. induction s as [|c s IH]; intros cur; [done|]. simpl.
  intros [Hc Hs]%orb_false_elim. rewrite Hc. by apply IH.
Qed.

Lemma split_pop_programme (id : string) :
  hasChar "/" id = false → split_pop ("/api/programmes/" ++ id) = id.
Proof.
  intros H. unfold split_pop. rewrite !append_cons, append_nil. simpl.
  by apply afterLastSlash_no_slash.
Qed.

Lemma digits_no_slash (d : string) :
  allDigits d = true → hasChar "/" d = false.
Proof.
  induction d as [|c d IH]; [done|]. simpl.
  intros [Hc Hd]%andb_prop. rewrite (IH Hd), orb_false_r.
  destruct (Ascii.eqb_spec c "/") as [->|]; [done|done].
Qed.

Lemma generateId_no_slash (w : World) (prefix : string) :
  hasChar "/" prefix = false →
  hasChar "/" (substr (random36 w) 2 9) = false →
  hasChar "/" (generateId w prefix) = false.
Proof.
  intros Hp Hs. unfold generateId. rewrite !hasChar_append, Hp, Hs.
  destruct (pretty_Z_shape (now w)) as (d & Hd & _ & [->| ->]); simpl;
    by rewrite digits_no_slash.
Qed.

Lemma findIndex_head {A} (getId : A → string) (x : A) (l : list A) :
  findIndex getId (getId x) (x :: l) = Some (0%nat, x).
Proof.
  apply (findIndex_middle getId [] l x). set_solver.
Qed.

(** X15.  A created programme can be addressed by the id it was given, and
    deleting it undoes the create: when the create had a body that can be
    read and the random suffix has no slash (no output of [toString(36)]
    has one), DELETE /api/programmes/<returned id> is answered 204 and
    leaves the caller's sequence, the scripts and every other user's records
    as they were before the create.  On Express the same holds with the id
    as route parameter. *)
Theorem create_then_delete (u : string) (s : Store) :
  (∀ resolve w1 w2 req1 req2 b,
      Simple.userOf resolve req1 = Some u →
      Simple.userOf resolve req2 = Some u →
      postsProgramme req1 →
      Simple.parsed req1 = Return b → b ≠ JNull → b ≠ JUndefined →
      hasChar "/" (substr (random36 w1) 2 9) = false →
      Simple.method req2 = "DELETE" →
      Simple.pathname req2
      = "/api/programmes/" ++ Programme.id (Simple.newProgramme w1 b) →
      let created := Simple.handleRequestAs resolve w1 req1 s in
      let deleted := Simple.handleRequestAs resolve w2 req2 (store created) in
      response created
      = Simple.sendJson 201 (OfProgramme (Simple.newProgramme w1 b))
      ∧ statusCode (response deleted) = 204
      ∧ listOf (programmes (store deleted)) u = listOf (programmes s) u
      ∧ scripts (store deleted) = scripts s
      ∧ ∀ v, v ≠ u → programmes (store deleted) !! v = programmes s !! v)
  ∧ (∀ w1 w2 req1 req2,
        Express.body req1 ≠ JUndefined → Express.body req1 ≠ JNull →
        Express.params_id req2
        = Programme.id (Express.newProgramme w1 (Express.body req1)) →
        let created := Express.handler Express.PostProgrammes u w1 req1 s in
        let deleted :=
          Express.handler Express.DeleteProgramme u w2 req2 (store created) in
        response created
        = Express.json_ 201
            (OfProgramme (Express.newProgramme w1 (Express.body req1)))
        ∧ statusCode (response deleted) = 204
        ∧ listOf (programmes (store deleted)) u = listOf (programmes s) u
        ∧ scripts (store deleted) = scripts s
        ∧ ∀ v, v ≠ u → programmes (store deleted) !! v = programmes s !! v).
Proof.
  split.
  - intros resolve w1 w2 req1 req2 b Hu1 Hu2 Hpost Hb Hn Hd Hslash Hm Hp.
    cbv zeta.
    rewrite (simple_post_programme resolve w1 req1 s u Hu1 Hpost), Hb.
    replace (Simple.destructured "name" (Return b)) with (Return b)
      by (by destruct b).
    cbn [store response]. split; [done|].
    assert (split_pop (Simple.pathname req2)
            = Programme.id (Simple.newProgramme w1 b)) as Hid.
    { rewrite Hp. apply split_pop_programme.
      by apply generateId_no_slash. }
    rewrite (simple_delete_programme _ _ _ _ u 0 (Simple.newProgramme w1 b)).
    + cbn [response store statusCode programmes scripts
             Simple.withProgrammes Simple.sendJson].
      rewrite listOf_unshift. cbn [delete list_delete].
      rewrite listOf_insert. repeat split; [done..|].
      intros v Hv. unfold unshift. by rewrite !lookup_insert_ne.
    + done.
    + done.
    + rewrite Hp. by destruct (Programme.id _).
    + rewrite Hid. cbn [programmes]. rewrite listOf_unshift.
      apply findIndex_head.
  - intros w1 w2 req1 req2 Hd Hn Hid. cbv zeta.
    rewrite express_post_programme, express_destructured_present by done.
    cbn [store response]. split; [done|].
    rewrite (express_delete_programme _ _ _ _ 0
               (Express.newProgramme w1 (Express.body req1))).
    2:{ cbn [programmes]. rewrite listOf_unshift, Hid. apply findIndex_head. }
    cbn [response store statusCode programmes scripts].
    rewrite listOf_unshift. cbn [delete list_delete].
    rewrite listOf_insert. repeat split; [done..|].
    intros v Hv. unfold unshift. by rewrite !lookup_insert_ne.
Qed.

(** ** Updating a programme *)

(** X16.  A PUT on a programme of the caller's sequence whose body can be
    read replaces the record in place: id and createdAt are kept, updatedAt
    is stamped, and each of name, genre, targetAudience, episodeLength is
    set to what the body has under that name, undefined when the body does
    not have it.  For styleReferences the simple server stores [[]] when
    the body has none, the Express server stores undefined.  The response
    carries the stored record; no other record changes.  On the simple
    server this is so when the caller's programmes are the same at the end
    of the wait for the body as they were at its start, whatever else was
    served in between. *)
Theorem put_programme_replaces (u : string) (s : Store)
        (before after : list Programme.t) (x : Programme.t) :
  listOf (programmes s) u = (before ++ x :: after)%list →
  Programme.id x ∉ Programme.id <$> before →
  (∀ resolve w req b during,
      Simple.userOf resolve req = Some u →
      Simple.method req = "PUT" →
      startsWith (Simple.pathname req) "/api/programmes/" = true →
      split_pop (Simple.pathname req) = Programme.id x →
      Simple.parsed req = Return b → b ≠ JNull → b ≠ JUndefined →
      let s1 := (Simple.serve resolve during s).2 in
      listOf (programmes s1) u = listOf (programmes s) u →
      let x' := Programme.mk (Programme.id x) (prop "name" b) (prop "genre" b)
                  (prop "targetAudience" b) (prop "episodeLength" b)
                  (if truthy (prop "styleReferences" b)
                   then prop "styleReferences" b else JArr [])
                  (Programme.createdAt x) (Some (isoNow w)) in
      Simple.putInterleaved resolve w req during s
      = Some (mkReply (Simple.sendJson 200 (OfProgramme x'))
                (mkStore (<[u := (before ++ x' :: after)%list]> (programmes s1))
                         (scripts s1)) []))
  ∧ (∀ w req,
        Express.params_id req = Programme.id x →
        Express.body req ≠ JUndefined → Express.body req ≠ JNull →
        let b := Express.body req in
        let x' := Programme.mk (Programme.id x) (prop "name" b)
                    (prop "genre" b) (prop "targetAudience" b)
                    (prop "episodeLength" b) (prop "styleReferences" b)
                    (Programme.createdAt x) (Some (isoNow w)) in
        Express.handler Express.PutProgramme u w req s
        = mkReply (Express.json_ 200 (OfProgramme x'))
                  (mkStore (<[u := (before ++ x' :: after)%list]>
                              (programmes s))
                           (scripts s)) []).
Proof.
  intros Hl Hb. split.
  - intros resolve w req b during Hu Hm Hp Hid Hbody Hn Hd. cbv zeta.
    intros Hsame. unfold Simple.putInterleaved.
    rewrite (arrived_programme _ _ _ u (length before) x); try done.
    2:{ rewrite Hl, Hid. by apply findIndex_middle. }
    rewrite Hl in Hsame.
    rewrite (resumed_programme _ _ _ _ before x after), Hbody by done.
    by destruct b.
  - intros w req Hid Hd Hn. cbv zeta. unfold Express.handler.
    rewrite express_destructured_present by done.
    rewrite Hl, Hid, findIndex_middle by done.
    by rewrite insert_middle.
Qed.

(** ** What an Express callback can do *)

(** X19.  Effects of the Express callbacks.  Only the generate callback
    enters a provider helper, and it issues at most one fetch; only the
    three programme-writing callbacks change the programmes and only the
    three script-writing ones change the scripts; and a callback changes
    nothing that belongs to a user other than [req.user.uid]. *)
Theorem express_effects (route : Express.Route) (u : string) (w : World)
        (req : Express.Request) (s : Store) :
  let reply := Express.handler route u w req s in
  (length (fetchesOf (trace reply)) ≤ 1)%nat
  ∧ (route ≠ Express.PostGenerate → trace reply = [])
  ∧ (route ∉ [Express.PostProgrammes; Express.PutProgramme;
              Express.DeleteProgramme] →
     programmes (store reply) = programmes s)
  ∧ (route ∉ [Express.PostScripts; Express.PutScript; Express.DeleteScript] →
     scripts (store reply) = scripts s)
  ∧ (∀ v, v ≠ u → programmes (store reply) !! v = programmes s !! v
                  ∧ scripts (store reply) !! v = scripts s !! v).
Proof.
  cbv zeta. split; [|split; [|split; [|split]]].
  - destruct route; try (unfold Express.handler, Express.quiet;
      repeat case_match; simpl; lia).
    unfold Express.handler, Express.generate.
    destruct (Express.destructured _ _) as [b|e]; [|simpl; lia].
    cbv zeta. destruct (Express.lowered _); [|simpl; lia].
    destruct (selected _) as [p|]; [|simpl; lia].
    rewrite express_forwarded_trace.
    destruct (call_trace p w (prop "prompt" b))
      as [->|[r ->]]; simpl; lia.
  - intros Hroute. destruct route; try done;
      unfold Express.handler, Express.quiet; by repeat case_match.
  - intros Hroute.
    destruct route; try (exfalso; apply Hroute; set_solver);
      unfold Express.handler, Express.quiet;
      rewrite ?express_generate_keeps_store; by repeat case_match.
  - intros Hroute.
    destruct route; try (exfalso; apply Hroute; set_solver);
      unfold Express.handler, Express.quiet;
      rewrite ?express_generate_keeps_store; by repeat case_match.
  - intros v Hv. by apply (express_step_isolated route u w req s).
Qed.

(** ** Credentials after start-up *)

Lemma call_without_credential (p : Provider) (w : World) (prompt : JsVal) :
  credential w (keyName p) = None →
  call p w prompt = ([Invoked p prompt], Throw (keyName p ++ " not configured")).
Proof.
  intros H. destruct p; simpl in *;
    unfold callGemini, callClaude, callOpenAI; by rewrite H.
Qed.

(** X4.  What the helpers see once [loadDotEnv] has run.  A credential
    variable that the environment had keeps its value, so a variable set to
    the empty string still counts as not configured whatever [.env] says;
    a variable the environment did not have is configured by the first line
    of [.env] that gives it a non-empty value. *)
Theorem credential_after_start (p : Provider) (w : World)
        (file : option (Outcome string)) :
  (∀ v, env w !! keyName p = Some v →
        credential (started file w) (keyName p) = credential w (keyName p))
  ∧ (env w !! keyName p = Some "" →
     ∀ prompt, call p (started file w) prompt
               = ([Invoked p prompt], Throw (keyName p ++ " not configured")))
  ∧ (∀ text v,
        file = Some (Return text) →
        env w !! keyName p = None →
        firstDefinition (keyName p) (splitLines text) = Some v →
        v ≠ "" →
        credential (started file w) (keyName p) = Some v).
Proof.
  assert (∀ v, env w !! keyName p = Some v →
               env (started file w) !! keyName p = Some v) as Hkeep.
  { intros v Hv. unfold started. cbn [env].
    destruct file as [[text|e]|]; try done.
    unfold loadDotEnv. by rewrite load_lines_lookup, Hv. }
  split; [|split].
  - intros v Hv. unfold credential. by rewrite (Hkeep v Hv), Hv.
  - intros Hv prompt. apply call_without_credential.
    unfold credential. by rewrite (Hkeep _ Hv).
  - intros text v -> Hnone Hfirst Hne. unfold credential, started.
    cbn [env]. unfold loadDotEnv. rewrite load_lines_lookup, Hnone.
    rewrite decide_False by (by destruct p). rewrite Hfirst.
    by case_decide.
Qed.

(** ** The two servers side by side *)



(** ** The properties above on concrete inputs *)

Lemma loadDotEnv_crlf_witness :
  loadDotEnv (Some (Return (crlf Cases.dotenv))) ∅
  = loadDotEnv (Some (Return Cases.dotenv)) ∅.
Proof. apply (loadDotEnv_crlf Cases.dotenv ∅). reflexivity. Defined.

Lemma credential_after_start_witness :
  credential (started (Some (Return Cases.dotenv)) (Sample.bare 0 ""))
             "GEMINI_API_KEY"
  = Some "from-file".
Proof.
  apply (proj2 (proj2 (credential_after_start Gemini (Sample.bare 0 "")
                         (Some (Return Cases.dotenv))))
               Cases.dotenv "from-file"); try reflexivity. discriminate.
Defined.

Lemma simple_unauthenticated_witness :
  Simple.handleRequest Sample.configured
    (Cases.anonymous "DELETE" "/api/programmes/p1") Sample.stocked
  = mkReply (Simple.sendJson 401
               (errorObj "Missing or invalid authorization token"))
            Sample.stocked [].
Proof.
  apply (simple_unauthenticated Simple.getUserId).
  - reflexivity.
  - discriminate.
  - right. left. right. reflexivity.
Defined.

Lemma placeholder_authentication_witness :
  Simple.getUserId (Sample.getProgrammes "any-token") = Some "demo-user".
Proof.
  apply (proj1 (proj1 placeholder_authentication
                      (Sample.getProgrammes "any-token"))).
  exists "any-token". split; [discriminate|reflexivity].
Defined.

Lemma tokens_share_one_sequence_witness :
  response (Simple.handleRequest (Sample.bare 2 "0.b")
              (Sample.getProgrammes "bob")
              (store (Simple.handleRequest (Sample.bare 1 "0.a")
                        (Sample.postProgramme "alice" "noir")
                        Sample.stocked)))
  = Simple.sendJson 200
      (OfProgrammes (Simple.newProgramme (Sample.bare 1 "0.a")
                       (Sample.fields "noir")
                       :: listOf (programmes Sample.stocked) "demo-user")).
Proof.
  apply (proj1 (tokens_share_one_sequence Sample.stocked)).
  - exists "alice". split; [discriminate|reflexivity].
  - exists "bob". split; [discriminate|reflexivity].
  - split; reflexivity.
  - reflexivity.
  - discriminate.
  - discriminate.
  - split; reflexivity.
Defined.

Lemma simple_store_frame_witness :
  store (Simple.handleRequest Sample.configured
           (Sample.getProgrammes "t") Sample.stocked)
  = Sample.stocked.
Proof.
  apply (proj1 (proj2 (proj2 (simple_store_frame Simple.getUserId
                                Sample.configured (Sample.getProgrammes "t")
                                Sample.stocked))));
    discriminate.
Defined.

Lemma simple_upstream_calls_witness :
  let req := Sample.generate "t" (JStr "gemini") (JStr "hi") in
  Simple.method req = "POST" ∧ Simple.pathname req = "/api/generate"
  ∧ is_Some (Simple.userOf Simple.getUserId req).
Proof.
  apply (proj2 (simple_upstream_calls Simple.getUserId Sample.configured
                  (Sample.generate "t" (JStr "gemini") (JStr "hi"))
                  Sample.stocked)).
  vm_compute. discriminate.
Defined.

Lemma upstream_failure_witness :
  let reply := Simple.handleRequest (Cases.answered Cases.overloaded)
                 (Sample.generate "t" (JStr "Claude") (JStr "hi"))
                 Sample.stocked in
  response reply
  = Simple.sendJson 500
      (errorObj (shownMessage ("Claude" ++ " API error: " ++ pretty 429
                                 ++ " – " ++ "slow down")))
  ∧ store reply = Sample.stocked
  ∧ length (fetchesOf (trace reply)) = 1%nat.
Proof.
  apply (proj1 (upstream_failure Claude (Cases.answered Cases.overloaded)
                  "c-key" (Return Cases.overloaded) eq_refl
                  (λ _, eq_refl) _
                  (conj eq_refl (ex_intro _ "slow down"
                                   (conj eq_refl eq_refl))))
               Simple.getUserId _ _ "demo-user" (Cases.asking "Claude"));
    reflexivity.
Defined.

Lemma upstream_success_witness :
  let reply := Simple.handleRequest (Cases.answered Cases.fine)
                 (Sample.generate "t" (JStr "openai") (JStr "hi"))
                 Sample.stocked in
  response reply
  = Simple.sendJson 200 (OfValue (JObj [("answer", JStr "hi")]))
  ∧ store reply = Sample.stocked
  ∧ ∃ r, fetchesOf (trace reply) = [r] ∧ promptOf r = JStr "hi".
Proof.
  apply (proj1 (upstream_success OpenAI (Cases.answered Cases.fine) "o-key"
                  Cases.fine (JObj [("answer", JStr "hi")]) eq_refl
                  (λ _, eq_refl) eq_refl eq_refl)
               Simple.getUserId _ _ "demo-user" (Cases.asking "openai"));
    reflexivity.
Defined.

Lemma model_name_spelling_witness :
  Simple.handleRequest Sample.configured
    (Sample.generate "t" (JStr "ChatGPT") (JStr "hi")) Sample.stocked
  = Simple.handleRequest Sample.configured
      (Sample.generate "t" (JStr "openai") (JStr "hi")) Sample.stocked.
Proof.
  apply (proj1 (model_name_spelling "ChatGPT" "openai"
                  (or_intror (ex_intro _ OpenAI (conj eq_refl eq_refl))))
               Simple.getUserId _ _ _ _ "demo-user"
               (Cases.asking "ChatGPT") (Cases.asking "openai"));
    reflexivity.
Defined.

Lemma simple_unreadable_body_witness :
  Simple.handleRequest Sample.configured
    (Cases.unreadable "PUT" "/api/scripts/s1") Sample.stocked
  = mkReply (Simple.sendJson 500
               (errorObj (shownMessage "Unexpected end of JSON input")))
            Sample.stocked [].
Proof.
  apply (proj1 (simple_unreadable_body Simple.getUserId Sample.configured
                  (Cases.unreadable "PUT" "/api/scripts/s1") Sample.stocked
                  "demo-user" eq_refl
                  ltac:(right; split; [reflexivity|]; right;
                        split; [reflexivity|];
                        apply (bool_decide_unpack _); vm_compute; exact I))
               "Unexpected end of JSON input" eq_refl).
Defined.

Lemma create_then_delete_witness :
  let w := Sample.bare 1700000000000 "0.4fzyo82mvyr" in
  let created := Simple.handleRequest w (Sample.postProgramme "t" "noir")
                   Sample.stocked in
  let deleted :=
    Simple.handleRequest w
      (Sample.deleteProgramme "t" "programme-1700000000000-4fzyo82mv")
      (store created) in
  response created
  = Simple.sendJson 201
      (OfProgramme (Simple.newProgramme w (Sample.fields "noir")))
  ∧ statusCode (response deleted) = 204
  ∧ listOf (programmes (store deleted)) "demo-user"
    = listOf (programmes Sample.stocked) "demo-user"
  ∧ scripts (store deleted) = scripts Sample.stocked
  ∧ ∀ v, v ≠ "demo-user" →
         programmes (store deleted) !! v = programmes Sample.stocked !! v.
Proof.
  apply (proj1 (create_then_delete "demo-user" Sample.stocked)
               Simple.getUserId _ _ _ _ (Sample.fields "noir"));
    first [reflexivity | discriminate | split; reflexivity].
Defined.

Lemma put_programme_replaces_witness :
  let x' := Programme.mk "p1" (JStr "Morning Show") (JStr "drama")
              JUndefined JUndefined (JArr [])
              "2023-11-14T22:13:20.000Z" (Some "2023-11-14T22:13:20.000Z") in
  let during := [(Sample.bare 0 "", Sample.deleteScript "t" "s2")] in
  let s1 := (Simple.serve Simple.getUserId during Sample.stocked).2 in
  Simple.putInterleaved Simple.getUserId (Sample.bare 0 "")
    (Sample.putProgramme "t" "p1" "Morning Show") during Sample.stocked
  = Some (mkReply (Simple.sendJson 200 (OfProgramme x'))
            (mkStore (<["demo-user" := [Sample.aProgramme "p2"; x'] ]>
                        (programmes s1))
                     (scripts s1)) []).
Proof.
  apply (proj1 (put_programme_replaces "demo-user" Sample.stocked
                  [Sample.aProgramme "p2"] [] (Sample.aProgramme "p1")
                  eq_refl
                  ltac:(apply (bool_decide_unpack _); vm_compute; exact I))
               Simple.getUserId (Sample.bare 0 "")
               (Sample.putProgramme "t" "p1" "Morning Show")
               (Sample.fields "Morning Show")
               [(Sample.bare 0 "", Sample.deleteScript "t" "s2")]);
    first [reflexivity | discriminate].
Defined.

Lemma simple_record_path_methods_witness :
  Simple.handleRequest Sample.configured
    (Simple.mkRequest "GET" "/api/programmes/p1" (Sample.bearer "t")
       (Return (JObj []))) Sample.stocked
  = mkReply (Simple.sendJson 404 (errorObj "Not found")) Sample.stocked [].
Proof.
  apply (proj2 (proj1 (simple_record_path_methods Simple.getUserId
                         Sample.configured
                         (Simple.mkRequest "GET" "/api/programmes/p1"
                            (Sample.bearer "t") (Return (JObj [])))
                         Sample.stocked "demo-user" eq_refl
                         ltac:(discriminate)) eq_refl));
    [apply (bool_decide_unpack _); vm_compute; exact I
    |discriminate|discriminate].
Defined.

Lemma simple_no_route_witness :
  Simple.handleRequest Sample.configured
    (Cases.anonymous "POST" "/api/health") Sample.stocked
  = mkReply (Simple.sendJson 404 (errorObj "Not found")) Sample.stocked [].
Proof.
  apply (simple_no_route Simple.getUserId).
  - discriminate.
  - left. split.
    + intros [? _]. discriminate.
    + intros [[_ ?]|[[?|?]|[?|?]]]; discriminate.
Defined.

Lemma express_effects_witness :
  trace (Express.handler Express.DeleteScript "demo-user" Sample.configured
           (Sample.express "s1" (JObj [])) Sample.stocked) = [].
Proof.
  apply (proj1 (proj2 (express_effects Express.DeleteScript "demo-user"
                         Sample.configured (Sample.express "s1" (JObj []))
                         Sample.stocked))).
  discriminate.
Defined.
